(** * Target-agnostic USB device controller driver (machine/usb/dcd.go)

    A shallow embedding of the device controller driver: the SETUP packet
    codec, the device state machine, the event pump, the two-phase control
    dispatcher, the descriptor responder and the instance pool.

    Go's fixed-width unsigned integers are modelled as [Z] with the
    wrap-around of every conversion written out; byte arrays and slices are
    [list Z]; run-time panics (index or slice bounds) are an explicit outcome
    of the execution monad. *)

From Stdlib Require Import ZArith List Bool Lia.
Import ListNotations.
Local Open Scope Z_scope.

(** ** Fixed-width integers *)

Definition u8 (x : Z) : Z := x mod 2 ^ 8.
Definition u16 (x : Z) : Z := x mod 2 ^ 16.
Definition u32 (x : Z) : Z := x mod 2 ^ 32.
Definition u64 (x : Z) : Z := x mod 2 ^ 64.

Definition is_u8 (x : Z) : Prop := 0 <= x < 2 ^ 8.
Definition is_u16 (x : Z) : Prop := 0 <= x < 2 ^ 16.
Definition is_u64 (x : Z) : Prop := 0 <= x < 2 ^ 64.

(** [a << n] on uint64 operands. *)
Definition shl64 (a n : Z) : Z := u64 (Z.shiftl a n).

(** ** SETUP packet codec *)

Record dcdSetup : Type := mkSetup {
  bmRequestType : Z; (* uint8 *)
  bRequest : Z;      (* uint8 *)
  wValue : Z;        (* uint16 *)
  wIndex : Z;        (* uint16 *)
  wLength : Z        (* uint16 *)
}.

(** The zero value [dcdSetup{}]. *)
Definition setup_zero : dcdSetup := mkSetup 0 0 0 0 0.

(** Values the Go type can hold. *)
Definition setup_wf (s : dcdSetup) : Prop :=
  is_u8 (bmRequestType s) /\ is_u8 (bRequest s) /\
  is_u16 (wValue s) /\ is_u16 (wIndex s) /\ is_u16 (wLength s).

(** [func (s *dcdSetup) set(u uint64)]: every field of the receiver is
    overwritten. *)
Definition set (u : Z) (s : dcdSetup) : dcdSetup :=
  {| bmRequestType := u8 (Z.land u 0xFF);
     bRequest := u8 (Z.shiftr (Z.land u 0xFF00) 8);
     wValue := u16 (Z.shiftr (Z.land u 0xFFFF0000) 16);
     wIndex := u16 (Z.shiftr (Z.land u 0xFFFF00000000) 32);
     wLength := u16 (Z.shiftr (Z.land u 0xFFFF000000000000) 48) |}.

(** [func (s dcdSetup) pack() uint64]. *)
Definition pack (s : dcdSetup) : Z :=
  Z.lor (Z.lor (Z.lor (Z.lor
    (shl64 (Z.land (bmRequestType s) 0xFF) 0)
    (shl64 (Z.land (bRequest s) 0xFF) 8))
    (shl64 (Z.land (wValue s) 0xFFFF) 16))
    (shl64 (Z.land (wIndex s) 0xFFFF) 32))
    (shl64 (Z.land (wLength s) 0xFFFF) 48).

(** USB request-type bit fields.

    Modelled from the spec: the descRequestType* constants are declared in a
    file of the package that is not part of the sources at hand.  The spec
    fixes the layout of bmRequestType: recipient in bits 0..4, type in bits
    5..6 (Standard, Class, Vendor), direction in bit 7 (0 = OUT, 1 = IN). *)
Definition descRequestTypeRecipientMsk : Z := 0x1F.
Definition descRequestTypeRecipientDevice : Z := 0x00.
Definition descRequestTypeRecipientInterface : Z := 0x01.
Definition descRequestTypeRecipientEndpoint : Z := 0x02.
Definition descRequestTypeRecipientOther : Z := 0x03.
Definition descRequestTypeTypeMsk : Z := 0x60.
Definition descRequestTypeTypeStandard : Z := 0x00.
Definition descRequestTypeTypeClass : Z := 0x20.
Definition descRequestTypeTypeVendor : Z := 0x40.
Definition descRequestTypeDirMsk : Z := 0x80.
Definition descRequestTypeDirPos : Z := 7.
Definition descRequestTypeDirOut : Z := 0x00.
Definition descRequestTypeDirIn : Z := 0x80.

(** [func (s dcdSetup) direction() uint8]. *)
Definition direction (s : dcdSetup) : Z :=
  Z.shiftr (Z.land (bmRequestType s) descRequestTypeDirMsk)
           descRequestTypeDirPos.

(** [func (s dcdSetup) equals(t dcdSetup) bool]. *)
Definition equals (s t : dcdSetup) : bool :=
  (bmRequestType s =? bmRequestType t) && (bRequest s =? bRequest t) &&
  (wValue s =? wValue t) && (wIndex s =? wIndex t) &&
  (wLength s =? wLength t).

(** Bit [i] of a packed word, for fields already in range. *)
Definition pack_bit (s : dcdSetup) (i : Z) : bool :=
  if i <? 8 then Z.testbit (bmRequestType s) i
  else if i <? 16 then Z.testbit (bRequest s) (i - 8)
  else if i <? 32 then Z.testbit (wValue s) (i - 16)
  else if i <? 48 then Z.testbit (wIndex s) (i - 32)
  else if i <? 64 then Z.testbit (wLength s) (i - 48)
  else false.

(** ** Go slices and arrays

    Indexing and slicing panic out of range; a panic is [None]. *)

Definition len {A : Type} (l : list A) : Z := Z.of_nat (length l).

(** [l[i]]. *)
Definition load {A : Type} (l : list A) (i : Z) : option A :=
  if (i <? 0) || (len l <=? i) then None else nth_error l (Z.to_nat i).

Fixpoint set_nth {A : Type} (n : nat) (v : A) (l : list A) : list A :=
  match l with
  | [] => []
  | x :: l' => match n with
               | O => v :: l'
               | S n' => x :: set_nth n' v l'
               end
  end.

(** [l[i] = v]. *)
Definition store {A : Type} (l : list A) (i : Z) (v : A) : option (list A) :=
  if (i <? 0) || (len l <=? i) then None
  else Some (set_nth (Z.to_nat i) v l).

(** [l[lo:hi]] of an array or of a slice that covers its whole array. *)
Definition slice {A : Type} (l : list A) (lo hi : Z) : option (list A) :=
  if (lo <? 0) || (hi <? lo) || (len l <? hi) then None
  else Some (firstn (Z.to_nat (hi - lo)) (skipn (Z.to_nat lo) l)).

(** The built-in [copy(dst, src)]: the first [min(len(dst), len(src))]
    elements of [dst] are overwritten; the result is the new [dst]. *)
Definition copy {A : Type} (dst src : list A) : list A :=
  firstn (length dst) src ++ skipn (length src) dst.

(** A Go string, as far as the driver looks at it: its length in bytes and
    the (byte offset, rune) pairs a [range] loop over it yields. *)
Record goString : Type := mkString {
  str_len : Z;
  str_range : list (Z * Z)
}.

Definition str_empty : goString := mkString 0 [].

(** [s + lit] for a literal of one-byte runes. *)
Definition str_append (s : goString) (lit : list Z) : goString :=
  {| str_len := str_len s + len lit;
     str_range :=
       str_range s ++
       combine (map (fun k => str_len s + Z.of_nat k) (seq 0 (length lit)))
               lit |}.

(** The literals [" CDC-ACM"] and [" HID"]. *)
Definition lit_CDCACM : list Z := [32; 67; 68; 67; 45; 65; 67; 77].
Definition lit_HID : list Z := [32; 72; 73; 68].

(** ** Device state *)

Definition dcdStateNotReady : Z := 0.
Definition dcdStateDefault : Z := 1.
Definition dcdStateAddressed : Z := 2.
Definition dcdStateConfigured : Z := 3.
Definition dcdStateSuspended : Z := 4.

(** ** Control stage *)

Inductive dcdStage : Type :=
| dcdStageSetup
| dcdStageDataIn
| dcdStageDataOut
| dcdStageStatusIn
| dcdStageStatusOut
| dcdStageStall.

Definition is_stall (g : dcdStage) : bool :=
  match g with dcdStageStall => true | _ => false end.

(** ** Events *)

Definition dcdEventInvalid : Z := 0.
Definition dcdEventStatusReset : Z := 1.
Definition dcdEventStatusResume : Z := 2.
Definition dcdEventStatusSuspend : Z := 3.
Definition dcdEventStatusError : Z := 4.
Definition dcdEventDeviceReady : Z := 5.
Definition dcdEventDeviceAddress : Z := 6.
Definition dcdEventDeviceConfiguration : Z := 7.
Definition dcdEventControlSetup : Z := 8.
Definition dcdEventControlComplete : Z := 9.
Definition dcdEventTransferComplete : Z := 10.
Definition dcdEventTimer : Z := 11.

Record dcdEvent : Type := mkEvent {
  ev_id : Z;           (* uint8 *)
  ev_setup : dcdSetup;
  ev_mask : Z          (* uint32 *)
}.

(** [dcdEvent{id: i}]. *)
Definition event_of_id (i : Z) : dcdEvent := mkEvent i setup_zero 0.

(** ** Device class and descriptor constants *)

Record class : Type := mkClass {
  cid : Z;    (* field id *)
  config : Z  (* int *)
}.

(** Request codes and descriptor types.

    Modelled from the spec: the desc* request and descriptor-type constants
    are declared in the descriptor file of the package, which is not part of
    the sources at hand.  The spec tables give their values. *)
Definition descRequestStandardGetStatus : Z := 0x00.
Definition descRequestStandardClearFeature : Z := 0x01.
Definition descRequestStandardSetFeature : Z := 0x03.
Definition descRequestStandardSetAddress : Z := 0x05.
Definition descRequestStandardGetDescriptor : Z := 0x06.
Definition descRequestStandardGetConfiguration : Z := 0x08.
Definition descRequestStandardSetConfiguration : Z := 0x09.
Definition descCDCRequestSetLineCoding : Z := 0x20.
Definition descCDCRequestSetControlLineState : Z := 0x22.
Definition descCDCRequestSendBreak : Z := 0x23.
Definition descHIDRequestGetReport : Z := 0x01.
Definition descHIDRequestSetReport : Z := 0x09.
Definition descHIDRequestSetIdle : Z := 0x0A.
Definition descTypeDevice : Z := 0x01.
Definition descTypeConfigure : Z := 0x02.
Definition descTypeString : Z := 0x03.
Definition descTypeQualification : Z := 0x06.
Definition descTypeOtherSpeedConfiguration : Z := 0x07.
Definition descTypeHID : Z := 0x21.
Definition descTypeHIDReport : Z := 0x22.
Definition descLengthDevice : Z := 18.
Definition descLengthQualification : Z := 10.
Definition descCDCACMLineCodingSize : Z := 7.

(** The constants and tables of the package the spec gives no value for.
    They are declared outside the sources at hand and stay parameters of
    the development. *)
Record descConsts : Type := mkConsts {
  classDeviceCDCACM : Z;
  classDeviceHID : Z;
  descCDCACMCount : Z;
  descHIDCount : Z;
  coreCount : Z;                  (* len(coreInstance) *)
  descCDCACMConfigSize : Z;
  descHIDConfigSize : Z;
  descCDCACMInterfaceCtrl : Z;
  descHIDSxSize : Z;
  descHIDInterfaceCount : Z;
  descHIDInterfaceKeyboard : Z;
  descHIDInterfaceMouse : Z;
  descHIDInterfaceSerial : Z;
  descHIDInterfaceJoystick : Z;
  descHIDInterfaceMediaKey : Z;
  descHIDConfigKeyboardPos : Z;   (* the Pos constants fit a uint8 *)
  descHIDConfigMousePos : Z;
  descHIDConfigSerialPos : Z;
  descHIDConfigJoystickPos : Z;
  descHIDConfigMediaKeyPos : Z;
  descLengthInterface : Z;        (* fits a uint8 *)
  descHIDReportKeyboard : list Z;
  descHIDReportMouse : list Z;
  descHIDReportSerial : list Z;
  descHIDReportJoystick : list Z;
  descHIDReportMediaKey : list Z;
  descCommonManufacturer : goString;
  descCommonProduct : goString;
  descCommonSerialNumber : goString
}.

(** One language of string descriptors. *)
Record descStringLanguage : Type := mkLanguage {
  language : Z;               (* uint16 *)
  descriptor : list (list Z)  (* string descriptors by string index *)
}.

(** An element of [descCDCACM]; [cx] and [dx] are the control and the
    response scratch. *)
Record descCDCACMClass : Type := mkACM {
  acm_locale : list descStringLanguage;
  acm_device : list Z;
  acm_qualif : list Z;
  acm_config : list Z;
  acm_cx : list Z;
  acm_dx : list Z
}.

(** An element of [descHID]; [hid_led] is [keyboard.led]. *)
Record descHIDClass : Type := mkHID {
  hid_locale : list descStringLanguage;
  hid_device : list Z;
  hid_qualif : list Z;
  hid_config : list Z;
  hid_cx : list Z;
  hid_dx : list Z;
  hid_led : Z
}.

(** ** The controller instance *)

(** What [allocDHW(port, i, speed, &dcdInstance[i])] hands back. *)
Record dhw : Type := mkDhw {
  dhw_port : Z;
  dhw_id : Z;
  dhw_speed : Z
}.

(** [setup] and [stage] are reached through the embedded [*dhw]. *)
Record dcd : Type := mkDcd {
  hw : option dhw;   (* embedded *dhw, nil until allocated *)
  core : option Z;   (* &coreInstance[port], nil when free *)
  port : Z;
  cc : class;
  id : Z;
  st : Z;            (* volatile.Register8 *)
  setup : dcdSetup;
  stage : dcdStage
}.

(** The zero value of a pool slot. *)
Definition dcd_zero : dcd :=
  mkDcd None None 0 (mkClass 0 0) 0 0 setup_zero dcdStageSetup.

Definition with_st (v : Z) (d : dcd) : dcd :=
  mkDcd (hw d) (core d) (port d) (cc d) (id d) v (setup d) (stage d).
Definition with_setup (s : dcdSetup) (d : dcd) : dcd :=
  mkDcd (hw d) (core d) (port d) (cc d) (id d) (st d) s (stage d).
Definition with_stage (g : dcdStage) (d : dcd) : dcd :=
  mkDcd (hw d) (core d) (port d) (cc d) (id d) (st d) (setup d) g.
Definition with_config (c : Z) (d : dcd) : dcd :=
  mkDcd (hw d) (core d) (port d) (mkClass (cid (cc d)) c) (id d) (st d)
        (setup d) (stage d).

(** [func (d *dcd) state() dcdState]. *)
Definition state (d : dcd) : Z := st d.

(** [func (d *dcd) setState(state dcdState) (ok bool)]. *)
Definition setState (new : Z) (d : dcd) : bool * dcd :=
  let curr := state d in
  let ok :=
    if new =? dcdStateNotReady then true
    else if new =? dcdStateDefault then
      (curr =? dcdStateNotReady) || (curr =? dcdStateDefault)
    else if new =? dcdStateAddressed then
      curr =? dcdStateDefault
    else if new =? dcdStateConfigured then
      (curr =? dcdStateAddressed) || (curr =? dcdStateConfigured) ||
      (curr =? dcdStateSuspended)
    else if new =? dcdStateSuspended then
      (curr =? dcdStateAddressed) || (curr =? dcdStateConfigured) ||
      (curr =? dcdStateSuspended)
    else false in
  if ok then (true, with_st (u8 new) d) else (false, d).

(** The transition table of the data model, row by row: the target and the
    prior states it accepts. *)
Definition table_accepts (s t : Z) : bool :=
  if t =? dcdStateNotReady then true
  else if t =? dcdStateDefault then
    existsb (Z.eqb s) [dcdStateNotReady; dcdStateDefault]
  else if t =? dcdStateAddressed then
    existsb (Z.eqb s) [dcdStateDefault]
  else if t =? dcdStateConfigured then
    existsb (Z.eqb s)
      [dcdStateAddressed; dcdStateConfigured; dcdStateSuspended]
  else if t =? dcdStateSuspended then
    existsb (Z.eqb s)
      [dcdStateAddressed; dcdStateConfigured; dcdStateSuspended]
  else false.

(** ** The hardware abstraction, as the driver sees it *)

(** The buffers whose address the driver hands to the hardware layer. *)
Inductive bufref : Type :=
| BufNil                        (* uintptr(0) *)
| BufStatus (seed : list Z)     (* what controlStatusBuffer returned *)
| BufAcmCx (i : Z)              (* &descCDCACM[i].cx[0] *)
| BufAcmDx (i : Z)              (* &descCDCACM[i].dx[0] *)
| BufHidCx (i : Z)              (* &descHID[i].cx[0] *)
| BufHidDx (i : Z).             (* &descHID[i].dx[0] *)

(** Calls into the hardware layer, with their arguments. *)
Inductive halCall : Type :=
| EndpointEnable (ep : Z) (dirIn : bool) (size : Z)
| EndpointClearFeature (ep : Z)
| EndpointSetFeature (ep : Z)
| EndpointStatus (ep : Z)
| SetDeviceAddress (addr : Z)
| ControlStatusBuffer (seed : list Z)
| ControlTransmit (p : bufref) (n : Z) (zlp : bool)
| ControlReceive (p : bufref) (n : Z) (notify : bool)
| ControlStall (en : bool) (dir : Z)
| FlushCache (p : bufref) (n : Z)
| UartConfigure
| UartSetLineCoding (b : list Z)
| UartSetLineState (v : Z)
| SerialConfigure
| KeyboardConfigure
| MouseConfigure
| JoystickConfigure
| EnableSOF (on : bool) (count : Z).

Definition is_control_io (c : halCall) : bool :=
  match c with
  | ControlTransmit _ _ _ | ControlReceive _ _ _ => true
  | _ => false
  end.

Definition is_control_stall (c : halCall) : bool :=
  match c with ControlStall _ _ => true | _ => false end.

Definition is_enable_sof (c : halCall) : bool :=
  match c with EnableSOF _ _ => true | _ => false end.

(** How many calls of a kind a run made. *)
Definition count_calls (p : halCall -> bool) (l : list halCall) : nat :=
  length (filter p l).

(** Everything an event handler reads or writes: the receiver, the two
    descriptor tables, and the status word the hardware layer would report
    for an endpoint. *)
Record world : Type := mkWorld {
  self : dcd;
  descCDCACM : list descCDCACMClass;
  descHID : list descHIDClass;
  hal_endpointStatus : Z -> Z
}.

Definition with_self (d : dcd) (w : world) : world :=
  mkWorld d (descCDCACM w) (descHID w) (hal_endpointStatus w).
Definition with_descCDCACM (t : list descCDCACMClass) (w : world) : world :=
  mkWorld (self w) t (descHID w) (hal_endpointStatus w).
Definition with_descHID (t : list descHIDClass) (w : world) : world :=
  mkWorld (self w) (descCDCACM w) t (hal_endpointStatus w).

(** ** Execution monad: state, the calls made (oldest first), panics *)

Inductive outcome (A : Type) : Type :=
| Ok (a : A) (w : world) (calls : list halCall)
| Panic
| OutOfFuel.
Arguments Ok {A} a w calls.
Arguments Panic {A}.
Arguments OutOfFuel {A}.

Definition M (A : Type) : Type := world -> outcome A.

Definition ret {A : Type} (a : A) : M A := fun w => Ok a w [].

Definition bind {A B : Type} (m : M A) (f : A -> M B) : M B :=
  fun w =>
    match m w with
    | Ok a w1 c1 =>
        match f a w1 with
        | Ok b w2 c2 => Ok b w2 (c1 ++ c2)
        | Panic => Panic
        | OutOfFuel => OutOfFuel
        end
    | Panic => Panic
    | OutOfFuel => OutOfFuel
    end.

Declare Scope dcd_scope.
Delimit Scope dcd_scope with dcd.
Notation "x <- m ;; k" := (bind m (fun x => k))
  (at level 61, m at next level, right associativity) : dcd_scope.
Notation "m ;; k" := (bind m (fun _ => k))
  (at level 61, right associativity) : dcd_scope.
Local Open Scope dcd_scope.

Definition panic {A : Type} : M A := fun _ => Panic.
Definition out_of_fuel {A : Type} : M A := fun _ => OutOfFuel.

(** A call into the hardware layer. *)
Definition hal (c : halCall) : M unit := fun w => Ok tt w [c].

(** A bounds-checked operation. *)
Definition checked {A : Type} (o : option A) : M A :=
  match o with Some a => ret a | None => panic end.

Definition getD : M dcd := fun w => Ok (self w) w [].
Definition modD (f : dcd -> dcd) : M unit :=
  fun w => Ok tt (with_self (f (self w)) w) [].
Definition getW : M world := fun w => Ok w w [].
Definition putW (w' : world) : M unit := fun _ => Ok tt w' [].

(** [d.setState(s)] in the monad. *)
Definition setStateM (s : Z) : M bool :=
  fun w => let '(ok, d') := setState s (self w) in Ok ok (with_self d' w) [].

(** [d.endpointStatus(ep)]: the call, and the word it returns. *)
Definition endpointStatus (ep : Z) : M Z :=
  hal (EndpointStatus ep) ;;
  w <- getW ;;
  ret (u16 (hal_endpointStatus w ep)).

(** [d.controlStatusBuffer(seed)]. *)
Definition controlStatusBuffer (seed : list Z) : M bufref :=
  hal (ControlStatusBuffer seed) ;;
  ret (BufStatus seed).

(** ** Descriptor responder *)

Section Responder.

Variable K : descConsts.

(** [dcdCount = descCDCACMCount + descHIDCount]. *)
Definition dcdCount : Z := descCDCACMCount K + descHIDCount K.

(** The inner [range s] loop that writes the runes of [s] into the string
    descriptor [sd]. *)
Fixpoint writeRunes (rs : list (Z * Z)) (sd : list Z) : option (list Z) :=
  match rs with
  | [] => Some sd
  | (n, c) :: rs' =>
      if len sd <=? 2 + 2 * n then Some sd (* break *)
      else
        match store sd (2 + 2 * n) (u8 c) with
        | None => None
        | Some sd1 =>
            match store sd1 (3 + 2 * n) 0 with
            | None => None
            | Some sd2 => writeRunes rs' sd2
            end
        end
  end.

(** Rewriting a string descriptor in place: the two header bytes, then the
    runes. *)
Definition writeString (s : goString) (sd : list Z) : option (list Z) :=
  match store sd 0 (u8 (2 + 2 * str_len s)) with
  | None => None
  | Some sd1 =>
      match store sd1 1 descTypeString with
      | None => None
      | Some sd2 => writeRunes (str_range s) sd2
      end
  end.

(** [switch uint8(sup.wValue)] choosing the string; [suffix] is what the
    class appends to the product name. *)
Definition pickString (suffix : list Z) (sup : dcdSetup) : goString :=
  let i := u8 (wValue sup) in
  if i =? 1 then descCommonManufacturer K
  else if i =? 2 then str_append (descCommonProduct K) suffix
  else if i =? 3 then descCommonSerialNumber K
  else str_empty.

(** The loop over the locales for a string index above 0.  The locales
    before [code] were passed over; the result is the table after the
    rewrite and the descriptor [sd] that was chosen ([None] is a nil
    slice); the outer [option] is a panic. *)
Fixpoint searchLanguage (suffix : list Z) (sup : dcdSetup)
    (seen rest : list descStringLanguage)
    : option (list descStringLanguage * option (list Z)) :=
  match rest with
  | [] => Some (seen, None)
  | lc :: rest' =>
      let idx := Z.land (wValue sup) 0xFF in
      if (wIndex sup =? language lc) && (idx <? len (descriptor lc)) then
        match load (descriptor lc) idx with
        | None => None
        | Some sd0 =>
            match writeString (pickString suffix sup) sd0 with
            | None => None
            | Some sd =>
                match store (descriptor lc) idx sd with
                | None => None
                | Some ds =>
                    Some (seen ++ mkLanguage (language lc) ds :: rest',
                          Some sd)
                end
            end
        end
      else searchLanguage suffix sup (seen ++ [lc]) rest'
  end.

(** The language code of a language-list request (string index 0). *)
Definition languageCode (sup : dcdSetup) (locale : list descStringLanguage)
    : Z :=
  let code := wIndex sup in
  if len locale <=? code then 0 else code.

(** [case descTypeString] of both responders, up to the suffix: the new
    locales, the new response scratch and [dxn]. *)
Definition stringDescriptor (suffix : list Z) (sup : dcdSetup)
    (locale : list descStringLanguage) (dx : list Z)
    : option (list descStringLanguage * list Z * Z) :=
  if len locale =? 0 then Some (locale, dx, 0) (* no strings defined *)
  else
    let chosen :=
      if u8 (wValue sup) =? 0 then
        match load locale (languageCode sup locale) with
        | None => None
        | Some lc =>
            match load (descriptor lc) (Z.land (wValue sup) 0xFF) with
            | None => None
            | Some sd => Some (locale, Some sd)
            end
        end
      else searchLanguage suffix sup [] locale in
    match chosen with
    | None => None
    | Some (locale', None) => Some (locale', dx, 0)
    | Some (locale', Some sd) =>
        match load sd 0 with
        | None => None
        | Some b =>
            let dxn := u8 b in (* a byte of a []uint8 *)
            match slice sd 0 dxn with
            | None => None
            | Some src => Some (locale', copy dx src, dxn)
            end
        end
    end.

(** The descriptor switch of [controlDescriptorCDCACM]: the table element
    after the copy, and [dxn]. *)
Definition assembleCDCACM (sup : dcdSetup) (acm : descCDCACMClass)
    : option (descCDCACMClass * Z) :=
  let ty := Z.shiftr (wValue sup) 8 in
  let with_dx dx :=
    mkACM (acm_locale acm) (acm_device acm) (acm_qualif acm)
          (acm_config acm) (acm_cx acm) dx in
  if ty =? descTypeDevice then
    let dxn := descLengthDevice in
    match slice (acm_device acm) 0 dxn with
    | None => None
    | Some src => Some (with_dx (copy (acm_dx acm) src), dxn)
    end
  else if ty =? descTypeConfigure then
    let dxn := u8 (descCDCACMConfigSize K) in
    match slice (acm_config acm) 0 dxn with
    | None => None
    | Some src => Some (with_dx (copy (acm_dx acm) src), dxn)
    end
  else if ty =? descTypeString then
    match stringDescriptor lit_CDCACM sup (acm_locale acm) (acm_dx acm) with
    | None => None
    | Some (locale', dx', dxn) =>
        Some (mkACM locale' (acm_device acm) (acm_qualif acm)
                    (acm_config acm) (acm_cx acm) dx', dxn)
    end
  else if ty =? descTypeQualification then
    let dxn := descLengthQualification in
    match slice (acm_qualif acm) 0 dxn with
    | None => None
    | Some src => Some (with_dx (copy (acm_dx acm) src), dxn)
    end
  else if ty =? descTypeOtherSpeedConfiguration then
    Some (acm, 0) (* TODO in the source *)
  else Some (acm, 0).

(** [switch sup.wIndex] of the HID descriptor case: the position of the
    interface's HID descriptor in the configuration descriptor. *)
Definition hidConfigPos (sup : dcdSetup) : Z :=
  let i := wIndex sup in
  if i =? descHIDInterfaceKeyboard K then descHIDConfigKeyboardPos K
  else if i =? descHIDInterfaceMouse K then descHIDConfigMousePos K
  else if i =? descHIDInterfaceSerial K then descHIDConfigSerialPos K
  else if i =? descHIDInterfaceJoystick K then descHIDConfigJoystickPos K
  else if i =? descHIDInterfaceMediaKey K then descHIDConfigMediaKeyPos K
  else 0.

(** [switch sup.wIndex] of the HID report case: the report descriptor, if
    the interface has one. *)
Definition hidReport (sup : dcdSetup) : option (list Z) :=
  let i := wIndex sup in
  if i =? descHIDInterfaceKeyboard K then Some (descHIDReportKeyboard K)
  else if i =? descHIDInterfaceMouse K then Some (descHIDReportMouse K)
  else if i =? descHIDInterfaceSerial K then Some (descHIDReportSerial K)
  else if i =? descHIDInterfaceJoystick K then Some (descHIDReportJoystick K)
  else if i =? descHIDInterfaceMediaKey K then Some (descHIDReportMediaKey K)
  else None.

(** The descriptor switch of [controlDescriptorHID]. *)
Definition assembleHID (sup : dcdSetup) (hid : descHIDClass)
    : option (descHIDClass * Z) :=
  let ty := Z.shiftr (wValue sup) 8 in
  let with_dx dx :=
    mkHID (hid_locale hid) (hid_device hid) (hid_qualif hid)
          (hid_config hid) (hid_cx hid) dx (hid_led hid) in
  if ty =? descTypeDevice then
    let dxn := descLengthDevice in
    match slice (hid_device hid) 0 dxn with
    | None => None
    | Some src => Some (with_dx (copy (hid_dx hid) src), dxn)
    end
  else if ty =? descTypeConfigure then
    let dxn := u8 (descHIDConfigSize K) in
    match slice (hid_config hid) 0 dxn with
    | None => None
    | Some src => Some (with_dx (copy (hid_dx hid) src), dxn)
    end
  else if ty =? descTypeString then
    match stringDescriptor lit_HID sup (hid_locale hid) (hid_dx hid) with
    | None => None
    | Some (locale', dx', dxn) =>
        Some (mkHID locale' (hid_device hid) (hid_qualif hid)
                    (hid_config hid) (hid_cx hid) dx' (hid_led hid), dxn)
    end
  else if ty =? descTypeQualification then
    let dxn := descLengthQualification in
    match slice (hid_qualif hid) 0 dxn with
    | None => None
    | Some src => Some (with_dx (copy (hid_dx hid) src), dxn)
    end
  else if ty =? descTypeOtherSpeedConfiguration then
    Some (hid, 0) (* TODO in the source *)
  else if ty =? descTypeHID then
    let pos := hidConfigPos sup in
    if pos =? 0 then Some (hid, 0)
    else
      let dxn := u8 (descLengthInterface K) in
      match slice (hid_config hid) pos (u8 (pos + dxn)) with
      | None => None
      | Some src => Some (with_dx (copy (hid_dx hid) src), dxn)
      end
  else if ty =? descTypeHIDReport then
    match hidReport sup with
    | None => Some (hid, 0)
    | Some rep => Some (with_dx (copy (hid_dx hid) rep), u8 (len rep))
    end
  else Some (hid, 0).

(** The length the responder hands to the transmit: [dxn], cut down to
    [uint8(sup.wLength)] when that is smaller. *)
Definition clampLength (dxn : Z) (sup : dcdSetup) : Z :=
  if u8 (wLength sup) <? dxn then u8 (wLength sup) else dxn.

(** The tail of both responders: flush and transmit when [dxn > 0]. *)
Definition transmitDescriptor (p : bufref) (dx : list Z) (dxn : Z)
    (sup : dcdSetup) : M unit :=
  if 0 <? dxn then
    let n := clampLength dxn sup in
    checked (load dx 0) ;;               (* &dx[0] *)
    hal (FlushCache p n) ;;
    hal (ControlTransmit p n false)
  else ret tt.

(** [func (d *dcd) controlDescriptorCDCACM(sup dcdSetup)]. *)
Definition controlDescriptorCDCACM (sup : dcdSetup) : M unit :=
  w <- getW ;;
  let i := config (cc (self w)) - 1 in
  acm <- checked (load (descCDCACM w) i) ;;
  r <- checked (assembleCDCACM sup acm) ;;
  t <- checked (store (descCDCACM w) i (fst r)) ;;
  putW (with_descCDCACM t w) ;;
  transmitDescriptor (BufAcmDx i) (acm_dx (fst r)) (snd r) sup.

(** [func (d *dcd) controlDescriptorHID(sup dcdSetup)]. *)
Definition controlDescriptorHID (sup : dcdSetup) : M unit :=
  w <- getW ;;
  let i := config (cc (self w)) - 1 in
  hid <- checked (load (descHID w) i) ;;
  r <- checked (assembleHID sup hid) ;;
  t <- checked (store (descHID w) i (fst r)) ;;
  putW (with_descHID t w) ;;
  transmitDescriptor (BufHidDx i) (hid_dx (fst r)) (snd r) sup.

End Responder.

(** ** Control-transfer dispatcher and event pump *)

(** Modelled from the spec: [packU32] is a helper of the package that is not
    part of the sources at hand.  The spec reads the first four received
    bytes as a little-endian u32. *)
Definition packU32 (b : list Z) : option Z :=
  match load b 0, load b 1, load b 2, load b 3 with
  | Some b0, Some b1, Some b2, Some b3 =>
      Some (u32 (Z.lor (Z.lor (Z.lor b0 (Z.shiftl b1 8)) (Z.shiftl b2 16))
                       (Z.shiftl b3 24)))
  | _, _, _, _ => None
  end.

(** The status codes of the package, and the result of [initDCD]: the pool
    after the call, the index of the instance returned ([None] is nil) and
    the status; or a panic. *)
Inductive status : Type := statusOK | statusInvalid | statusBusy.

Inductive initResult : Type :=
| InitDone (pool : list dcd) (inst : option Z) (s : status)
| InitPanic.

Section Dispatcher.

Variable K : descConsts.

(** The request type, and the recipient with the direction, that the
    dispatcher switches on. *)
Definition requestType (sup : dcdSetup) : Z :=
  Z.land (bmRequestType sup) descRequestTypeTypeMsk.
Definition requestTarget (sup : dcdSetup) : Z :=
  Z.land (bmRequestType sup)
         (Z.lor descRequestTypeRecipientMsk descRequestTypeDirMsk).

(** The zero-length status receive. *)
Definition statusReceive : M unit := hal (ControlReceive BufNil 0 false).

(** The configuration index SET_CONFIGURATION stores for a requested
    value. *)
Definition normalConfig (v : Z) : Z :=
  if (v =? 0) || (dcdCount K <? v) then 1 else v.

(** [case descRequestStandardSetConfiguration]; [event] is the event pump,
    which the dispatcher re-enters. *)
Definition setConfiguration (event : dcdEvent -> M unit) (sup : dcdSetup)
    : M dcdStage :=
  modD (with_config (wValue sup)) ;;
  d <- getD ;;
  (if (config (cc d) =? 0) || (dcdCount K <? config (cc d))
   then modD (with_config 1) else ret tt) ;;
  event (event_of_id dcdEventDeviceConfiguration) ;;
  d <- getD ;;
  (if cid (cc d) =? classDeviceCDCACM K then
     hal UartConfigure ;;
     statusReceive
   else if cid (cc d) =? classDeviceHID K then
     hal SerialConfigure ;;
     hal KeyboardConfigure ;;
     hal MouseConfigure ;;
     hal JoystickConfigure ;;
     statusReceive
   else ret tt) ;;
  ret dcdStageStatusOut.

(** [case descRequestStandardGetDescriptor] under both recipients. *)
Definition getDescriptor (sup : dcdSetup) : M dcdStage :=
  d <- getD ;;
  if cid (cc d) =? classDeviceCDCACM K then
    controlDescriptorCDCACM K sup ;;
    ret dcdStageDataIn
  else if cid (cc d) =? classDeviceHID K then
    controlDescriptorHID K sup ;;
    ret dcdStageDataIn
  else ret dcdStageStall.

(** The standard requests. *)
Definition controlSetupStandard (event : dcdEvent -> M unit)
    (sup : dcdSetup) : M dcdStage :=
  let tgt := requestTarget sup in
  let req := bRequest sup in
  if tgt =? Z.lor descRequestTypeRecipientDevice descRequestTypeDirOut then
    if req =? descRequestStandardSetAddress then
      hal (SetDeviceAddress (wValue sup)) ;;
      statusReceive ;;
      ret dcdStageStatusOut
    else if req =? descRequestStandardSetConfiguration then
      setConfiguration event sup
    else ret dcdStageStall
  else if tgt =? Z.lor descRequestTypeRecipientDevice descRequestTypeDirIn
  then
    if req =? descRequestStandardGetStatus then
      p <- controlStatusBuffer [0; 0] ;;
      hal (ControlTransmit p 2 false) ;;
      ret dcdStageDataIn
    else if req =? descRequestStandardGetDescriptor then
      getDescriptor sup
    else if req =? descRequestStandardGetConfiguration then
      d <- getD ;;
      p <- controlStatusBuffer [u8 (config (cc d))] ;;
      hal (ControlTransmit p 1 false) ;;
      ret dcdStageDataIn
    else ret dcdStageStall
  else if tgt =? Z.lor descRequestTypeRecipientInterface descRequestTypeDirIn
  then
    if req =? descRequestStandardGetDescriptor then
      getDescriptor sup
    else if req =? descHIDRequestGetReport then
      d <- getD ;;
      if cid (cc d) =? classDeviceHID K then
        controlDescriptorHID K sup ;;
        ret dcdStageDataIn
      else ret dcdStageStall
    else ret dcdStageStall
  else if tgt =? Z.lor descRequestTypeRecipientEndpoint descRequestTypeDirOut
  then
    if req =? descRequestStandardClearFeature then
      hal (EndpointClearFeature (u8 (wIndex sup))) ;;
      statusReceive ;;
      ret dcdStageStatusOut
    else if req =? descRequestStandardSetFeature then
      hal (EndpointSetFeature (u8 (wIndex sup))) ;;
      statusReceive ;;
      ret dcdStageStatusOut
    else ret dcdStageStall
  else if tgt =? Z.lor descRequestTypeRecipientEndpoint descRequestTypeDirIn
  then
    if req =? descRequestStandardGetStatus then
      status <- endpointStatus (u8 (wIndex sup)) ;;
      p <- controlStatusBuffer [u8 status; u8 (Z.shiftr status 8)] ;;
      hal (ControlTransmit p 2 false) ;;
      ret dcdStageDataIn
    else ret dcdStageStall
  else ret dcdStageStall.

(** The class requests. *)
Definition controlSetupClass (sup : dcdSetup) : M dcdStage :=
  let tgt := requestTarget sup in
  let req := bRequest sup in
  if tgt =? Z.lor descRequestTypeRecipientInterface descRequestTypeDirOut
  then
    if req =? descCDCRequestSetLineCoding then
      w <- getW ;;
      if cid (cc (self w)) =? classDeviceCDCACM K then
        if u16 descCDCACMLineCodingSize =? wLength sup then
          let i := config (cc (self w)) - 1 in
          acm <- checked (load (descCDCACM w) i) ;;
          checked (load (acm_cx acm) 0) ;;      (* &cx[0] *)
          hal (ControlReceive (BufAcmCx i) (u32 descCDCACMLineCodingSize)
                 true) ;;
          ret dcdStageDataOut
        else ret dcdStageStall
      else ret dcdStageStall
    else if req =? descCDCRequestSetControlLineState then
      d <- getD ;;
      if cid (cc d) =? classDeviceCDCACM K then
        if wIndex sup =? descCDCACMInterfaceCtrl K then
          statusReceive ;;
          ret dcdStageStatusOut
        else ret dcdStageStall
      else ret dcdStageStall
    else if req =? descCDCRequestSendBreak then
      d <- getD ;;
      if cid (cc d) =? classDeviceCDCACM K then
        statusReceive ;;
        ret dcdStageStatusOut
      else ret dcdStageStall
    else if req =? descHIDRequestSetReport then
      w <- getW ;;
      if cid (cc (self w)) =? classDeviceHID K then
        if wLength sup <=? descHIDSxSize K then
          let i := config (cc (self w)) - 1 in
          hid <- checked (load (descHID w) i) ;;
          cx <- checked (store (hid_cx hid) 0 0xE9) ;;
          t <- checked (store (descHID w) i
                 (mkHID (hid_locale hid) (hid_device hid) (hid_qualif hid)
                        (hid_config hid) cx (hid_dx hid) (hid_led hid))) ;;
          putW (with_descHID t w) ;;
          hal (ControlReceive (BufHidCx i) (u32 (wLength sup)) true) ;;
          ret dcdStageDataOut
        else ret dcdStageStall
      else ret dcdStageStall
    else if req =? descHIDRequestSetIdle then
      d <- getD ;;
      if cid (cc d) =? classDeviceHID K then
        statusReceive ;;
        ret dcdStageStatusOut
      else ret dcdStageStall
    else ret dcdStageStall
  else if tgt =? Z.lor descRequestTypeRecipientInterface descRequestTypeDirIn
  then
    if req =? descHIDRequestGetReport then
      d <- getD ;;
      if cid (cc d) =? classDeviceHID K then
        p <- controlStatusBuffer [0; 0] ;;
        hal (ControlTransmit p 2 false) ;;
        ret dcdStageDataIn
      else ret dcdStageStall
    else ret dcdStageStall
  else ret dcdStageStall.

(** [func (d *dcd) controlSetup(sup dcdSetup) dcdStage].  Every path that
    does not return early falls out of the switch to the final
    [return dcdStageStall]. *)
Definition controlSetup (event : dcdEvent -> M unit) (sup : dcdSetup)
    : M dcdStage :=
  let ty := requestType sup in
  if ty =? descRequestTypeTypeStandard then controlSetupStandard event sup
  else if ty =? descRequestTypeTypeClass then controlSetupClass sup
  else if ty =? descRequestTypeTypeVendor then ret dcdStageStall
  else ret dcdStageStall.

(** [case descHIDRequestSetReport] of the completion, under the HID class. *)
Definition completeSetReport (sup : dcdSetup) : M unit :=
  w <- getW ;;
  let i := config (cc (self w)) - 1 in
  hid <- checked (load (descHID w) i) ;;
  if wIndex sup =? descHIDInterfaceKeyboard K then
    if Z.shiftr (wValue sup) 8 =? descTypeConfigure then
      if 1 =? wLength sup then
        led <- checked (load (hid_cx hid) 0) ;;
        t <- checked (store (descHID w) i
               (mkHID (hid_locale hid) (hid_device hid) (hid_qualif hid)
                      (hid_config hid) (hid_cx hid) (hid_dx hid) led)) ;;
        putW (with_descHID t w) ;;
        hal (ControlTransmit BufNil 0 false)
      else ret tt
    else ret tt
  else if wIndex sup =? descHIDInterfaceSerial K then
    if Z.shiftr (wValue sup) 8 =? descTypeString then
      if 4 <=? wLength sup then
        b <- checked (slice (hid_cx hid) 0 4) ;;
        v <- checked (packU32 b) ;;
        if 0x68C245A9 =? v
        then hal (EnableSOF true (descHIDInterfaceCount K))
        else ret tt
      else ret tt
    else ret tt
  else ret tt.

(** [func (d *dcd) controlComplete()]. *)
Definition controlComplete : M unit :=
  w <- getW ;;
  let sup := setup (self w) in
  if requestType sup =? descRequestTypeTypeClass then
    if requestTarget sup =?
       Z.lor descRequestTypeRecipientInterface descRequestTypeDirOut
    then
      if bRequest sup =? descCDCRequestSetLineCoding then
        if cid (cc (self w)) =? classDeviceCDCACM K then
          acm <- checked (load (descCDCACM w) (config (cc (self w)) - 1)) ;;
          if wIndex sup =? descCDCACMInterfaceCtrl K
          then hal (UartSetLineCoding (acm_cx acm))
          else ret tt
        else ret tt
      else if bRequest sup =? descCDCRequestSetControlLineState then
        if cid (cc (self w)) =? classDeviceCDCACM K then
          if wIndex sup =? descCDCACMInterfaceCtrl K
          then hal (UartSetLineState (wValue sup))
          else ret tt
        else ret tt
      else if bRequest sup =? descHIDRequestSetReport then
        if cid (cc (self w)) =? classDeviceHID K
        then completeSetReport sup
        else ret tt
      else ret tt
    else ret tt
  else ret tt.

(** [func (d *dcd) event(ev dcdEvent)].  The pump and the dispatcher call
    each other; [fuel] bounds the nesting. *)
Fixpoint event_fuel (fuel : nat) (ev : dcdEvent) : M unit :=
  match fuel with
  | O => out_of_fuel
  | S fuel' =>
      let i := ev_id ev in
      if i =? dcdEventStatusReset then
        setStateM dcdStateNotReady ;; ret tt
      else if i =? dcdEventStatusResume then
        setStateM dcdStateConfigured ;; ret tt
      else if i =? dcdEventStatusSuspend then
        setStateM dcdStateSuspended ;; ret tt
      else if i =? dcdEventDeviceReady then
        ok <- setStateM dcdStateDefault ;;
        if ok then hal (EndpointEnable 0 true 0) else ret tt
      else if i =? dcdEventDeviceAddress then
        setStateM dcdStateAddressed ;; ret tt
      else if i =? dcdEventDeviceConfiguration then
        setStateM dcdStateConfigured ;; ret tt
      else if i =? dcdEventControlSetup then
        modD (with_setup (ev_setup ev)) ;;
        g <- controlSetup (event_fuel fuel') (ev_setup ev) ;;
        modD (with_stage g) ;;
        match g with
        | dcdStageDataIn | dcdStageDataOut => ret tt
        | dcdStageStatusIn | dcdStageStatusOut => ret tt
        | dcdStageStall =>
            hal (ControlStall true (direction (ev_setup ev)))
        | dcdStageSetup => ret tt
        end
      else if i =? dcdEventControlComplete then
        controlComplete ;;
        modD (with_setup setup_zero)
      else ret tt
  end.

(** The nesting is one deep: the dispatcher re-enters the pump with a
    DeviceConfiguration event only. *)
Definition event (ev : dcdEvent) : M unit := event_fuel 2 ev.

(** ** Instance pool *)

(** The slot as [initDCD] leaves it: hardware layer allocated, core, port,
    class and id assigned, state set. *)
Definition initSlot (i prt speed : Z) (c : class) (d : dcd) : dcd :=
  snd (setState dcdStateNotReady
         (mkDcd (Some (mkDhw prt i speed)) (Some prt) prt c i
                (st d) (setup d) (stage d))).

(** The loop [for i := range dcdInstance] from index [i] on: the pool after
    it and the index of the slot taken, if any.  [&coreInstance[port]]
    panics for a port outside the core table. *)
Fixpoint initScan (i prt speed : Z) (c : class) (pool : list dcd)
    : option (list dcd * option Z) :=
  match pool with
  | [] => Some ([], None)
  | d :: rest =>
      match core d with
      | None =>
          if (prt <? 0) || (coreCount K <=? prt) then None
          else Some (initSlot i prt speed c d :: rest, Some i)
      | Some _ =>
          match initScan (i + 1) prt speed c rest with
          | None => None
          | Some (rest', r) => Some (d :: rest', r)
          end
      end
  end.

(** [func initDCD(port int, speed Speed, class class)], which returns a
    pointer to the instance and a status, over
    the pool [dcdInstance]. *)
Definition initDCD (pool : list dcd) (prt speed : Z) (c : class)
    : initResult :=
  if 0 =? dcdCount K then InitDone pool None statusInvalid
  else if (cid c =? classDeviceCDCACM K) &&
          ((0 =? config c) || (descCDCACMCount K <? config c))
  then InitDone pool None statusInvalid
  else
    match initScan 0 prt speed c pool with
    | None => InitPanic
    | Some (pool', Some i) => InitDone pool' (Some i) statusOK
    | Some (pool', None) => InitDone pool' None statusBusy
    end.

End Dispatcher.

(** The state after [setState]. *)
Definition next_state (s t : Z) : Z := if table_accepts s t then t else s.

(** A pool slot that is in use. *)
Definition taken (d : dcd) : Prop := core d <> None.

(** The argument checks of [initDCD] that answer Invalid. *)
Definition args_invalid (K : descConsts) (c : class) : bool :=
  (0 =? dcdCount K) ||
  ((cid c =? classDeviceCDCACM K) &&
   ((0 =? config c) || (descCDCACMCount K <? config c))).

(** ** What the spec says, for comparison with the code *)

(** The three axes of bmRequestType as the spec decodes them: type in bits
    5..6, recipient in bits 0..4, direction in bit 7. *)
Definition spec_type (sup : dcdSetup) : Z :=
  Z.land (Z.shiftr (bmRequestType sup) 5) 3.
Definition spec_recipient (sup : dcdSetup) : Z :=
  Z.land (bmRequestType sup) 31.
Definition spec_dir (sup : dcdSetup) : Z :=
  Z.land (Z.shiftr (bmRequestType sup) 7) 1.

Definition spec_Standard : Z := 0.
Definition spec_Class : Z := 1.
Definition spec_Vendor : Z := 2.
Definition spec_Device : Z := 0.
Definition spec_Interface : Z := 1.
Definition spec_Endpoint : Z := 2.
Definition spec_OUT : Z := 0.
Definition spec_IN : Z := 1.

(** A row of the request tables: recipient, direction and bRequest. *)
Definition spec_row (sup : dcdSetup) (rcp dir req : Z) : bool :=
  (spec_recipient sup =? rcp) && (spec_dir sup =? dir) &&
  (bRequest sup =? req).

(** The requests the dispatch tables of the spec handle under the class id
    [c] the controller is bound to.  A row whose action is chosen by the
    bound class (the configure set of SET_CONFIGURATION, the responder of
    GET_DESCRIPTOR, the class requests) is handled under the classes the
    row names, CDC-ACM and HID; under any other class id the combination
    is an unhandled one. *)
Definition spec_matched (K : descConsts) (c : Z) (sup : dcdSetup) : bool :=
  let cdc := c =? classDeviceCDCACM K in
  let hid := c =? classDeviceHID K in
  if spec_type sup =? spec_Standard then
    spec_row sup spec_Device spec_OUT 0x05 ||
    (spec_row sup spec_Device spec_OUT 0x09 && (cdc || hid)) ||
    spec_row sup spec_Device spec_IN 0x00 ||
    ((spec_row sup spec_Device spec_IN 0x06 ||
      spec_row sup spec_Interface spec_IN 0x06) && (cdc || hid)) ||
    spec_row sup spec_Device spec_IN 0x08 ||
    (spec_row sup spec_Interface spec_IN 0x01 && hid) ||
    spec_row sup spec_Endpoint spec_OUT 0x01 ||
    spec_row sup spec_Endpoint spec_OUT 0x03 ||
    spec_row sup spec_Endpoint spec_IN 0x00
  else if spec_type sup =? spec_Class then
    (cdc &&
     ((spec_row sup spec_Interface spec_OUT 0x20 && (wLength sup =? 7)) ||
      (spec_row sup spec_Interface spec_OUT 0x22 &&
       (wIndex sup =? descCDCACMInterfaceCtrl K)) ||
      spec_row sup spec_Interface spec_OUT 0x23)) ||
    (hid &&
     ((spec_row sup spec_Interface spec_OUT 0x09 &&
       (wLength sup <=? descHIDSxSize K)) ||
      spec_row sup spec_Interface spec_OUT 0x0A ||
      spec_row sup spec_Interface spec_IN 0x01))
  else false.

(** The requests the dispatcher hands to the descriptor responder. *)
Definition to_responder (K : descConsts) (c : Z) (sup : dcdSetup) : bool :=
  (requestType sup =? descRequestTypeTypeStandard) &&
  (((requestTarget sup =?
       Z.lor descRequestTypeRecipientDevice descRequestTypeDirIn) &&
    (bRequest sup =? descRequestStandardGetDescriptor) &&
    ((c =? classDeviceCDCACM K) || (c =? classDeviceHID K))) ||
   ((requestTarget sup =?
       Z.lor descRequestTypeRecipientInterface descRequestTypeDirIn) &&
    (((bRequest sup =? descRequestStandardGetDescriptor) &&
      ((c =? classDeviceCDCACM K) || (c =? classDeviceHID K))) ||
     ((bRequest sup =? descHIDRequestGetReport) &&
      (c =? classDeviceHID K))))).

(** The length [dxn] the responder of the bound class assembles for a
    request, before it is cut down to the requested length. *)
Definition assembledLength (K : descConsts) (w : world) (sup : dcdSetup)
    : option Z :=
  let i := config (cc (self w)) - 1 in
  if cid (cc (self w)) =? classDeviceCDCACM K then
    match load (descCDCACM w) i with
    | None => None
    | Some acm => option_map snd (assembleCDCACM K sup acm)
    end
  else
    match load (descHID w) i with
    | None => None
    | Some hid => option_map snd (assembleHID K sup hid)
    end.

(** The language code the spec gives for a language-list request:
    [min(wIndex, len(locale) - 1)]. *)
Definition spec_languageCode (sup : dcdSetup)
    (locale : list descStringLanguage) : Z :=
  Z.min (wIndex sup) (len locale - 1).

(** ** Control transfers along a run of events *)

(** Whether a control transfer is open after an event: it opens at
    ControlSetup and closes at ControlComplete. *)
Definition transfer_active (ev : dcdEvent) (active : bool) : bool :=
  if ev_id ev =? dcdEventControlSetup then true
  else if ev_id ev =? dcdEventControlComplete then false
  else active.

(** The packet of the transfer that is open after an event. *)
Definition open_packet (ev : dcdEvent) (p : dcdSetup) : dcdSetup :=
  if ev_id ev =? dcdEventControlSetup then ev_setup ev else p.

(** The worlds a controller reaches from [w0] with no transfer open, each
    with the flag telling whether a transfer is open and with the SETUP
    packet that opened it.  Between events the hardware layer may rewrite
    the descriptor tables and scratch buffers (received data) but leaves
    the controller's own fields alone. *)
Inductive reaches (K : descConsts) (w0 : world)
    : world -> bool -> dcdSetup -> Prop :=
| reaches_start : reaches K w0 w0 false setup_zero
| reaches_event (w w' : world) (a : bool) (p : dcdSetup) (ev : dcdEvent)
    (calls : list halCall) :
    reaches K w0 w a p ->
    event K ev w = Ok tt w' calls ->
    reaches K w0 w' (transfer_active ev a) (open_packet ev p)
| reaches_hardware (w : world) (a : bool) (p : dcdSetup)
    (acm : list descCDCACMClass) (hid : list descHIDClass)
    (eps : Z -> Z) :
    reaches K w0 w a p ->
    reaches K w0 (mkWorld (self w) acm hid eps) a p.

(** The four bytes of a little-endian u32. *)
Definition le_u32 (b0 b1 b2 b3 : Z) : Z :=
  b0 + 2 ^ 8 * b1 + 2 ^ 16 * b2 + 2 ^ 24 * b3.

(** ** A sample configuration

    One CDC-ACM and one HID configuration, to run the driver on concrete
    requests. *)

Definition ascii_string (l : list Z) : goString :=
  mkString (len l) (combine (map Z.of_nat (seq 0 (length l))) l).

Definition sampleK : descConsts :=
  {| classDeviceCDCACM := 1;
     classDeviceHID := 2;
     descCDCACMCount := 1;
     descHIDCount := 1;
     coreCount := 2;
     descCDCACMConfigSize := 75;
     descHIDConfigSize := 141;
     descCDCACMInterfaceCtrl := 0;
     descHIDSxSize := 64;
     descHIDInterfaceCount := 5;
     descHIDInterfaceKeyboard := 0;
     descHIDInterfaceMouse := 1;
     descHIDInterfaceSerial := 2;
     descHIDInterfaceJoystick := 3;
     descHIDInterfaceMediaKey := 4;
     descHIDConfigKeyboardPos := 18;
     descHIDConfigMousePos := 43;
     descHIDConfigSerialPos := 68;
     descHIDConfigJoystickPos := 100;
     descHIDConfigMediaKeyPos := 125;
     descLengthInterface := 9;
     descHIDReportKeyboard := [5; 1; 9; 6; 161; 1; 192];
     descHIDReportMouse := [5; 1; 9; 2; 161; 1; 192];
     descHIDReportSerial := [6; 201; 255; 9; 4; 161; 92; 192];
     descHIDReportJoystick := [5; 1; 9; 4; 161; 1; 192];
     descHIDReportMediaKey := [5; 12; 9; 1; 161; 1; 192];
     descCommonManufacturer := ascii_string [84; 105; 110; 121; 71; 111];
     descCommonProduct := ascii_string [85; 83; 66];
     descCommonSerialNumber := ascii_string [48; 48; 48; 49] |}.

(** English (0x0409) and German (0x0407): the language descriptor and three
    string descriptors of 32 bytes each. *)
Definition sample_locale : list descStringLanguage :=
  [ mkLanguage 0x0409
      [4 :: 3 :: 0x09 :: 0x04 :: repeat 0 28; repeat 0 32; repeat 0 32;
       repeat 0 32];
    mkLanguage 0x0407
      [4 :: 3 :: 0x07 :: 0x04 :: repeat 0 28; repeat 0 32; repeat 0 32;
       repeat 0 32] ].

Definition sample_acm : descCDCACMClass :=
  {| acm_locale := sample_locale;
     acm_device := 18 :: 1 :: repeat 0 16;
     acm_qualif := 10 :: 6 :: repeat 0 8;
     acm_config := 9 :: 2 :: 75 :: repeat 0 72;
     acm_cx := repeat 0 7;
     acm_dx := repeat 0 256 |}.

Definition sample_hid : descHIDClass :=
  {| hid_locale := sample_locale;
     hid_device := 18 :: 1 :: repeat 0 16;
     hid_qualif := 10 :: 6 :: repeat 0 8;
     hid_config := 9 :: 2 :: 141 :: repeat 0 138;
     hid_cx := repeat 0 64;
     hid_dx := repeat 0 256;
     hid_led := 0 |}.

(** A controller bound to class [c] in state [s], with no transfer open. *)
Definition sample_dcd (c : class) (s : Z) : dcd :=
  mkDcd (Some (mkDhw 0 0 0)) (Some 0) 0 c 0 s setup_zero dcdStageSetup.

Definition sample_world (c : class) (s : Z) : world :=
  mkWorld (sample_dcd c s) [sample_acm] [sample_hid] (fun _ => 0).

(** The calls SET_CONFIGURATION makes under the class id [c]: those of
    [switch d.cc.id], whose default case makes none. *)
Definition configureCalls (K : descConsts) (c : Z) : list halCall :=
  if c =? classDeviceCDCACM K then
    [UartConfigure; ControlReceive BufNil 0 false]
  else if c =? classDeviceHID K then
    [SerialConfigure; KeyboardConfigure; MouseConfigure; JoystickConfigure;
     ControlReceive BufNil 0 false]
  else [].

(** The calls of a descriptor response of assembled length [dxn]. *)
Definition responseCalls (p : bufref) (dxn : Z) (sup : dcdSetup)
    : list halCall :=
  if 0 <? dxn then
    [FlushCache p (clampLength dxn sup);
     ControlTransmit p (clampLength dxn sup) false]
  else [].

(** Whether the responder of the bound class assembles nothing for a
    request ([dxn] stays 0). *)
Definition assembled_nothing (K : descConsts) (w : world) (sup : dcdSetup)
    : bool :=
  match assembledLength K w sup with
  | Some n => n =? 0
  | None => false
  end.

(** A run of the dispatcher that, unless it panics or stalls, made [expect]
    control transmit or receive calls. *)
Definition settles (expect : nat) (o : outcome dcdStage) : Prop :=
  match o with
  | Ok g _ calls =>
      g <> dcdStageStall -> count_calls is_control_io calls = expect
  | Panic | OutOfFuel => True
  end.

(** A property of the world after a run that did not panic. *)
Definition after {A : Type} (P : world -> Prop) (o : outcome A) : Prop :=
  match o with
  | Ok _ w _ => P w
  | Panic | OutOfFuel => True
  end.

(** The sample world with a stored packet and a stage. *)
Definition sample_world_in (c : class) (s : Z) (sup : dcdSetup)
    (g : dcdStage) : world :=
  mkWorld (mkDcd (Some (mkDhw 0 0 0)) (Some 0) 0 c 0 s sup g)
          [sample_acm] [sample_hid] (fun _ => 0).

(** The sample HID configuration with received bytes in its scratch. *)
Definition sample_hid_received (cx : list Z) : descHIDClass :=
  mkHID (hid_locale sample_hid) (hid_device sample_hid)
        (hid_qualif sample_hid) (hid_config sample_hid) cx
        (hid_dx sample_hid) (hid_led sample_hid).

(** An HID controller whose SET_REPORT data stage has delivered [cx]. *)
Definition sample_set_report_world (sup : dcdSetup) (cx : list Z) : world :=
  mkWorld (mkDcd (Some (mkDhw 0 0 0)) (Some 0) 0 (mkClass 2 1) 0
                 dcdStateConfigured sup dcdStageDataOut)
          [sample_acm] [sample_hid_received cx] (fun _ => 0).

(** ** The other decoders of the SETUP packet *)

(** [dcdSetupSize = unsafe.Sizeof(dcdSetup{})]: two bytes and three 16-bit
    words. *)
Definition dcdSetupSize : Z := 8.

(** [func setupFrom(addr uintptr) (s dcdSetup)]; [mem] is the memory the
    pointer reads, a byte per address. *)
Definition setupFrom (mem : Z -> Z) (addr : Z) : dcdSetup :=
  let u :=
    fold_left
      (fun u i => Z.lor u (shl64 (u8 (mem (addr + i))) (Z.shiftl i 3)))
      (map Z.of_nat (seq 0 (Z.to_nat dcdSetupSize))) 0 in
  set u setup_zero.

(** [func setup(b []uint8) dcdSetup]; [packU16] is a helper of the package
    that is declared outside the sources at hand and stays a parameter.
    [None] is a panic of one of the index expressions. *)
Definition setup_bytes (packU16 : list Z -> Z) (b : list Z)
    : option dcdSetup :=
  if dcdSetupSize <=? len b then
    match load b 0, load b 1,
          slice b 2 (len b), slice b 4 (len b), slice b 6 (len b) with
    | Some b0, Some b1, Some s2, Some s4, Some s6 =>
        Some {| bmRequestType := b0;
                bRequest := b1;
                wValue := u16 (packU16 s2);
                wIndex := u16 (packU16 s4);
                wLength := u16 (packU16 s6) |}
    | _, _, _, _, _ => None
    end
  else Some setup_zero.

(** The byte at offset [i] of a packet in memory. *)
Definition byte_at (mem : Z -> Z) (addr i : Z) : Z := u8 (mem (addr + i)).

(** The byte [i] of a 64-bit word stored little-endian. *)
Definition le_byte (u i : Z) : Z := (Z.shiftr u (8 * i)) mod 2 ^ 8.

(** ** The state an event asks for *)

(** The state the pump hands to [setState] for an event, if any. *)
Definition event_target (i : Z) : option Z :=
  if i =? dcdEventStatusReset then Some dcdStateNotReady
  else if i =? dcdEventStatusResume then Some dcdStateConfigured
  else if i =? dcdEventStatusSuspend then Some dcdStateSuspended
  else if i =? dcdEventDeviceReady then Some dcdStateDefault
  else if i =? dcdEventDeviceAddress then Some dcdStateAddressed
  else if i =? dcdEventDeviceConfiguration then Some dcdStateConfigured
  else None.

(** One of the five states. *)
Definition valid_state (s : Z) : Prop :=
  s = dcdStateNotReady \/ s = dcdStateDefault \/ s = dcdStateAddressed \/
  s = dcdStateConfigured \/ s = dcdStateSuspended.

(** The pump run over a list of events, oldest first; the calls are those
    of all the events in order. *)
Fixpoint run_events (K : descConsts) (evs : list dcdEvent) : M unit :=
  match evs with
  | [] => ret tt
  | ev :: rest => event K ev ;; run_events K rest
  end.

(** ** What a run of the dispatcher leaves behind *)

(** A property of the value, the world and the calls of a run that did not
    panic. *)
Definition returns {A : Type} (P : A -> world -> list halCall -> Prop)
    (o : outcome A) : Prop :=
  match o with
  | Ok a w calls => P a w calls
  | Panic | OutOfFuel => True
  end.

(** The SETUP packets the dispatcher takes for SET_CONFIGURATION. *)
Definition is_set_configuration (sup : dcdSetup) : bool :=
  (requestType sup =? descRequestTypeTypeStandard) &&
  (requestTarget sup =?
     Z.lor descRequestTypeRecipientDevice descRequestTypeDirOut) &&
  (bRequest sup =? descRequestStandardSetConfiguration).

(** What [initDCD] assigned to an instance: hardware layer, core, port, id
    and class id. *)
Definition same_binding (d d' : dcd) : Prop :=
  hw d' = hw d /\ core d' = core d /\ port d' = port d /\ id d' = id d /\
  cid (cc d') = cid (cc d).

(** The state and the configuration index a SETUP packet leaves. *)
Definition setup_state (sup : dcdSetup) (s : Z) : Z :=
  if is_set_configuration sup then next_state s dcdStateConfigured else s.
Definition setup_config (K : descConsts) (sup : dcdSetup) (c : Z) : Z :=
  if is_set_configuration sup then normalConfig K (wValue sup) else c.

(** What holds of every return of the SETUP-phase dispatcher. *)
Definition dispatch_post (K : descConsts) (sup : dcdSetup) (w : world)
    (g : dcdStage) (w' : world) (calls : list halCall) : Prop :=
  same_binding (self w) (self w') /\
  setup (self w') = setup (self w) /\
  stage (self w') = stage (self w) /\
  hal_endpointStatus w' = hal_endpointStatus w /\
  st (self w') = setup_state sup (st (self w)) /\
  config (cc (self w')) = setup_config K sup (config (cc (self w))) /\
  (g = dcdStageStall -> w' = w /\ calls = []) /\
  count_calls is_control_stall calls = 0%nat /\
  g <> dcdStageSetup /\ g <> dcdStageStatusIn.

(** The state an event leaves: the pump asks [setState] for the state of
    [event_target], the dispatcher for Configured on SET_CONFIGURATION. *)
Definition event_state (ev : dcdEvent) (s : Z) : Z :=
  if ev_id ev =? dcdEventControlSetup then setup_state (ev_setup ev) s
  else match event_target (ev_id ev) with
       | Some t => next_state s t
       | None => s
       end.

(** The configuration index an event leaves. *)
Definition event_config (K : descConsts) (ev : dcdEvent) (c : Z) : Z :=
  if ev_id ev =? dcdEventControlSetup then setup_config K (ev_setup ev) c
  else c.

(** The state an event asks [setState] for, if any: the target of
    [event_target], or Configured for a SET_CONFIGURATION packet. *)
Definition event_request (ev : dcdEvent) : option Z :=
  if ev_id ev =? dcdEventControlSetup then
    if is_set_configuration (ev_setup ev) then Some dcdStateConfigured
    else None
  else event_target (ev_id ev).

(** The state after an event, by the transition table alone: the state
    asked for when the table accepts it from the current one, the current
    state otherwise. *)
Definition step_state (s : Z) (ev : dcdEvent) : Z :=
  match event_request ev with
  | Some t => if table_accepts s t then t else s
  | None => s
  end.

(** ** Requests by their route through the dispatcher *)

(** A standard request with the given recipient-and-direction and
    bRequest. *)
Definition standard_request (sup : dcdSetup) (tgt req : Z) : Prop :=
  requestType sup = descRequestTypeTypeStandard /\
  requestTarget sup = tgt /\ bRequest sup = req.

(** A class request with the given recipient-and-direction and bRequest. *)
Definition class_request (sup : dcdSetup) (tgt req : Z) : Prop :=
  requestType sup = descRequestTypeTypeClass /\
  requestTarget sup = tgt /\ bRequest sup = req.

(** The world after a ControlSetup event that left the tables alone. *)
Definition opened (sup : dcdSetup) (g : dcdStage) (w : world) : world :=
  with_self (with_stage g (with_setup sup (self w))) w.

(** The length of the descriptor table of the class bound to the
    controller. *)
Definition class_table_len (K : descConsts) (w : world) : Z :=
  if cid (cc (self w)) =? classDeviceCDCACM K then len (descCDCACM w)
  else len (descHID w).

(** ** Class transfers with a data stage *)

(** The world the hardware layer hands back between two events: the
    controller as it was left, the tables and the endpoint status as the
    hardware layer has them by then. *)
Definition handed_back (w : world) (acm : list descCDCACMClass)
    (hid : list descHIDClass) (eps : Z -> Z) : world :=
  mkWorld (self w) acm hid eps.

(** The world after a ControlComplete event that left the tables alone. *)
Definition closed (w : world) : world :=
  with_self (with_setup setup_zero (self w)) w.

(** An element of [descHID] with another control scratch, and with another
    keyboard LED byte. *)
Definition hid_with_cx (cx : list Z) (hid : descHIDClass) : descHIDClass :=
  mkHID (hid_locale hid) (hid_device hid) (hid_qualif hid) (hid_config hid)
        cx (hid_dx hid) (hid_led hid).
Definition hid_with_led (led : Z) (hid : descHIDClass) : descHIDClass :=
  mkHID (hid_locale hid) (hid_device hid) (hid_qualif hid) (hid_config hid)
        (hid_cx hid) (hid_dx hid) led.

(** ** Slots of the instance pool *)

(** The number of slots of a pool that are free. *)
Definition free_slots (pool : list dcd) : nat :=
  length (filter (fun d => match core d with None => true | Some _ => false end)
                 pool).

(** ** Elements of the descriptor tables *)

(** An element of [descCDCACM] with another response scratch. *)
Definition acm_with_dx (dx : list Z) (acm : descCDCACMClass)
    : descCDCACMClass :=
  mkACM (acm_locale acm) (acm_device acm) (acm_qualif acm) (acm_config acm)
        (acm_cx acm) dx.

(** A language that has no string for a request: another language code, or
    no descriptor at the string index. *)
Definition no_string_for (sup : dcdSetup) (lc : descStringLanguage) : Prop :=
  language lc <> wIndex sup \/
  len (descriptor lc) <= Z.land (wValue sup) 0xFF.

(** The calls of a descriptor response: none, or a cache flush and a
    transmit of the same [n] bytes of the same buffer. *)
Definition flush_then_transmit (p : bufref) (bound : Z)
    (calls : list halCall) : Prop :=
  calls = [] \/
  exists n, calls = [FlushCache p n; ControlTransmit p n false] /\
            0 <= n <= 255 /\ n <= bound.

(** An element of [descHID] with another response scratch. *)
Definition hid_with_dx (dx : list Z) (hid : descHIDClass) : descHIDClass :=
  mkHID (hid_locale hid) (hid_device hid) (hid_qualif hid) (hid_config hid)
        (hid_cx hid) dx (hid_led hid).

(** * Proofs *)

(** ** Bit-level facts used by the codec *)

Lemma testbit_u_high (n x i : Z) :
  0 <= n -> 0 <= x < 2 ^ n -> n <= i -> Z.testbit x i = false.
Proof.
  intros Hn Hx Hi.
  rewrite <- (Z.mod_small x (2 ^ n)) by exact Hx.
  apply Z.mod_pow2_bits_high; lia.
Qed.

Lemma land_ones_small (n x : Z) :
  0 <= n -> 0 <= x < 2 ^ n -> Z.land x (Z.ones n) = x.
Proof.
  intros Hn Hx. rewrite Z.land_ones by exact Hn. apply Z.mod_small; exact Hx.
Qed.

(** Masking a field in place and shifting it down is the same as shifting
    first and masking with the low ones. *)
Lemma field_extract (u k n : Z) :
  0 <= k -> 0 <= n ->
  Z.shiftr (Z.land u (Z.shiftl (Z.ones k) n)) n = (Z.shiftr u n) mod 2 ^ k.
Proof.
  intros Hk Hn.
  rewrite <- Z.land_ones by exact Hk.
  apply Z.bits_inj'; intros i Hi.
  rewrite Z.shiftr_spec, !Z.land_spec, Z.shiftr_spec by exact Hi.
  rewrite Z.shiftl_spec by lia.
  replace (i + n - n) with i by lia.
  reflexivity.
Qed.

Lemma shiftr_range (u k n : Z) :
  0 <= n -> 0 <= k -> 0 <= u < 2 ^ (n + k) -> 0 <= Z.shiftr u n < 2 ^ k.
Proof.
  intros Hn Hk Hu.
  rewrite Z.shiftr_div_pow2 by exact Hn.
  rewrite Z.pow_add_r in Hu by lia.
  split.
  - apply Z.div_pos; lia.
  - apply Z.div_lt_upper_bound; lia.
Qed.

Lemma shl64_small (x k n : Z) :
  0 <= k -> 0 <= n -> n + k <= 64 -> 0 <= x < 2 ^ k ->
  shl64 x n = Z.shiftl x n.
Proof.
  intros Hk Hn Hnk Hx. unfold shl64, u64.
  apply Z.mod_small.
  rewrite Z.shiftl_mul_pow2 by exact Hn.
  assert (H2 : 2 ^ (n + k) <= 2 ^ 64) by (apply Z.pow_le_mono_r; lia).
  rewrite Z.pow_add_r in H2 by lia.
  assert (0 < 2 ^ n) by (apply Z.pow_pos_nonneg; lia).
  nia.
Qed.

Lemma pack_plain (s : dcdSetup) :
  setup_wf s ->
  pack s =
  Z.lor (Z.lor (Z.lor (Z.lor (bmRequestType s)
    (Z.shiftl (bRequest s) 8)) (Z.shiftl (wValue s) 16))
    (Z.shiftl (wIndex s) 32)) (Z.shiftl (wLength s) 48).
Proof.
  intros (Ha & Hb & Hv & Hi & Hl). unfold pack, is_u8, is_u16 in *.
  change 0xFF with (Z.ones 8). change 0xFFFF with (Z.ones 16).
  rewrite !land_ones_small by (assumption || lia).
  rewrite (shl64_small _ 8 0), (shl64_small _ 8 8), (shl64_small _ 16 16),
    (shl64_small _ 16 32), (shl64_small _ 16 48) by (assumption || lia).
  rewrite Z.shiftl_0_r. reflexivity.
Qed.

Lemma pack_testbit (s : dcdSetup) (i : Z) :
  setup_wf s -> 0 <= i -> Z.testbit (pack s) i = pack_bit s i.
Proof.
  intros Hwf Hi. rewrite pack_plain by exact Hwf.
  destruct Hwf as (Ha & Hb & Hv & Hx & Hl). unfold is_u8, is_u16 in *.
  unfold pack_bit. rewrite !Z.lor_spec.
  destruct (Z.ltb_spec i 8); [|destruct (Z.ltb_spec i 16);
    [|destruct (Z.ltb_spec i 32); [|destruct (Z.ltb_spec i 48);
      [|destruct (Z.ltb_spec i 64)]]]].
  - rewrite !Z.shiftl_spec_low by lia.
    rewrite !orb_false_r. reflexivity.
  - rewrite (testbit_u_high 8 (bmRequestType s)) by (assumption || lia).
    rewrite (Z.shiftl_spec_low (wValue s)), (Z.shiftl_spec_low (wIndex s)),
      (Z.shiftl_spec_low (wLength s)) by lia.
    rewrite Z.shiftl_spec by exact Hi.
    rewrite !orb_false_r. reflexivity.
  - rewrite (testbit_u_high 8 (bmRequestType s)) by (assumption || lia).
    rewrite (Z.shiftl_spec_low (wIndex s)), (Z.shiftl_spec_low (wLength s))
      by lia.
    rewrite !Z.shiftl_spec by exact Hi.
    rewrite (testbit_u_high 8 (bRequest s)) by (assumption || lia).
    rewrite !orb_false_r. reflexivity.
  - rewrite (testbit_u_high 8 (bmRequestType s)) by (assumption || lia).
    rewrite (Z.shiftl_spec_low (wLength s)) by lia.
    rewrite !Z.shiftl_spec by exact Hi.
    rewrite (testbit_u_high 8 (bRequest s)),
      (testbit_u_high 16 (wValue s)) by (assumption || lia).
    rewrite !orb_false_r. reflexivity.
  - rewrite (testbit_u_high 8 (bmRequestType s)) by (assumption || lia).
    rewrite !Z.shiftl_spec by exact Hi.
    rewrite (testbit_u_high 8 (bRequest s)),
      (testbit_u_high 16 (wValue s)),
      (testbit_u_high 16 (wIndex s)) by (assumption || lia).
    reflexivity.
  - rewrite (testbit_u_high 8 (bmRequestType s)) by (assumption || lia).
    rewrite !Z.shiftl_spec by exact Hi.
    rewrite (testbit_u_high 8 (bRequest s)),
      (testbit_u_high 16 (wValue s)),
      (testbit_u_high 16 (wIndex s)),
      (testbit_u_high 16 (wLength s)) by (assumption || lia).
    reflexivity.
Qed.

Lemma set_plain (u : Z) (s : dcdSetup) :
  set u s =
  {| bmRequestType := u mod 2 ^ 8;
     bRequest := (Z.shiftr u 8) mod 2 ^ 8;
     wValue := (Z.shiftr u 16) mod 2 ^ 16;
     wIndex := (Z.shiftr u 32) mod 2 ^ 16;
     wLength := (Z.shiftr u 48) mod 2 ^ 16 |}.
Proof.
  unfold set, u8, u16.
  change 0xFF with (Z.ones 8).
  change 0xFF00 with (Z.shiftl (Z.ones 8) 8).
  change 0xFFFF0000 with (Z.shiftl (Z.ones 16) 16).
  change 0xFFFF00000000 with (Z.shiftl (Z.ones 16) 32).
  change 0xFFFF000000000000 with (Z.shiftl (Z.ones 16) 48).
  rewrite !field_extract by lia.
  rewrite Z.land_ones by lia.
  rewrite !Z.mod_mod by lia.
  reflexivity.
Qed.

Lemma set_wf (u : Z) (s : dcdSetup) : setup_wf (set u s).
Proof.
  rewrite set_plain. unfold setup_wf, is_u8, is_u16; cbn [bmRequestType bRequest wValue wIndex wLength].
  repeat split; apply Z.mod_pos_bound; lia.
Qed.

(** A field of width [k] read back from position [n] of a packed word. *)
Lemma extract_pack (s : dcdSetup) (n k f : Z) :
  setup_wf s -> 0 <= n -> 0 <= k -> 0 <= f < 2 ^ k ->
  (forall i, 0 <= i < k -> pack_bit s (i + n) = Z.testbit f i) ->
  (Z.shiftr (pack s) n) mod 2 ^ k = f.
Proof.
  intros Hwf Hn Hk Hf Hbits.
  apply Z.bits_inj'; intros i Hi.
  destruct (Z.lt_ge_cases i k) as [Hlt | Hge].
  - rewrite Z.mod_pow2_bits_low by lia.
    rewrite Z.shiftr_spec by exact Hi.
    rewrite pack_testbit by (assumption || lia).
    apply Hbits; lia.
  - rewrite Z.mod_pow2_bits_high by lia.
    symmetry. apply (testbit_u_high k); assumption.
Qed.

Lemma set_pack (s t : dcdSetup) : setup_wf s -> set (pack s) t = s.
Proof.
  intros Hwf. rewrite set_plain.
  pose proof Hwf as (Ha & Hb & Hv & Hx & Hl). unfold is_u8, is_u16 in *.
  rewrite <- (Z.shiftr_0_r (pack s)) at 1.
  rewrite (extract_pack s 0 8 (bmRequestType s)),
    (extract_pack s 8 8 (bRequest s)),
    (extract_pack s 16 16 (wValue s)),
    (extract_pack s 32 16 (wIndex s)),
    (extract_pack s 48 16 (wLength s));
    try assumption; try lia; try (destruct s; reflexivity);
    intros i Hi; unfold pack_bit;
    repeat match goal with
    | |- context [?a <? ?b] => destruct (Z.ltb_spec a b); try lia
    end; f_equal; lia.
Qed.

Lemma pack_set (u : Z) (s : dcdSetup) : is_u64 u -> pack (set u s) = u.
Proof.
  intros Hu. unfold is_u64 in Hu.
  apply Z.bits_inj'; intros i Hi.
  rewrite pack_testbit by (apply set_wf || exact Hi).
  rewrite set_plain. unfold pack_bit.
  cbn [bmRequestType bRequest wValue wIndex wLength].
  repeat match goal with
  | |- context [?a <? ?b] => destruct (Z.ltb_spec a b)
  end.
  - rewrite Z.mod_pow2_bits_low by lia. reflexivity.
  - rewrite Z.mod_pow2_bits_low, Z.shiftr_spec by lia. f_equal; lia.
  - rewrite Z.mod_pow2_bits_low, Z.shiftr_spec by lia. f_equal; lia.
  - rewrite Z.mod_pow2_bits_low, Z.shiftr_spec by lia. f_equal; lia.
  - rewrite Z.mod_pow2_bits_low, Z.shiftr_spec by lia. f_equal; lia.
  - symmetry. apply (testbit_u_high 64); lia.
Qed.

(** C3: [set] and [pack] are inverse to each other on the values the Go
    types hold, and the packed word carries bmRequestType in bits 0..7,
    bRequest in bits 8..15, wValue in bits 16..31, wIndex in bits 32..47 and
    wLength in bits 48..63. *)
Theorem setup_pack_set_roundtrip (P t : dcdSetup) (u : Z) :
  setup_wf P -> is_u64 u ->
  set (pack P) t = P /\
  pack (set u t) = u /\
  is_u64 (pack P) /\
  (forall i, 0 <= i < 8 ->
     Z.testbit (pack P) i = Z.testbit (bmRequestType P) i) /\
  (forall i, 8 <= i < 16 ->
     Z.testbit (pack P) i = Z.testbit (bRequest P) (i - 8)) /\
  (forall i, 16 <= i < 32 ->
     Z.testbit (pack P) i = Z.testbit (wValue P) (i - 16)) /\
  (forall i, 32 <= i < 48 ->
     Z.testbit (pack P) i = Z.testbit (wIndex P) (i - 32)) /\
  (forall i, 48 <= i < 64 ->
     Z.testbit (pack P) i = Z.testbit (wLength P) (i - 48)).
Proof.
  intros Hwf Hu.
  split; [apply set_pack; exact Hwf|].
  split; [apply pack_set; exact Hu|].
  split.
  { unfold pack, is_u64.
    assert (Hs : forall a n, 0 <= shl64 a n < 2 ^ 64)
      by (intros; apply Z.mod_pos_bound; lia).
    assert (Hor : forall a b, 0 <= a < 2 ^ 64 -> 0 <= b < 2 ^ 64 ->
                              0 <= Z.lor a b < 2 ^ 64).
    { intros a b Ha Hb. split; [apply Z.lor_nonneg; lia|].
      destruct (Z.eq_dec (Z.lor a b) 0) as [E|E]; [rewrite E; lia|].
      apply Z.log2_lt_pow2; [pose proof (proj2 (Z.lor_nonneg a b)); lia|].
      rewrite Z.log2_lor by lia.
      destruct (Z.eq_dec a 0) as [->|Na]; destruct (Z.eq_dec b 0) as [->|Nb];
        cbn [Z.log2]; try lia.
      - rewrite Z.max_r by (apply Z.log2_nonneg).
        apply Z.log2_lt_pow2; lia.
      - rewrite Z.max_l by (apply Z.log2_nonneg).
        apply Z.log2_lt_pow2; lia.
      - apply Z.max_lub_lt; apply Z.log2_lt_pow2; lia. }
    repeat apply Hor; apply Hs. }
  repeat split; intros i Hi; rewrite pack_testbit by (assumption || lia);
    unfold pack_bit;
    repeat match goal with
    | |- context [?a <? ?b] => destruct (Z.ltb_spec a b); try lia
    end; reflexivity.
Qed.

Lemma setup_pack_set_roundtrip_witness :
  set (pack (mkSetup 0x80 0x06 0x0100 0 18)) setup_zero
    = mkSetup 0x80 0x06 0x0100 0 18 /\
  pack (set 0x0012000001000680 setup_zero) = 0x0012000001000680.
Proof.
  pose proof (setup_pack_set_roundtrip
                (mkSetup 0x80 0x06 0x0100 0 18) setup_zero 0x0012000001000680)
    as H.
  assert (Hwf : setup_wf (mkSetup 0x80 0x06 0x0100 0 18)).
  { unfold setup_wf, is_u8, is_u16; simpl; lia. }
  assert (Hu : is_u64 0x0012000001000680) by (unfold is_u64; lia).
  destruct (H Hwf Hu) as (H1 & H2 & _).
  split; assumption.
Defined.

(** ** State machine *)

Lemma setState_ok (t : Z) (d : dcd) :
  fst (setState t d) = table_accepts (state d) t.
Proof.
  unfold setState, table_accepts, existsb. cbv zeta.
  repeat match goal with
  | |- context [if ?a =? ?b then _ else _] => destruct (a =? b)
  end;
  rewrite ?orb_false_r, ?orb_assoc;
  repeat match goal with
  | |- context [?a =? ?b] => destruct (a =? b)
  end; reflexivity.
Qed.

Lemma setState_result (t : Z) (d : dcd) :
  setState t d =
  if table_accepts (state d) t then (true, with_st (u8 t) d) else (false, d).
Proof.
  pose proof (setState_ok t d) as H.
  unfold setState in *.
  match goal with
  | |- (if ?c then _ else _) = _ => destruct c
  end; cbn [fst] in H; rewrite <- H; reflexivity.
Qed.

Lemma table_accepts_target (s t : Z) :
  table_accepts s t = true -> 0 <= t <= 4.
Proof.
  unfold table_accepts, dcdStateNotReady, dcdStateDefault, dcdStateAddressed,
    dcdStateConfigured, dcdStateSuspended.
  repeat match goal with
  | |- context [if ?a =? ?b then _ else _] => destruct (Z.eqb_spec a b)
  end; try lia; discriminate.
Qed.

Ltac table_row :=
  let s := fresh "s" in
  intros s; cbn;
  unfold dcdStateNotReady, dcdStateDefault, dcdStateAddressed,
    dcdStateConfigured, dcdStateSuspended;
  repeat match goal with
  | |- context [s =? ?k] => destruct (Z.eqb_spec s k)
  end; cbn; split; intros; first [reflexivity | lia | discriminate].

(** C1: [setState] is the transition table.  It returns whether the table
    accepts the transition from the current state; an accepted target is
    written, a rejected one leaves the controller as it was; the rows of the
    table are the ones of the data model, and NotReady is accepted from
    every state. *)
Theorem setState_applies_transition_table (d : dcd) (t : Z) :
  fst (setState t d) = table_accepts (state d) t /\
  (table_accepts (state d) t = true ->
     snd (setState t d) = with_st t d /\ state (snd (setState t d)) = t) /\
  (table_accepts (state d) t = false ->
     snd (setState t d) = d /\ state (snd (setState t d)) = state d) /\
  (forall s, table_accepts s dcdStateNotReady = true) /\
  (forall s, table_accepts s dcdStateDefault = true <->
             s = dcdStateNotReady \/ s = dcdStateDefault) /\
  (forall s, table_accepts s dcdStateAddressed = true <->
             s = dcdStateDefault) /\
  (forall s, table_accepts s dcdStateConfigured = true <->
             s = dcdStateAddressed \/ s = dcdStateConfigured \/
             s = dcdStateSuspended) /\
  (forall s, table_accepts s dcdStateSuspended = true <->
             s = dcdStateAddressed \/ s = dcdStateConfigured \/
             s = dcdStateSuspended) /\
  fst (setState dcdStateNotReady d) = true /\
  state (snd (setState dcdStateNotReady d)) = dcdStateNotReady.
Proof.
  split; [apply setState_ok|].
  split.
  { intros Hacc. rewrite setState_result, Hacc. cbn [snd].
    apply table_accepts_target in Hacc.
    unfold u8. rewrite Z.mod_small by lia. split; reflexivity. }
  split.
  { intros Hrej. rewrite setState_result, Hrej. split; reflexivity. }
  split; [intros s; reflexivity|].
  repeat (split; [table_row|]).
  split; reflexivity.
Qed.

(** ** Instance pool *)

Lemma initScan_full (K : descConsts) (pool : list dcd)
    (i prt speed : Z) (c : class) :
  Forall taken pool -> initScan K i prt speed c pool = Some (pool, None).
Proof.
  intros Hfull. revert i.
  induction Hfull as [|d rest Hd _ IH]; intros i; cbn.
  - reflexivity.
  - unfold taken in Hd. destruct (core d); [|contradiction].
    rewrite IH. reflexivity.
Qed.

Lemma initScan_first_free (K : descConsts) (pre post : list dcd) (d : dcd)
    (i prt speed : Z) (c : class) :
  Forall taken pre -> core d = None -> 0 <= prt < coreCount K ->
  initScan K i prt speed c (pre ++ d :: post) =
  Some (pre ++ initSlot (i + len pre) prt speed c d :: post,
        Some (i + len pre)).
Proof.
  intros Hpre Hd Hprt. revert i.
  induction Hpre as [|x pre Hx _ IH]; intros i; cbn [app initScan].
  - rewrite Hd.
    replace ((prt <? 0) || (coreCount K <=? prt)) with false
      by (symmetry; apply orb_false_iff; split;
          [apply Z.ltb_ge | apply Z.leb_gt]; lia).
    unfold len; cbn. rewrite Z.add_0_r. reflexivity.
  - unfold taken in Hx. destruct (core x); [|contradiction].
    rewrite IH. unfold len; cbn [length].
    replace (i + 1 + Z.of_nat (length pre))
      with (i + Z.of_nat (S (length pre))) by lia.
    reflexivity.
Qed.

Lemma args_invalid_false (K : descConsts) (c : class) :
  args_invalid K c = false ->
  (0 =? dcdCount K) = false /\
  (cid c =? classDeviceCDCACM K) &&
    ((0 =? config c) || (descCDCACMCount K <? config c)) = false.
Proof. unfold args_invalid. apply orb_false_iff. Qed.

(** C7, as amended: the argument checks come first.  A call that fails them
    returns Invalid; a call that passes them on a pool whose slots are all in
    use returns Busy; in both cases the pool is as it was.  A call that
    passes them, for a port of the core table, takes the first slot whose
    core is nil, sets its hardware layer, core, port, class and id, puts it
    in state NotReady, leaves the other slots alone and returns it with
    OK. *)
Theorem initDCD_invalid_busy_or_first_free (K : descConsts)
    (pool : list dcd) (prt speed : Z) (c : class) :
  (args_invalid K c = true ->
     initDCD K pool prt speed c = InitDone pool None statusInvalid) /\
  (args_invalid K c = false -> Forall taken pool ->
     initDCD K pool prt speed c = InitDone pool None statusBusy) /\
  (forall pre d post,
     args_invalid K c = false -> 0 <= prt < coreCount K ->
     pool = pre ++ d :: post -> Forall taken pre -> core d = None ->
     let i := len pre in
     let d' := initSlot i prt speed c d in
     initDCD K pool prt speed c = InitDone (pre ++ d' :: post) (Some i)
                                           statusOK /\
     hw d' = Some (mkDhw prt i speed) /\ core d' = Some prt /\
     port d' = prt /\ cc d' = c /\ id d' = i /\
     state d' = dcdStateNotReady).
Proof.
  split; [|split].
  - unfold args_invalid, initDCD. intros H.
    destruct (0 =? dcdCount K); [reflexivity|].
    cbn [orb] in H. rewrite H. reflexivity.
  - intros H Hfull. apply args_invalid_false in H as [H0 H1].
    unfold initDCD. rewrite H0, H1.
    rewrite initScan_full by exact Hfull. reflexivity.
  - intros pre d post H Hprt -> Hpre Hd i d'.
    apply args_invalid_false in H as [H0 H1].
    unfold initDCD. rewrite H0, H1.
    rewrite initScan_first_free by assumption.
    cbn [Z.add]. subst i d'. repeat split.
Qed.

Lemma initDCD_invalid_busy_or_first_free_witness :
  initDCD sampleK [sample_dcd (mkClass 1 1) 3; dcd_zero] 1 0 (mkClass 2 1) =
  InitDone [sample_dcd (mkClass 1 1) 3;
            mkDcd (Some (mkDhw 1 1 0)) (Some 1) 1 (mkClass 2 1) 1 0
                  setup_zero dcdStageSetup]
           (Some 1) statusOK.
Proof.
  pose proof (initDCD_invalid_busy_or_first_free sampleK
                [sample_dcd (mkClass 1 1) 3; dcd_zero] 1 0 (mkClass 2 1))
    as (_ & _ & H).
  specialize (H [sample_dcd (mkClass 1 1) 3] dcd_zero []).
  assert (Ha : args_invalid sampleK (mkClass 2 1) = false) by reflexivity.
  assert (Hp : 0 <= 1 < coreCount sampleK) by (cbn; lia).
  assert (Hpre : Forall taken [sample_dcd (mkClass 1 1) 3]).
  { constructor; [discriminate | constructor]. }
  destruct (H Ha Hp eq_refl Hpre eq_refl) as (Hr & _).
  exact Hr.
Defined.

(** The claim C7 as stated fails: on a full pool, a call whose class is
    CDC-ACM with config 0 is answered Invalid, not Busy. *)
Lemma initDCD_full_pool_not_always_busy :
  Forall taken [sample_dcd (mkClass 1 1) 3; sample_dcd (mkClass 2 1) 3] /\
  len [sample_dcd (mkClass 1 1) 3; sample_dcd (mkClass 2 1) 3]
    = dcdCount sampleK /\
  initDCD sampleK [sample_dcd (mkClass 1 1) 3; sample_dcd (mkClass 2 1) 3]
          0 0 (mkClass (classDeviceCDCACM sampleK) 0)
    = InitDone [sample_dcd (mkClass 1 1) 3; sample_dcd (mkClass 2 1) 3]
               None statusInvalid /\
  statusInvalid <> statusBusy.
Proof.
  split; [repeat constructor; discriminate|].
  split; [reflexivity|].
  split; [reflexivity|discriminate].
Qed.

(** ** Running the dispatcher *)

Ltac run :=
  cbv beta iota zeta delta
    [bind ret hal getD modD getW putW checked panic statusReceive
     controlStatusBuffer endpointStatus
     self descCDCACM descHID hal_endpointStatus
     with_self with_descCDCACM with_descHID
     hw core port cc id st setup stage cid config state
     with_st with_setup with_stage with_config app fst snd
     ev_id ev_setup ev_mask].

Ltac open_world w :=
  destruct w as [[?h ?c ?p [?ci ?cf] ?i ?s ?su ?sg] ?acm ?hid ?eps].

Ltac split_if :=
  match goal with
  | |- context [if ?c then _ else _] =>
      lazymatch c with
      | context [if _ then _ else _] => fail
      | _ => destruct c eqn:?
      end
  end.

Lemma setStateM_run (t : Z) (w : world) :
  setStateM t w =
  Ok (table_accepts (st (self w)) t)
     (with_self (with_st (next_state (st (self w)) t) (self w)) w) [].
Proof.
  unfold setStateM, next_state. rewrite setState_result. unfold state.
  destruct (table_accepts (st (self w)) t) eqn:E.
  - apply table_accepts_target in E. unfold u8. rewrite Z.mod_small by lia.
    reflexivity.
  - destruct w as [d a h e]; destruct d; reflexivity.
Qed.

(** The event the dispatcher sends to the pump. *)
Lemma event_fuel_configuration (K : descConsts) (n : nat) (w : world) :
  event_fuel K (S n) (event_of_id dcdEventDeviceConfiguration) w =
  Ok tt (with_self (with_st (next_state (st (self w)) dcdStateConfigured)
                            (self w)) w) [].
Proof.
  cbn [event_fuel event_of_id ev_id].
  change (dcdEventDeviceConfiguration =? dcdEventStatusReset) with false.
  cbv iota. cbn -[setStateM]. unfold bind. rewrite setStateM_run. reflexivity.
Qed.

Lemma setConfiguration_run (K : descConsts) (n : nat) (sup : dcdSetup)
    (w : world) :
  setConfiguration K (event_fuel K (S n)) sup w =
  Ok dcdStageStatusOut
    (with_self (with_st (next_state (st (self w)) dcdStateConfigured)
                  (with_config (normalConfig K (wValue sup)) (self w))) w)
    (if cid (cc (self w)) =? classDeviceCDCACM K then
       [UartConfigure; ControlReceive BufNil 0 false]
     else if cid (cc (self w)) =? classDeviceHID K then
       [SerialConfigure; KeyboardConfigure; MouseConfigure;
        JoystickConfigure; ControlReceive BufNil 0 false]
     else []).
Proof.
  unfold setConfiguration, normalConfig. open_world w. run.
  destruct ((wValue sup =? 0) || (dcdCount K <? wValue sup)); run;
    rewrite event_fuel_configuration; run;
    repeat (split_if; run); reflexivity.
Qed.

(** One level of nesting is all the dispatcher uses. *)
Lemma controlSetup_fuel (K : descConsts) (n : nat) (sup : dcdSetup)
    (w : world) :
  controlSetup K (event_fuel K (S n)) sup w =
  controlSetup K (event_fuel K 1) sup w.
Proof.
  unfold controlSetup, controlSetupStandard.
  repeat (split_if; try (rewrite !setConfiguration_run); try reflexivity).
Qed.

Lemma event_fuel_enough (K : descConsts) (n : nat) (ev : dcdEvent)
    (w : world) :
  event_fuel K (S (S n)) ev w = event K ev w.
Proof.
  unfold event. cbn [event_fuel].
  repeat (split_if; try reflexivity).
Qed.

Lemma controlSetup_not_out_of_fuel (K : descConsts) (n : nat)
    (sup : dcdSetup) (w : world) :
  controlSetup K (event_fuel K (S n)) sup w <> OutOfFuel.
Proof.
  unfold controlSetup, controlSetupStandard, controlSetupClass,
    getDescriptor, controlDescriptorCDCACM, controlDescriptorHID,
    transmitDescriptor.
  repeat (split_if; try discriminate);
    try (rewrite setConfiguration_run; discriminate);
    run;
    repeat first
      [ discriminate
      | split_if
      | match goal with
        | |- context [match ?o with Some _ => _ | None => _ end] =>
            destruct o eqn:?
        end ]; run.
Qed.

(** ** The event pump *)

(** The pump on a ControlSetup event, from the run of the dispatcher in the
    world that holds the received packet. *)
Lemma event_control_setup (K : descConsts) (sup : dcdSetup) (mask : Z)
    (w w1 : world) (g : dcdStage) (calls : list halCall) :
  controlSetup K (event_fuel K 1) sup (with_self (with_setup sup (self w)) w)
    = Ok g w1 calls ->
  event K (mkEvent dcdEventControlSetup sup mask) w =
  Ok tt (with_self (with_stage g (self w1)) w1)
     (calls ++ if is_stall g then [ControlStall true (direction sup)]
               else []).
Proof.
  intros Hrun. unfold event. cbn [event_fuel ev_id ev_setup].
  change (dcdEventControlSetup =? dcdEventStatusReset) with false.
  cbv iota.
  change (dcdEventControlSetup =? dcdEventStatusResume) with false.
  change (dcdEventControlSetup =? dcdEventStatusSuspend) with false.
  change (dcdEventControlSetup =? dcdEventDeviceReady) with false.
  change (dcdEventControlSetup =? dcdEventDeviceAddress) with false.
  change (dcdEventControlSetup =? dcdEventDeviceConfiguration) with false.
  change (dcdEventControlSetup =? dcdEventControlSetup) with true.
  cbv iota.
  unfold bind at 1. cbn [modD].
  unfold bind at 1.
  match goal with
  | |- context [controlSetup K ?f sup ?x] =>
      change (controlSetup K f sup x)
        with (controlSetup K (event_fuel K 1) sup x)
  end.
  rewrite Hrun.
  destruct g; run; rewrite ?app_nil_r; reflexivity.
Qed.

Lemma event_control_complete (K : descConsts) (ev : dcdEvent) (w : world) :
  ev_id ev = dcdEventControlComplete ->
  event K ev w = (controlComplete K ;; modD (with_setup setup_zero)) w.
Proof.
  intros Hid. unfold event. cbn [event_fuel]. rewrite Hid. reflexivity.
Qed.

Lemma controlSetup_setConfiguration (K : descConsts) (n : nat)
    (sup : dcdSetup) (w : world) :
  requestType sup = descRequestTypeTypeStandard ->
  requestTarget sup =
    Z.lor descRequestTypeRecipientDevice descRequestTypeDirOut ->
  bRequest sup = descRequestStandardSetConfiguration ->
  controlSetup K (event_fuel K (S n)) sup w =
  setConfiguration K (event_fuel K (S n)) sup w.
Proof.
  intros Hty Htg Hreq.
  unfold controlSetup, controlSetupStandard. rewrite Hty, Htg, Hreq.
  reflexivity.
Qed.

Lemma with_st_same (d : dcd) : with_st (st d) d = d.
Proof. destruct d; reflexivity. Qed.

Lemma with_self_same (w : world) : with_self (self w) w = w.
Proof. destruct w; reflexivity. Qed.

Lemma setConfiguration_default (K : descConsts) (w : world)
    (sup : dcdSetup) :
  state (self w) = dcdStateDefault ->
  requestType sup = descRequestTypeTypeStandard ->
  requestTarget sup =
    Z.lor descRequestTypeRecipientDevice descRequestTypeDirOut ->
  bRequest sup = descRequestStandardSetConfiguration ->
  controlSetup K (event_fuel K 1) sup w =
  Ok dcdStageStatusOut
     (with_self (with_config (normalConfig K (wValue sup)) (self w)) w)
     (configureCalls K (cid (cc (self w)))).
Proof.
  intros Hst Hty Htg Hreq.
  rewrite controlSetup_setConfiguration, setConfiguration_run by assumption.
  unfold state in Hst. rewrite Hst.
  change (next_state dcdStateDefault dcdStateConfigured)
    with dcdStateDefault.
  rewrite <- Hst.
  f_equal; try (destruct w as [d a h e]; destruct d; reflexivity).
Qed.

(** C10: SET_CONFIGURATION in state Default, under every class id.  The
    transition to Configured that the nested DeviceConfiguration event asks
    for is rejected and the state stays Default; the dispatcher stores the
    normalised configuration index all the same and returns StatusOut.
    Under a CDC-ACM or HID binding it calls the configure callbacks of the
    class and arms the zero-length status receive.  Under any other class
    id, which initDCD accepts, it makes no call at all: the status receive
    is not armed. *)
Theorem set_configuration_in_default_state (K : descConsts) (w : world)
    (sup : dcdSetup) (mask : Z) :
  state (self w) = dcdStateDefault ->
  requestType sup = descRequestTypeTypeStandard ->
  requestTarget sup =
    Z.lor descRequestTypeRecipientDevice descRequestTypeDirOut ->
  bRequest sup = descRequestStandardSetConfiguration ->
  let d' := with_config (normalConfig K (wValue sup)) (self w) in
  let calls := configureCalls K (cid (cc (self w))) in
  setState dcdStateConfigured d' = (false, d') /\
  event K (event_of_id dcdEventDeviceConfiguration) (with_self d' w) =
    Ok tt (with_self d' w) [] /\
  controlSetup K (event K) sup w =
    Ok dcdStageStatusOut (with_self d' w) calls /\
  state d' = dcdStateDefault /\
  config (cc d') = normalConfig K (wValue sup) /\
  (cid (cc (self w)) = classDeviceCDCACM K ->
   calls = [UartConfigure; ControlReceive BufNil 0 false]) /\
  (cid (cc (self w)) <> classDeviceCDCACM K ->
   cid (cc (self w)) = classDeviceHID K ->
   calls = [SerialConfigure; KeyboardConfigure; MouseConfigure;
            JoystickConfigure; ControlReceive BufNil 0 false]) /\
  (cid (cc (self w)) <> classDeviceCDCACM K ->
   cid (cc (self w)) <> classDeviceHID K ->
   calls = [] /\ count_calls is_control_io calls = 0%nat) /\
  (In (ControlReceive BufNil 0 false) calls <->
   cid (cc (self w)) = classDeviceCDCACM K \/
   cid (cc (self w)) = classDeviceHID K) /\
  event K (mkEvent dcdEventControlSetup sup mask) w =
    Ok tt (with_self (with_stage dcdStageStatusOut (with_setup sup d')) w)
       calls.
Proof.
  intros Hst Hty Htg Hreq d' calls.
  assert (Hst' : st d' = dcdStateDefault) by exact Hst.
  split.
  { rewrite setState_result. unfold state. rewrite Hst'. reflexivity. }
  split.
  { unfold event. rewrite event_fuel_configuration.
    cbn [self with_self]. rewrite Hst'.
    change (next_state dcdStateDefault dcdStateConfigured)
      with dcdStateDefault.
    rewrite <- Hst', with_st_same. destruct w; reflexivity. }
  split; [apply setConfiguration_default; assumption|].
  split; [exact Hst|].
  split; [destruct w as [d a h e]; destruct d; reflexivity|].
  subst calls. unfold configureCalls.
  split.
  { intros Hc. rewrite Hc, Z.eqb_refl. reflexivity. }
  split.
  { intros Hn Hc. apply Z.eqb_neq in Hn. rewrite Hn, Hc, Z.eqb_refl.
    reflexivity. }
  split.
  { intros Hn Hm. apply Z.eqb_neq in Hn, Hm. rewrite Hn, Hm.
    split; reflexivity. }
  split.
  { destruct (Z.eqb_spec (cid (cc (self w))) (classDeviceCDCACM K)) as [E|E].
    - split; [auto | intros _; cbn; auto].
    - destruct (Z.eqb_spec (cid (cc (self w))) (classDeviceHID K)) as [F|F].
      + split; [auto | intros _; cbn; auto 10].
      + split; [intros [] | intros [H | H]; contradiction]. }
  rewrite (event_control_setup K sup mask w
             (with_self (with_config (normalConfig K (wValue sup))
                           (with_setup sup (self w))) w)
             dcdStageStatusOut
             (configureCalls K (cid (cc (self w))))).
  - cbn [is_stall]. rewrite app_nil_r.
    destruct w as [d a h e]; destruct d; reflexivity.
  - rewrite setConfiguration_default; try assumption;
      destruct w as [d a h e]; destruct d;
      first [reflexivity | exact Hst].
Qed.

Lemma set_configuration_in_default_state_witness :
  event sampleK (mkEvent dcdEventControlSetup (mkSetup 0x00 0x09 1 0 0) 0)
        (sample_world (mkClass 7 1) dcdStateDefault) =
  Ok tt
     (mkWorld
        (mkDcd (Some (mkDhw 0 0 0)) (Some 0) 0 (mkClass 7 1) 0
               dcdStateDefault (mkSetup 0x00 0x09 1 0 0) dcdStageStatusOut)
        [sample_acm] [sample_hid] (fun _ => 0))
     [].
Proof.
  pose proof (set_configuration_in_default_state sampleK
                (sample_world (mkClass 7 1) dcdStateDefault)
                (mkSetup 0x00 0x09 1 0 0) 0) as H.
  assert (H1 : state (self (sample_world (mkClass 7 1) dcdStateDefault))
               = dcdStateDefault) by reflexivity.
  destruct (H H1 eq_refl eq_refl eq_refl)
    as (_ & _ & _ & _ & _ & _ & _ & _ & _ & Hev).
  exact Hev.
Defined.

(** ** Requests the dispatch tables do not match *)

(** bmRequestType is made of the type bits and of the recipient with the
    direction. *)
Lemma bm_decompose (bm : Z) :
  is_u8 bm ->
  bm = Z.lor (Z.land bm descRequestTypeTypeMsk)
             (Z.land bm (Z.lor descRequestTypeRecipientMsk
                               descRequestTypeDirMsk)).
Proof.
  intros Hbm. rewrite <- Z.land_lor_distr_r.
  change (Z.lor descRequestTypeTypeMsk
            (Z.lor descRequestTypeRecipientMsk descRequestTypeDirMsk))
    with (Z.ones 8).
  symmetry. apply land_ones_small; [lia | exact Hbm].
Qed.

Lemma bm_known (bm a b : Z) :
  is_u8 bm ->
  (Z.land bm descRequestTypeTypeMsk =? a) = true ->
  (Z.land bm (Z.lor descRequestTypeRecipientMsk descRequestTypeDirMsk)
     =? b) = true ->
  bm = Z.lor a b.
Proof.
  intros Hbm Ha Hb. apply Z.eqb_eq in Ha, Hb.
  rewrite (bm_decompose bm Hbm) at 1. rewrite Ha, Hb. reflexivity.
Qed.

Lemma direction_spec_dir (sup : dcdSetup) : direction sup = spec_dir sup.
Proof.
  unfold direction, spec_dir. rewrite Z.shiftr_land. reflexivity.
Qed.

(** In a branch of the dispatcher that answers a request, the tests passed
    on the way contradict [spec_matched = false]. *)
Ltac matched_leaf Hbm Hspec :=
  match goal with
  | Ht : (Z.land ?bm descRequestTypeTypeMsk =? ?a) = true,
    Hg : (Z.land ?bm (Z.lor descRequestTypeRecipientMsk
                            descRequestTypeDirMsk) =? ?b) = true |- _ =>
      pose proof (bm_known bm a b Hbm Ht Hg) as Hknown;
      clear Ht Hg; cbv in Hknown; subst bm
  end;
  repeat match goal with
  | H : (?br =? ?k) = true |- _ =>
      is_var br;
      let k' := eval cbv in k in
      lazymatch k' with
      | Z0 => idtac
      | Zpos _ => idtac
      end;
      apply Z.eqb_eq in H; cbv in H; subst br
  end;
  cbv [spec_matched spec_row spec_type spec_recipient spec_dir
       bmRequestType bRequest wValue wIndex wLength] in Hspec;
  cbn in Hspec;
  repeat match goal with
  | H : (u16 descCDCACMLineCodingSize =? ?b) = _ |- _ =>
      change (u16 descCDCACMLineCodingSize) with 7 in H;
      rewrite (Z.eqb_sym 7 b) in H
  end;
  repeat match goal with
  | H : (_ =? _) = _ |- _ => rewrite H in Hspec
  | H : (_ <=? _) = _ |- _ => rewrite H in Hspec
  end;
  cbn in Hspec; rewrite ?orb_true_r in Hspec; discriminate Hspec.

Lemma controlSetup_unmatched (K : descConsts) (n : nat) (sup : dcdSetup)
    (w : world) :
  setup_wf sup ->
  spec_matched K (cid (cc (self w))) sup = false ->
  is_set_configuration sup = false ->
  controlSetup K (event_fuel K (S n)) sup w = Ok dcdStageStall w [].
Proof.
  intros (Hbm & _) Hspec Hns. open_world w.
  destruct sup as [bm br wv wi wl].
  cbn [bmRequestType self cc cid] in Hbm, Hspec.
  unfold is_set_configuration, requestType, requestTarget in Hns.
  cbn [bmRequestType bRequest] in Hns.
  unfold controlSetup, controlSetupStandard, controlSetupClass,
    getDescriptor, requestType, requestTarget.
  cbn [bmRequestType bRequest wValue wIndex wLength].
  repeat (run; first [reflexivity | split_if]).
  all: first
    [ exfalso;
      repeat match goal with
      | H : (_ =? _) = true |- _ => rewrite H in Hns
      end;
      discriminate Hns
    | matched_leaf Hbm Hspec ].
Qed.

Lemma spec_vendor_unmatched (K : descConsts) (c : Z) (sup : dcdSetup) :
  spec_type sup = spec_Vendor -> spec_matched K c sup = false.
Proof. intros H. unfold spec_matched. rewrite H. reflexivity. Qed.

(** A SET_CONFIGURATION packet is unhandled under the class ids other than
    CDC-ACM and HID only. *)
Lemma set_configuration_unmatched (K : descConsts) (c : Z)
    (sup : dcdSetup) :
  setup_wf sup ->
  is_set_configuration sup = true ->
  spec_matched K c sup = false ->
  c <> classDeviceCDCACM K /\ c <> classDeviceHID K.
Proof.
  intros (Hbm & _) Hs Hspec.
  unfold is_set_configuration, requestType, requestTarget in Hs.
  apply andb_prop in Hs. destruct Hs as [Hs H3].
  apply andb_prop in Hs. destruct Hs as [H1 H2].
  destruct sup as [bm br wv wi wl].
  cbn [bmRequestType bRequest] in *.
  pose proof (bm_known bm _ _ Hbm H1 H2) as Hknown. cbv in Hknown.
  apply Z.eqb_eq in H3. cbv in H3. subst bm br.
  cbv [spec_matched spec_row spec_type spec_recipient spec_dir
       bmRequestType bRequest wValue wIndex wLength] in Hspec.
  cbn in Hspec. rewrite ?orb_false_r in Hspec.
  apply orb_false_iff in Hspec. destruct Hspec as [Ha Hh].
  apply Z.eqb_neq in Ha, Hh. auto.
Qed.

(** C6: a request the dispatch tables do not handle (every Vendor request
    among them).  Unless it is SET_CONFIGURATION, the dispatcher returns
    Stall without any call to the hardware layer, and the pump then calls
    controlStall(true, d) once and nothing else, d being the direction bit
    of the packet received.  SET_CONFIGURATION is unhandled under the class
    ids other than CDC-ACM and HID; there the dispatcher stores the
    configuration index and returns StatusOut, and the pump makes no call:
    the endpoint is not stalled. *)
Theorem unhandled_request_stalls_except_set_configuration
    (K : descConsts) (w : world) (sup : dcdSetup) (mask : Z) :
  setup_wf sup ->
  spec_type sup = spec_Vendor \/
  spec_matched K (cid (cc (self w))) sup = false ->
  (is_set_configuration sup = false ->
   controlSetup K (event K) sup w = Ok dcdStageStall w [] /\
   event K (mkEvent dcdEventControlSetup sup mask) w =
     Ok tt
        (with_self (with_stage dcdStageStall (with_setup sup (self w))) w)
        [ControlStall true (spec_dir sup)]) /\
  (is_set_configuration sup = true ->
   cid (cc (self w)) <> classDeviceCDCACM K /\
   cid (cc (self w)) <> classDeviceHID K /\
   controlSetup K (event K) sup w =
     Ok dcdStageStatusOut
        (with_self
           (with_st (next_state (st (self w)) dcdStateConfigured)
              (with_config (normalConfig K (wValue sup)) (self w))) w)
        [] /\
   event K (mkEvent dcdEventControlSetup sup mask) w =
     Ok tt
        (with_self
           (with_stage dcdStageStatusOut
              (with_st (next_state (st (self w)) dcdStateConfigured)
                 (with_config (normalConfig K (wValue sup))
                    (with_setup sup (self w))))) w)
        []) /\
  direction sup = spec_dir sup /\
  spec_dir sup = Z.b2z (Z.testbit (bmRequestType sup) 7).
Proof.
  intros Hwf Hun.
  assert (Hspec : spec_matched K (cid (cc (self w))) sup = false).
  { destruct Hun as [Hv | Hm]; [apply spec_vendor_unmatched|]; assumption. }
  split; [|split; [|split]].
  - intros Hns.
    split; [apply controlSetup_unmatched; assumption|].
    rewrite (event_control_setup K sup mask w
               (with_self (with_setup sup (self w)) w) dcdStageStall []).
    + rewrite direction_spec_dir. destruct w as [d a h e]; destruct d.
      reflexivity.
    + apply controlSetup_unmatched; [exact Hwf| |exact Hns].
      destruct w as [d a h e]; destruct d; exact Hspec.
  - intros Hs.
    destruct (set_configuration_unmatched K _ sup Hwf Hs Hspec) as [Ha Hh].
    split; [exact Ha|]. split; [exact Hh|].
    assert (Hroute : requestType sup = descRequestTypeTypeStandard /\
                     requestTarget sup =
                       Z.lor descRequestTypeRecipientDevice
                             descRequestTypeDirOut /\
                     bRequest sup = descRequestStandardSetConfiguration).
    { unfold is_set_configuration in Hs.
      apply andb_prop in Hs. destruct Hs as [Hs H3].
      apply andb_prop in Hs. destruct Hs as [H1 H2].
      apply Z.eqb_eq in H1, H2, H3. auto. }
    destruct Hroute as (Hty & Htg & Hreq).
    assert (Hna : (cid (cc (self w)) =? classDeviceCDCACM K) = false)
      by (apply Z.eqb_neq; exact Ha).
    assert (Hnh : (cid (cc (self w)) =? classDeviceHID K) = false)
      by (apply Z.eqb_neq; exact Hh).
    split.
    + unfold event.
      rewrite controlSetup_setConfiguration, setConfiguration_run
        by assumption.
      rewrite Hna, Hnh. reflexivity.
    + rewrite (event_control_setup K sup mask w
                 (with_self
                    (with_st (next_state (st (self w)) dcdStateConfigured)
                       (with_config (normalConfig K (wValue sup))
                          (with_setup sup (self w)))) w)
                 dcdStageStatusOut []).
      * destruct w as [d a h e]; destruct d. reflexivity.
      * rewrite controlSetup_setConfiguration, setConfiguration_run
          by assumption.
        destruct w as [[? ? ? [? ?] ? ? ? ?] ? ? ?].
        cbn [self with_self with_setup cc cid st] in *.
        rewrite Hna, Hnh. reflexivity.
  - apply direction_spec_dir.
  - unfold spec_dir. change 1 with (Z.ones 1). rewrite Z.land_ones by lia.
    rewrite <- Z.bit0_mod, Z.shiftr_spec by lia. reflexivity.
Qed.

Lemma unhandled_request_stalls_except_set_configuration_witness :
  cid (cc (self (sample_world (mkClass 7 1) dcdStateAddressed)))
    <> classDeviceCDCACM sampleK /\
  cid (cc (self (sample_world (mkClass 7 1) dcdStateAddressed)))
    <> classDeviceHID sampleK /\
  controlSetup sampleK (event sampleK) (mkSetup 0x00 0x09 1 0 0)
    (sample_world (mkClass 7 1) dcdStateAddressed) =
  Ok dcdStageStatusOut
     (with_self
        (with_st
           (next_state
              (st (self (sample_world (mkClass 7 1) dcdStateAddressed)))
              dcdStateConfigured)
           (with_config (normalConfig sampleK (wValue (mkSetup 0x00 0x09 1 0 0)))
              (self (sample_world (mkClass 7 1) dcdStateAddressed))))
        (sample_world (mkClass 7 1) dcdStateAddressed))
     [] /\
  event sampleK (mkEvent dcdEventControlSetup (mkSetup 0x00 0x09 1 0 0) 0)
    (sample_world (mkClass 7 1) dcdStateAddressed) =
  Ok tt
     (with_self
        (with_stage dcdStageStatusOut
           (with_st
              (next_state
                 (st (self (sample_world (mkClass 7 1) dcdStateAddressed)))
                 dcdStateConfigured)
              (with_config
                 (normalConfig sampleK (wValue (mkSetup 0x00 0x09 1 0 0)))
                 (with_setup (mkSetup 0x00 0x09 1 0 0)
                    (self (sample_world (mkClass 7 1) dcdStateAddressed))))))
        (sample_world (mkClass 7 1) dcdStateAddressed))
     [].
Proof.
  pose proof (unhandled_request_stalls_except_set_configuration sampleK
                (sample_world (mkClass 7 1) dcdStateAddressed)
                (mkSetup 0x00 0x09 1 0 0) 0) as H.
  assert (Hwf : setup_wf (mkSetup 0x00 0x09 1 0 0)).
  { unfold setup_wf, is_u8, is_u16; cbn; lia. }
  assert (Hv : spec_type (mkSetup 0x00 0x09 1 0 0) = spec_Vendor \/
               spec_matched sampleK
                 (cid (cc (self (sample_world (mkClass 7 1)
                                   dcdStateAddressed))))
                 (mkSetup 0x00 0x09 1 0 0) = false)
    by (right; reflexivity).
  destruct (H Hwf Hv) as (_ & Hset & _).
  exact (Hset eq_refl).
Defined.

(** ** The descriptor responder *)

Lemma transmitDescriptor_run (p : bufref) (dx : list Z) (dxn : Z)
    (sup : dcdSetup) (w w' : world) (calls : list halCall) :
  transmitDescriptor p dx dxn sup w = Ok tt w' calls ->
  w' = w /\ calls = responseCalls p dxn sup.
Proof.
  unfold transmitDescriptor, responseCalls.
  destruct (0 <? dxn); run.
  - destruct (load dx 0); [|discriminate]. intros H; inversion H; auto.
  - intros H; inversion H; auto.
Qed.

Lemma controlDescriptorCDCACM_run (K : descConsts) (sup : dcdSetup)
    (w w' : world) (calls : list halCall) :
  controlDescriptorCDCACM K sup w = Ok tt w' calls ->
  exists acm acm' dxn t,
    load (descCDCACM w) (config (cc (self w)) - 1) = Some acm /\
    assembleCDCACM K sup acm = Some (acm', dxn) /\
    store (descCDCACM w) (config (cc (self w)) - 1) acm' = Some t /\
    w' = with_descCDCACM t w /\
    calls = responseCalls (BufAcmDx (config (cc (self w)) - 1)) dxn sup.
Proof.
  open_world w. unfold controlDescriptorCDCACM. run.
  destruct (load acm (cf - 1)) as [a|] eqn:Hl; [|discriminate].
  destruct (assembleCDCACM K sup a) as [[a' dxn]|] eqn:Ha;
    [|discriminate].
  run.
  destruct (store acm (cf - 1) a') as [t|] eqn:Hs; [|discriminate].
  destruct (transmitDescriptor _ _ _ _ _) as [[] w1 c1| |] eqn:Ht;
    try discriminate.
  apply transmitDescriptor_run in Ht as [-> ->].
  intros H; inversion H; subst.
  exists a, a', dxn, t. repeat split; assumption.
Qed.

Lemma controlDescriptorHID_run (K : descConsts) (sup : dcdSetup)
    (w w' : world) (calls : list halCall) :
  controlDescriptorHID K sup w = Ok tt w' calls ->
  exists hid hid' dxn t,
    load (descHID w) (config (cc (self w)) - 1) = Some hid /\
    assembleHID K sup hid = Some (hid', dxn) /\
    store (descHID w) (config (cc (self w)) - 1) hid' = Some t /\
    w' = with_descHID t w /\
    calls = responseCalls (BufHidDx (config (cc (self w)) - 1)) dxn sup.
Proof.
  open_world w. unfold controlDescriptorHID. run.
  destruct (load hid (cf - 1)) as [a|] eqn:Hl; [|discriminate].
  destruct (assembleHID K sup a) as [[a' dxn]|] eqn:Ha;
    [|discriminate].
  run.
  destruct (store hid (cf - 1) a') as [t|] eqn:Hs; [|discriminate].
  destruct (transmitDescriptor _ _ _ _ _) as [[] w1 c1| |] eqn:Ht;
    try discriminate.
  apply transmitDescriptor_run in Ht as [-> ->].
  intros H; inversion H; subst.
  exists a, a', dxn, t. repeat split; assumption.
Qed.

Lemma u8_range (x : Z) : 0 <= u8 x < 256.
Proof. unfold u8. apply Z.mod_pos_bound. lia. Qed.

Lemma stringDescriptor_length (K : descConsts) (suffix : list Z)
    (sup : dcdSetup) (locale locale' : list descStringLanguage)
    (dx dx' : list Z) (dxn : Z) :
  stringDescriptor K suffix sup locale dx = Some (locale', dx', dxn) ->
  0 <= dxn < 256.
Proof.
  unfold stringDescriptor.
  destruct (len locale =? 0); [intros H; inversion H; lia|].
  match goal with
  | |- match ?c with _ => _ end = _ -> _ => destruct c as [[l [sd|]]|]
  end; try discriminate.
  - destruct (load sd 0); [|discriminate].
    destruct (slice sd 0 _); [|discriminate].
    intros H; inversion H. apply u8_range.
  - intros H; inversion H; lia.
Qed.

Lemma assembleCDCACM_length (K : descConsts) (sup : dcdSetup)
    (acm acm' : descCDCACMClass) (dxn : Z) :
  assembleCDCACM K sup acm = Some (acm', dxn) -> 0 <= dxn < 256.
Proof.
  unfold assembleCDCACM.
  repeat split_if;
    repeat match goal with
    | |- match ?c with _ => _ end = _ -> _ =>
        let E := fresh "E" in destruct c as [[[? ?] ?]|] eqn:E
    | |- match ?c with _ => _ end = _ -> _ => destruct c
    end; try discriminate;
    intros H; inversion H; subst;
    try apply u8_range; try (unfold descLengthDevice, descLengthQualification; lia).
  eapply stringDescriptor_length; eassumption.
Qed.

Lemma assembleHID_length (K : descConsts) (sup : dcdSetup)
    (hid hid' : descHIDClass) (dxn : Z) :
  assembleHID K sup hid = Some (hid', dxn) -> 0 <= dxn < 256.
Proof.
  unfold assembleHID.
  repeat split_if;
    repeat match goal with
    | |- match ?c with _ => _ end = _ -> _ =>
        let E := fresh "E" in destruct c as [[[? ?] ?]|] eqn:E
    | |- match ?c with _ => _ end = _ -> _ => destruct c
    end; try discriminate;
    intros H; inversion H; subst;
    try apply u8_range; try (unfold descLengthDevice, descLengthQualification; lia).
  eapply stringDescriptor_length; eassumption.
Qed.

(** ** One transfer per answered request *)

Lemma responseCalls_count (p : bufref) (dxn : Z) (sup : dcdSetup) :
  0 <= dxn ->
  count_calls is_control_io (responseCalls p dxn sup) =
  if dxn =? 0 then 0%nat else 1%nat.
Proof.
  intros H. unfold responseCalls.
  destruct (Z.ltb_spec 0 dxn), (Z.eqb_spec dxn 0); try lia; reflexivity.
Qed.

Lemma responder_acm_count (K : descConsts) (sup : dcdSetup)
    (w w1 : world) (c1 : list halCall) :
  cid (cc (self w)) = classDeviceCDCACM K ->
  controlDescriptorCDCACM K sup w = Ok tt w1 c1 ->
  count_calls is_control_io c1 =
  if assembled_nothing K w sup then 0%nat else 1%nat.
Proof.
  intros Hc Hd.
  apply controlDescriptorCDCACM_run in Hd
    as (a & a' & dxn & t & Hl & Ha & _ & _ & ->).
  unfold assembled_nothing, assembledLength.
  rewrite Hc, Z.eqb_refl, Hl, Ha. cbn [option_map snd].
  apply responseCalls_count. apply assembleCDCACM_length in Ha. lia.
Qed.

Lemma responder_hid_count (K : descConsts) (sup : dcdSetup)
    (w w1 : world) (c1 : list halCall) :
  classDeviceCDCACM K <> classDeviceHID K ->
  cid (cc (self w)) = classDeviceHID K ->
  controlDescriptorHID K sup w = Ok tt w1 c1 ->
  count_calls is_control_io c1 =
  if assembled_nothing K w sup then 0%nat else 1%nat.
Proof.
  intros Hne Hc Hd.
  apply controlDescriptorHID_run in Hd
    as (a & a' & dxn & t & Hl & Ha & _ & _ & ->).
  unfold assembled_nothing, assembledLength.
  rewrite Hc.
  replace (classDeviceHID K =? classDeviceCDCACM K) with false
    by (symmetry; apply Z.eqb_neq; congruence).
  rewrite Hl, Ha. cbn [option_map snd].
  apply responseCalls_count. apply assembleHID_length in Ha. lia.
Qed.

Ltac runm :=
  cbv beta iota zeta delta
    [bind ret hal getD modD getW putW checked panic statusReceive
     controlStatusBuffer endpointStatus];
  cbn [app].

(** What the tests passed on the way to a leaf of the dispatcher say about
    [to_responder]. *)
Ltac decide_responder HR :=
  unfold to_responder in HR;
  repeat match goal with
  | H : (_ =? _) = _ |- _ => rewrite H in HR
  end;
  repeat match goal with
  | H : (requestType _ =? _) = true |- _ =>
      apply Z.eqb_eq in H; rewrite H in HR
  | H : (requestTarget _ =? _) = true |- _ =>
      apply Z.eqb_eq in H; rewrite H in HR
  | H : (bRequest _ =? _) = true |- _ =>
      apply Z.eqb_eq in H; rewrite H in HR
  end;
  cbn in HR.

Lemma controlSetup_settles (K : descConsts) (sup : dcdSetup) (w : world) :
  classDeviceCDCACM K <> classDeviceHID K ->
  cid (cc (self w)) = classDeviceCDCACM K \/
  cid (cc (self w)) = classDeviceHID K ->
  settles
    (if to_responder K (cid (cc (self w))) sup && assembled_nothing K w sup
     then 0 else 1)
    (controlSetup K (event_fuel K 1) sup w).
Proof.
  intros Hne Hcls.
  remember (to_responder K (cid (cc (self w))) sup) as R eqn:HR.
  remember (if R && assembled_nothing K w sup then 0%nat else 1%nat)
    as expect eqn:Hexp.
  unfold controlSetup, controlSetupStandard, controlSetupClass,
    getDescriptor.
  repeat split_if; runm; repeat split_if;
    try (cbn [settles]; intros Hns; congruence);
    decide_responder HR; subst R expect; cbn [andb].
  all: try rewrite setConfiguration_run.
  all: repeat match goal with
       | |- context [match ?o with Some _ => _ | None => _ end] =>
           destruct o
       end.
  all: try (cbn; intros _; reflexivity).
  all: try exact I.
  all: match goal with
       | |- context [controlDescriptorCDCACM ?k ?s ?x] =>
           let Hd := fresh "Hd" in
           destruct (controlDescriptorCDCACM k s x) as [[] ? ?| |]
             eqn:Hd; cbn [settles]; trivial; intros _;
           rewrite app_nil_r;
           eapply responder_acm_count; [|exact Hd];
           apply Z.eqb_eq; assumption
       | |- context [controlDescriptorHID ?k ?s ?x] =>
           let Hd := fresh "Hd" in
           destruct (controlDescriptorHID k s x) as [[] ? ?| |]
             eqn:Hd; cbn [settles]; trivial; intros _;
           rewrite app_nil_r;
           eapply responder_hid_count; [eassumption| |exact Hd];
           apply Z.eqb_eq; assumption
       | _ => idtac
       end.
  cbn [settles]. intros _.
  destruct Hcls as [Hc | Hc]; rewrite Hc, ?Z.eqb_refl.
  - reflexivity.
  - replace (classDeviceHID K =? classDeviceCDCACM K) with false
      by (symmetry; apply Z.eqb_neq; congruence).
    reflexivity.
Qed.

(** C2, as amended: under a CDC-ACM or HID binding, a return of the
    SETUP-phase dispatcher other than Stall has made exactly one call among
    controlTransmit and controlReceive, except for a request handed to the
    descriptor responder for which nothing was assembled (dxn = 0, as for
    the Other-Speed Configuration type): then it has made none. *)
Theorem non_stall_return_arms_at_most_one_transfer (K : descConsts)
    (w w' : world) (sup : dcdSetup) (g : dcdStage) (calls : list halCall) :
  classDeviceCDCACM K <> classDeviceHID K ->
  cid (cc (self w)) = classDeviceCDCACM K \/
  cid (cc (self w)) = classDeviceHID K ->
  controlSetup K (event K) sup w = Ok g w' calls ->
  g <> dcdStageStall ->
  count_calls is_control_io calls =
  if to_responder K (cid (cc (self w))) sup && assembled_nothing K w sup
  then 0%nat else 1%nat.
Proof.
  intros Hne Hcls Hrun Hg.
  pose proof (controlSetup_settles K sup w Hne Hcls) as H.
  unfold event in Hrun. rewrite controlSetup_fuel in Hrun.
  rewrite Hrun in H. exact (H Hg).
Qed.

Lemma non_stall_return_arms_at_most_one_transfer_witness :
  count_calls is_control_io
    [FlushCache (BufAcmDx 0) 18; ControlTransmit (BufAcmDx 0) 18 false]
  = 1%nat.
Proof.
  pose proof (non_stall_return_arms_at_most_one_transfer sampleK
                (sample_world (mkClass 1 1) dcdStateDefault)
                (with_descCDCACM
                   [mkACM sample_locale (acm_device sample_acm)
                      (acm_qualif sample_acm) (acm_config sample_acm)
                      (acm_cx sample_acm)
                      (copy (acm_dx sample_acm) (acm_device sample_acm))]
                   (sample_world (mkClass 1 1) dcdStateDefault))
                (mkSetup 0x80 0x06 0x0100 0 18) dcdStageDataIn
                [FlushCache (BufAcmDx 0) 18;
                 ControlTransmit (BufAcmDx 0) 18 false]) as H.
  assert (Hne : classDeviceCDCACM sampleK <> classDeviceHID sampleK)
    by discriminate.
  assert (Hcls :
    cid (cc (self (sample_world (mkClass 1 1) dcdStateDefault)))
      = classDeviceCDCACM sampleK \/
    cid (cc (self (sample_world (mkClass 1 1) dcdStateDefault)))
      = classDeviceHID sampleK) by (left; reflexivity).
  assert (Hrun :
    controlSetup sampleK (event sampleK) (mkSetup 0x80 0x06 0x0100 0 18)
      (sample_world (mkClass 1 1) dcdStateDefault) =
    Ok dcdStageDataIn
       (with_descCDCACM
          [mkACM sample_locale (acm_device sample_acm)
             (acm_qualif sample_acm) (acm_config sample_acm)
             (acm_cx sample_acm)
             (copy (acm_dx sample_acm) (acm_device sample_acm))]
          (sample_world (mkClass 1 1) dcdStateDefault))
       [FlushCache (BufAcmDx 0) 18; ControlTransmit (BufAcmDx 0) 18 false])
    by (vm_compute; reflexivity).
  assert (Hg : dcdStageDataIn <> dcdStageStall) by discriminate.
  exact (H Hne Hcls Hrun Hg).
Defined.

(** The claim C2 as stated fails: GET_DESCRIPTOR for the Other-Speed
    Configuration type under CDC-ACM returns DataIn, and no
    controlTransmit or controlReceive call has been made. *)
Lemma other_speed_descriptor_returns_without_transfer :
  controlSetup sampleK (event sampleK) (mkSetup 0x80 0x06 0x0700 0 64)
    (sample_world (mkClass 1 1) dcdStateDefault)
  = Ok dcdStageDataIn (sample_world (mkClass 1 1) dcdStateDefault) [] /\
  dcdStageDataIn <> dcdStageStall /\
  count_calls is_control_io [] <> 1%nat.
Proof.
  split; [vm_compute; reflexivity|].
  split; discriminate.
Qed.

(** ** Response length and language-list requests *)

Lemma clampLength_min (dxn : Z) (sup : dcdSetup) :
  clampLength dxn sup = Z.min dxn (u8 (wLength sup)).
Proof.
  unfold clampLength. destruct (Z.ltb_spec (u8 (wLength sup)) dxn); lia.
Qed.

(** Below 256 the requested length is compared as it is. *)
Lemma clampLength_small (dxn : Z) (sup : dcdSetup) :
  0 <= wLength sup < 256 ->
  clampLength dxn sup = Z.min dxn (wLength sup).
Proof.
  intros H. rewrite clampLength_min. unfold u8.
  rewrite Z.mod_small by lia. reflexivity.
Qed.

(** C4, the code at a request of 256 bytes: GET_DESCRIPTOR for the device
    descriptor with wLength = 0x0100.  The responder assembles 18 bytes and
    min(18, 256) is 18, but the length handed to controlTransmit is 0,
    because the comparison is made with uint8(wLength). *)
Theorem descriptor_length_clamped_to_low_byte_of_wLength :
  assembledLength sampleK (sample_world (mkClass 1 1) dcdStateDefault)
    (mkSetup 0x80 0x06 0x0100 0 0x0100) = Some 18 /\
  Z.min 18 (wLength (mkSetup 0x80 0x06 0x0100 0 0x0100)) = 18 /\
  (exists w',
     controlDescriptorCDCACM sampleK (mkSetup 0x80 0x06 0x0100 0 0x0100)
       (sample_world (mkClass 1 1) dcdStateDefault) =
     Ok tt w' [FlushCache (BufAcmDx 0) 0;
               ControlTransmit (BufAcmDx 0) 0 false]) /\
  (exists w',
     controlDescriptorHID sampleK (mkSetup 0x80 0x06 0x0100 0 0x0100)
       (sample_world (mkClass 2 1) dcdStateDefault) =
     Ok tt w' [FlushCache (BufHidDx 0) 0;
               ControlTransmit (BufHidDx 0) 0 false]) /\
  (forall dxn sup, clampLength dxn sup = Z.min dxn (u8 (wLength sup))).
Proof.
  split; [vm_compute; reflexivity|].
  split; [reflexivity|].
  split; [eexists; vm_compute; reflexivity|].
  split; [eexists; vm_compute; reflexivity|].
  exact clampLength_min.
Qed.

Lemma load_some_range {A : Type} (l : list A) (i : Z) (x : A) :
  load l i = Some x -> 0 <= i < len l.
Proof.
  unfold load.
  destruct (Z.ltb_spec i 0), (Z.leb_spec (len l) i); cbn; try discriminate.
  lia.
Qed.

Lemma languageCode_eq (sup : dcdSetup) (locale : list descStringLanguage) :
  languageCode sup locale =
  if wIndex sup <? len locale then wIndex sup else 0.
Proof.
  unfold languageCode.
  destruct (Z.leb_spec (len locale) (wIndex sup)),
    (Z.ltb_spec (wIndex sup) (len locale)); try lia; reflexivity.
Qed.

Lemma stringDescriptor_language_list (K : descConsts) (suffix : list Z)
    (sup : dcdSetup) (locale : list descStringLanguage) (dx : list Z)
    (lc : descStringLanguage) (sd : list Z) (b : Z) (src : list Z) :
  u8 (wValue sup) = 0 ->
  load locale (if wIndex sup <? len locale then wIndex sup else 0)
    = Some lc ->
  load (descriptor lc) 0 = Some sd ->
  load sd 0 = Some b ->
  slice sd 0 (u8 b) = Some src ->
  stringDescriptor K suffix sup locale dx = Some (locale, copy dx src, u8 b).
Proof.
  intros Hidx Hlc Hsd Hb Hsrc.
  unfold stringDescriptor.
  pose proof (load_some_range _ _ _ Hlc) as Hr.
  replace (len locale =? 0) with false by (symmetry; apply Z.eqb_neq; lia).
  rewrite Hidx. cbn [Z.eqb].
  rewrite languageCode_eq, Hlc.
  change 0xFF with (Z.ones 8). rewrite Z.land_ones by lia.
  fold (u8 (wValue sup)). rewrite Hidx, Hsd, Hb. cbv zeta.
  rewrite Hsrc. reflexivity.
Qed.

(** C8, as amended: a language-list request (string index 0) is answered
    with the language descriptor at locale[code].descriptor[0], where code
    is wIndex when wIndex is below len(locale) and 0 otherwise: the
    responder of either class copies the first descriptor[0][0] bytes of it
    to the response scratch and takes that byte as the length. *)
Theorem language_list_request_selects_locale (K : descConsts)
    (sup : dcdSetup) (locale : list descStringLanguage) (dx : list Z)
    (lc : descStringLanguage) (sd : list Z) (b : Z) (src : list Z) :
  Z.shiftr (wValue sup) 8 = descTypeString ->
  u8 (wValue sup) = 0 ->
  let code := if wIndex sup <? len locale then wIndex sup else 0 in
  load locale code = Some lc ->
  load (descriptor lc) 0 = Some sd ->
  load sd 0 = Some b ->
  slice sd 0 (u8 b) = Some src ->
  (forall acm, acm_locale acm = locale -> acm_dx acm = dx ->
     assembleCDCACM K sup acm =
     Some (mkACM locale (acm_device acm) (acm_qualif acm) (acm_config acm)
                 (acm_cx acm) (copy dx src), u8 b)) /\
  (forall hid, hid_locale hid = locale -> hid_dx hid = dx ->
     assembleHID K sup hid =
     Some (mkHID locale (hid_device hid) (hid_qualif hid) (hid_config hid)
                 (hid_cx hid) (copy dx src) (hid_led hid), u8 b)).
Proof.
  intros Hty Hidx code Hlc Hsd Hb Hsrc.
  split.
  - intros acm Hl Hd. unfold assembleCDCACM. rewrite Hty, Hl, Hd.
    cbn [Z.eqb descTypeString descTypeDevice descTypeConfigure Pos.eqb].
    rewrite (stringDescriptor_language_list K lit_CDCACM sup locale dx
               lc sd b src) by assumption.
    reflexivity.
  - intros hid Hl Hd. unfold assembleHID. rewrite Hty, Hl, Hd.
    cbn [Z.eqb descTypeString descTypeDevice descTypeConfigure Pos.eqb].
    rewrite (stringDescriptor_language_list K lit_HID sup locale dx
               lc sd b src) by assumption.
    reflexivity.
Qed.

Lemma language_list_request_selects_locale_witness :
  assembleCDCACM sampleK (mkSetup 0x80 0x06 0x0300 2 255) sample_acm =
  Some (mkACM sample_locale (acm_device sample_acm) (acm_qualif sample_acm)
              (acm_config sample_acm) (acm_cx sample_acm)
              (copy (acm_dx sample_acm) [4; 3; 0x09; 0x04]), 4).
Proof.
  pose proof (language_list_request_selects_locale sampleK
                (mkSetup 0x80 0x06 0x0300 2 255) sample_locale
                (acm_dx sample_acm)
                (mkLanguage 0x0409
                   [4 :: 3 :: 0x09 :: 0x04 :: repeat 0 28; repeat 0 32;
                    repeat 0 32; repeat 0 32])
                (4 :: 3 :: 0x09 :: 0x04 :: repeat 0 28) 4
                [4; 3; 0x09; 0x04]) as H.
  assert (Hty : Z.shiftr (wValue (mkSetup 0x80 0x06 0x0300 2 255)) 8
                = descTypeString) by reflexivity.
  assert (Hidx : u8 (wValue (mkSetup 0x80 0x06 0x0300 2 255)) = 0)
    by reflexivity.
  destruct (H Hty Hidx eq_refl eq_refl eq_refl eq_refl) as [Hacm _].
  exact (Hacm sample_acm eq_refl eq_refl).
Defined.

(** The claim C8 as stated fails: with two locales and wIndex = 2 the
    responder answers with the language descriptor of locale 0, while
    min(wIndex, len(locale) - 1) = 1 names the one of locale 1. *)
Lemma language_list_request_clamps_to_locale_zero :
  option_map (fun r => firstn 4 (acm_dx (fst r)))
    (assembleCDCACM sampleK (mkSetup 0x80 0x06 0x0300 2 255) sample_acm)
  = Some [4; 3; 0x09; 0x04] /\
  spec_languageCode (mkSetup 0x80 0x06 0x0300 2 255) sample_locale = 1 /\
  option_map (firstn 4)
    (match load sample_locale
             (spec_languageCode (mkSetup 0x80 0x06 0x0300 2 255)
                                sample_locale) with
     | Some lc => load (descriptor lc) 0
     | None => None
     end)
  = Some [4; 3; 0x07; 0x04] /\
  [4; 3; 0x09; 0x04] <> [4; 3; 0x07; 0x04].
Proof.
  split; [vm_compute; reflexivity|].
  split; [reflexivity|].
  split; [vm_compute; reflexivity|].
  discriminate.
Qed.

(** ** The stored SETUP packet *)

Lemma after_bind {A B : Type} (P Q : world -> Prop) (m : M A)
    (f : A -> M B) (w : world) :
  after P (m w) ->
  (forall a w1, P w1 -> after Q (f a w1)) ->
  after Q (bind m f w).
Proof.
  intros Hm Hf. unfold bind.
  destruct (m w) as [a w1 c1| |]; cbn in *; trivial.
  specialize (Hf a w1 Hm).
  destruct (f a w1); cbn in *; trivial.
Qed.

Lemma transmitDescriptor_frame (p : bufref) (dx : list Z) (dxn : Z)
    (sup : dcdSetup) (w : world) (P : world -> Prop) :
  P w -> after P (transmitDescriptor p dx dxn sup w).
Proof.
  intros HP. unfold transmitDescriptor.
  destruct (0 <? dxn); runm; [destruct (load dx 0)|]; cbn; trivial.
Qed.

(** The dispatcher leaves the stored SETUP packet alone. *)
Lemma controlSetup_keeps_setup (K : descConsts) (sup : dcdSetup)
    (w : world) :
  after (fun w' => setup (self w') = setup (self w))
        (controlSetup K (event_fuel K 1) sup w).
Proof.
  unfold controlSetup, controlSetupStandard, controlSetupClass,
    getDescriptor, controlDescriptorCDCACM, controlDescriptorHID.
  repeat split_if; runm; repeat split_if;
    try rewrite setConfiguration_run;
    repeat match goal with
    | |- context [match ?o with Some _ => _ | None => _ end] =>
        destruct o
    end;
    try (cbn; reflexivity);
    try (cbn; destruct w as [d a h e]; destruct d; reflexivity).
  all: match goal with
       | |- context [transmitDescriptor ?p ?dx ?n ?s ?x] =>
           pose proof (transmitDescriptor_frame p dx n s x
                         (fun w' => setup (self w') = setup (self w))
                         eq_refl) as Hf;
           destruct (transmitDescriptor p dx n s x); cbn in *; trivial
       end.
Qed.

Lemma controlComplete_keeps_self (K : descConsts) (w : world) :
  after (fun w' => setup (self w') = setup (self w) /\
                   st (self w') = st (self w))
        (controlComplete K w).
Proof.
  unfold controlComplete, completeSetReport. runm.
  repeat split_if; runm; repeat split_if;
    repeat match goal with
    | |- context [match ?o with Some _ => _ | None => _ end] =>
        destruct o
    end; runm; repeat split_if; cbn; auto.
Qed.

(** The stored SETUP packet after an event. *)
Lemma event_setup_field (K : descConsts) (ev : dcdEvent) (w w' : world)
    (calls : list halCall) :
  event K ev w = Ok tt w' calls ->
  setup (self w') =
  if ev_id ev =? dcdEventControlSetup then ev_setup ev
  else if ev_id ev =? dcdEventControlComplete then setup_zero
  else setup (self w).
Proof.
  unfold event. cbn [event_fuel].
  destruct (ev_id ev =? dcdEventStatusReset) eqn:E1;
  [|destruct (ev_id ev =? dcdEventStatusResume) eqn:E2;
  [|destruct (ev_id ev =? dcdEventStatusSuspend) eqn:E3;
  [|destruct (ev_id ev =? dcdEventDeviceReady) eqn:E4;
  [|destruct (ev_id ev =? dcdEventDeviceAddress) eqn:E5;
  [|destruct (ev_id ev =? dcdEventDeviceConfiguration) eqn:E6;
  [|destruct (ev_id ev =? dcdEventControlSetup) eqn:E7;
  [|destruct (ev_id ev =? dcdEventControlComplete) eqn:E8]]]]]]];
  try (apply Z.eqb_eq in E1; rewrite E1);
  try (apply Z.eqb_eq in E2; rewrite E2);
  try (apply Z.eqb_eq in E3; rewrite E3);
  try (apply Z.eqb_eq in E4; rewrite E4);
  try (apply Z.eqb_eq in E5; rewrite E5);
  try (apply Z.eqb_eq in E6; rewrite E6);
  cbn [Z.eqb Pos.eqb dcdEventStatusReset dcdEventStatusResume
       dcdEventStatusSuspend dcdEventDeviceReady dcdEventDeviceAddress
       dcdEventDeviceConfiguration dcdEventControlSetup
       dcdEventControlComplete].
  1-3,5,6: unfold bind; rewrite setStateM_run; runm; intros H;
    inversion H; destruct w as [d a h e]; destruct d; reflexivity.
  - unfold bind; rewrite setStateM_run.
    destruct (table_accepts _ _); runm; intros H; inversion H;
      destruct w as [d a h e]; destruct d; reflexivity.
  - unfold bind at 1. cbn [modD]. unfold bind at 1.
    match goal with
    | |- context [controlSetup K ?f ?s ?x] =>
        change (controlSetup K f s x)
          with (controlSetup K (event_fuel K 1) s x);
        pose proof (controlSetup_keeps_setup K s x) as Hk;
        destruct (controlSetup K (event_fuel K 1) s x) as [g w1 c1| |]
    end; try discriminate.
    cbn [after] in Hk.
    destruct g; runm; intros H; inversion H; subst;
      destruct w1 as [d1 a1 h1 e1]; destruct d1;
      destruct w as [d a h e]; destruct d; cbn in *; exact Hk.
  - unfold bind at 1.
    destruct (controlComplete K w) as [u w1 c1| |]; try discriminate.
    runm. intros H; inversion H.
    destruct w1 as [d1 a1 h1 e1]; destruct d1; reflexivity.
  - runm. intros H; inversion H. reflexivity.
Qed.

Lemma reaches_stored_setup (K : descConsts) (w0 w : world) (a : bool)
    (p : dcdSetup) :
  setup (self w0) = setup_zero ->
  reaches K w0 w a p ->
  setup (self w) = if a then p else setup_zero.
Proof.
  intros H0 Hr.
  induction Hr as [|w w' a p ev calls Hr IH Hev|w a p acm hid eps Hr IH].
  - exact H0.
  - apply event_setup_field in Hev. rewrite Hev.
    unfold transfer_active, open_packet.
    destruct (ev_id ev =? dcdEventControlSetup); [reflexivity|].
    destruct (ev_id ev =? dcdEventControlComplete); [reflexivity|].
    exact IH.
  - exact IH.
Qed.

(** C5, as amended: starting with no stored packet, the stored SETUP packet
    is the zero packet whenever no control transfer is open, and while one
    is open (from the ControlSetup event until ControlComplete has been
    processed, also when the dispatcher returned Stall) it is the packet
    that opened it; so it is non-zero iff a transfer is open whenever that
    packet is non-zero.  Processing ControlComplete always leaves the zero
    packet. *)
Theorem stored_setup_tracks_open_transfer (K : descConsts) (w0 w : world)
    (a : bool) (p : dcdSetup) :
  setup (self w0) = setup_zero ->
  reaches K w0 w a p ->
  (a = false -> setup (self w) = setup_zero) /\
  (a = true -> setup (self w) = p) /\
  (p <> setup_zero -> (setup (self w) <> setup_zero <-> a = true)) /\
  (forall ev w' calls,
     ev_id ev = dcdEventControlComplete ->
     event K ev w = Ok tt w' calls ->
     setup (self w') = setup_zero /\
     reaches K w0 w' false p).
Proof.
  intros H0 Hr.
  pose proof (reaches_stored_setup K w0 w a p H0 Hr) as Hs.
  split; [intros ->; exact Hs|].
  split; [intros ->; exact Hs|].
  split.
  { intros Hp. rewrite Hs. destruct a; split; intros H;
      try reflexivity; try assumption; try discriminate.
    exfalso; apply H; reflexivity. }
  intros ev w' calls Hid Hev. split.
  - apply event_setup_field in Hev. rewrite Hev, Hid. reflexivity.
  - pose proof (reaches_event K w0 w w' a p ev calls Hr Hev) as Hn.
    unfold transfer_active, open_packet in Hn. rewrite Hid in Hn.
    exact Hn.
Qed.

Lemma stored_setup_tracks_open_transfer_witness :
  setup (self (sample_world_in (mkClass 1 1) dcdStateConfigured
                 (mkSetup 0xC0 0xFF 0 0 0) dcdStageStall))
  = mkSetup 0xC0 0xFF 0 0 0.
Proof.
  pose proof (stored_setup_tracks_open_transfer sampleK
                (sample_world (mkClass 1 1) dcdStateConfigured)
                (sample_world_in (mkClass 1 1) dcdStateConfigured
                   (mkSetup 0xC0 0xFF 0 0 0) dcdStageStall)
                true (mkSetup 0xC0 0xFF 0 0 0)) as H.
  assert (H0 : setup (self (sample_world (mkClass 1 1) dcdStateConfigured))
               = setup_zero) by reflexivity.
  assert (Hr : reaches sampleK
                 (sample_world (mkClass 1 1) dcdStateConfigured)
                 (sample_world_in (mkClass 1 1) dcdStateConfigured
                    (mkSetup 0xC0 0xFF 0 0 0) dcdStageStall)
                 true (mkSetup 0xC0 0xFF 0 0 0)).
  { exact (reaches_event sampleK
             (sample_world (mkClass 1 1) dcdStateConfigured)
             (sample_world (mkClass 1 1) dcdStateConfigured)
             (sample_world_in (mkClass 1 1) dcdStateConfigured
                (mkSetup 0xC0 0xFF 0 0 0) dcdStageStall)
             false setup_zero
             (mkEvent dcdEventControlSetup (mkSetup 0xC0 0xFF 0 0 0) 0)
             [ControlStall true 1]
             (reaches_start sampleK _) eq_refl). }
  destruct (H H0 Hr) as (_ & Ha & _).
  exact (Ha eq_refl).
Defined.

(** The claim C5 as stated fails: after a ControlSetup event that carries
    the all-zero packet, a transfer is open (the dispatcher stalled it) and
    the stored packet is the zero packet. *)
Lemma zero_setup_packet_open_with_zero_stored :
  event sampleK (mkEvent dcdEventControlSetup setup_zero 0)
        (sample_world (mkClass 1 1) dcdStateConfigured)
  = Ok tt
       (sample_world_in (mkClass 1 1) dcdStateConfigured setup_zero
          dcdStageStall)
       [ControlStall true 0] /\
  reaches sampleK (sample_world (mkClass 1 1) dcdStateConfigured)
    (sample_world_in (mkClass 1 1) dcdStateConfigured setup_zero
       dcdStageStall)
    true setup_zero /\
  ~ (setup (self (sample_world_in (mkClass 1 1) dcdStateConfigured
                    setup_zero dcdStageStall)) <> setup_zero
     <-> true = true).
Proof.
  split; [reflexivity|].
  split.
  - exact (reaches_event sampleK
             (sample_world (mkClass 1 1) dcdStateConfigured)
             (sample_world (mkClass 1 1) dcdStateConfigured)
             (sample_world_in (mkClass 1 1) dcdStateConfigured setup_zero
                dcdStageStall)
             false setup_zero
             (mkEvent dcdEventControlSetup setup_zero 0)
             [ControlStall true 0]
             (reaches_start sampleK _) eq_refl).
  - intros [_ H]. apply (H eq_refl). reflexivity.
Qed.

(** ** Completion of HID SET_REPORT *)

Lemma lor_shiftl_add (a b n : Z) :
  0 <= n -> 0 <= a < 2 ^ n -> Z.lor a (Z.shiftl b n) = a + 2 ^ n * b.
Proof.
  intros Hn Ha.
  assert (Hz : Z.land a (Z.shiftl b n) = 0).
  { apply Z.bits_inj'; intros i Hi. rewrite Z.land_spec, Z.bits_0.
    destruct (Z.lt_ge_cases i n).
    - rewrite Z.shiftl_spec_low by lia. apply andb_false_r.
    - rewrite (testbit_u_high n a i) by lia. reflexivity. }
  rewrite <- Z.lxor_lor by exact Hz.
  rewrite <- Z.add_nocarry_lxor by exact Hz.
  rewrite Z.shiftl_mul_pow2 by exact Hn. lia.
Qed.

Lemma packU32_le (b0 b1 b2 b3 : Z) :
  is_u8 b0 -> is_u8 b1 -> is_u8 b2 -> is_u8 b3 ->
  packU32 [b0; b1; b2; b3] = Some (le_u32 b0 b1 b2 b3).
Proof.
  unfold is_u8. intros H0 H1 H2 H3.
  unfold packU32, le_u32.
  change (load [b0; b1; b2; b3] 0) with (Some b0).
  change (load [b0; b1; b2; b3] 1) with (Some b1).
  change (load [b0; b1; b2; b3] 2) with (Some b2).
  change (load [b0; b1; b2; b3] 3) with (Some b3).
  cbv iota.
  rewrite (lor_shiftl_add b0 b1 8) by lia.
  rewrite (lor_shiftl_add _ b2 16) by lia.
  rewrite (lor_shiftl_add _ b3 24) by lia.
  unfold u32. rewrite Z.mod_small by lia. reflexivity.
Qed.

Lemma le_u32_bytes (b0 b1 b2 b3 : Z) :
  is_u8 b0 -> is_u8 b1 -> is_u8 b2 -> is_u8 b3 ->
  le_u32 b0 b1 b2 b3 = 0x68C245A9 <->
  b0 = 0xA9 /\ b1 = 0x45 /\ b2 = 0xC2 /\ b3 = 0x68.
Proof.
  unfold is_u8, le_u32. intros H0 H1 H2 H3. split.
  - intros H. lia.
  - intros (-> & -> & -> & ->). reflexivity.
Qed.

Lemma slice_first_four (b0 b1 b2 b3 : Z) (rest : list Z) :
  slice (b0 :: b1 :: b2 :: b3 :: rest) 0 4 = Some [b0; b1; b2; b3].
Proof.
  unfold slice.
  replace (len (b0 :: b1 :: b2 :: b3 :: rest) <? 4) with false.
  - reflexivity.
  - symmetry. apply Z.ltb_ge. unfold len. cbn [length]. lia.
Qed.

(** The completion of an HID SET_REPORT on the Serial interface. *)
Lemma completeSetReport_serial (K : descConsts) (sup : dcdSetup)
    (w : world) (hid : descHIDClass) (b0 b1 b2 b3 : Z) (rest : list Z) :
  wIndex sup = descHIDInterfaceSerial K ->
  descHIDInterfaceKeyboard K <> descHIDInterfaceSerial K ->
  load (descHID w) (config (cc (self w)) - 1) = Some hid ->
  hid_cx hid = b0 :: b1 :: b2 :: b3 :: rest ->
  is_u8 b0 -> is_u8 b1 -> is_u8 b2 -> is_u8 b3 ->
  completeSetReport K sup w =
  Ok tt w
     (if (Z.shiftr (wValue sup) 8 =? descTypeString) &&
         (4 <=? wLength sup) &&
         (le_u32 b0 b1 b2 b3 =? 0x68C245A9)
      then [EnableSOF true (descHIDInterfaceCount K)] else []).
Proof.
  intros Hidx Hne Hl Hcx H0 H1 H2 H3.
  unfold completeSetReport. runm. rewrite Hl, Hidx.
  replace (descHIDInterfaceSerial K =? descHIDInterfaceKeyboard K)
    with false by (symmetry; apply Z.eqb_neq; congruence).
  rewrite Z.eqb_refl.
  destruct (Z.shiftr (wValue sup) 8 =? descTypeString); [|reflexivity].
  destruct (4 <=? wLength sup); [|reflexivity].
  cbn [andb]. rewrite Hcx, slice_first_four.
  rewrite packU32_le by assumption.
  rewrite (Z.eqb_sym (le_u32 b0 b1 b2 b3)).
  destruct (0x68C245A9 =? le_u32 b0 b1 b2 b3); reflexivity.
Qed.

(** C9: the completion of an HID SET_REPORT transfer addressed to the
    Serial interface calls enableSOF(true, descHIDInterfaceCount) when the
    descriptor type in wValue is String, wLength is at least 4 and the
    first four scratch bytes are A9 45 C2 68 (0x68C245A9 read little-endian);
    otherwise it makes no call at all. *)
Theorem serial_set_report_completion_enables_sof (K : descConsts)
    (w : world) (ev : dcdEvent) (hid : descHIDClass)
    (b0 b1 b2 b3 : Z) (rest : list Z) :
  ev_id ev = dcdEventControlComplete ->
  cid (cc (self w)) = classDeviceHID K ->
  requestType (setup (self w)) = descRequestTypeTypeClass ->
  requestTarget (setup (self w)) =
    Z.lor descRequestTypeRecipientInterface descRequestTypeDirOut ->
  bRequest (setup (self w)) = descHIDRequestSetReport ->
  wIndex (setup (self w)) = descHIDInterfaceSerial K ->
  descHIDInterfaceKeyboard K <> descHIDInterfaceSerial K ->
  load (descHID w) (config (cc (self w)) - 1) = Some hid ->
  hid_cx hid = b0 :: b1 :: b2 :: b3 :: rest ->
  is_u8 b0 -> is_u8 b1 -> is_u8 b2 -> is_u8 b3 ->
  let trigger :=
    (Z.shiftr (wValue (setup (self w))) 8 =? descTypeString) &&
    (4 <=? wLength (setup (self w))) &&
    (le_u32 b0 b1 b2 b3 =? 0x68C245A9) in
  event K ev w =
    Ok tt (with_self (with_setup setup_zero (self w)) w)
       (if trigger then [EnableSOF true (descHIDInterfaceCount K)]
        else []) /\
  (trigger = true <->
   Z.shiftr (wValue (setup (self w))) 8 = descTypeString /\
   4 <= wLength (setup (self w)) /\
   b0 = 0xA9 /\ b1 = 0x45 /\ b2 = 0xC2 /\ b3 = 0x68) /\
  (forall w' calls,
     event K ev w = Ok tt w' calls ->
     (trigger = true ->
      calls = [EnableSOF true (descHIDInterfaceCount K)]) /\
     (trigger = false -> count_calls is_enable_sof calls = 0%nat)).
Proof.
  intros Hid Hc Hty Htg Hreq Hidx Hne Hl Hcx H0 H1 H2 H3 trigger.
  assert (Hev : event K ev w =
    Ok tt (with_self (with_setup setup_zero (self w)) w)
       (if trigger then [EnableSOF true (descHIDInterfaceCount K)]
        else [])).
  { rewrite event_control_complete by exact Hid.
    unfold bind at 1.
    assert (Hcc : controlComplete K w =
              Ok tt w (if trigger
                       then [EnableSOF true (descHIDInterfaceCount K)]
                       else [])).
    { unfold controlComplete. unfold bind at 1. cbn [getW].
      rewrite Hty, Htg, Hreq, Hc, !Z.eqb_refl.
      cbn [Z.eqb Pos.eqb descHIDRequestSetReport descCDCRequestSetLineCoding
           descCDCRequestSetControlLineState].
      rewrite (completeSetReport_serial K _ w hid b0 b1 b2 b3 rest)
        by assumption.
      reflexivity. }
    rewrite Hcc. runm. rewrite app_nil_r. reflexivity. }
  split; [exact Hev|].
  split.
  { subst trigger. rewrite !andb_true_iff, Z.eqb_eq, Z.leb_le, Z.eqb_eq.
    rewrite le_u32_bytes by assumption. tauto. }
  intros w' calls Hrun. rewrite Hev in Hrun. inversion Hrun; subst.
  split; intros Ht; rewrite Ht; reflexivity.
Qed.

Lemma serial_set_report_completion_enables_sof_witness :
  event sampleK (mkEvent dcdEventControlComplete setup_zero 0)
    (sample_set_report_world (mkSetup 0x21 0x09 0x0300 2 4)
       (0xA9 :: 0x45 :: 0xC2 :: 0x68 :: repeat 0 60)) =
  Ok tt
     (sample_set_report_world setup_zero
        (0xA9 :: 0x45 :: 0xC2 :: 0x68 :: repeat 0 60))
     [EnableSOF true 5].
Proof.
  pose proof (serial_set_report_completion_enables_sof sampleK
                (sample_set_report_world (mkSetup 0x21 0x09 0x0300 2 4)
                   (0xA9 :: 0x45 :: 0xC2 :: 0x68 :: repeat 0 60))
                (mkEvent dcdEventControlComplete setup_zero 0)
                (sample_hid_received
                   (0xA9 :: 0x45 :: 0xC2 :: 0x68 :: repeat 0 60))
                0xA9 0x45 0xC2 0x68 (repeat 0 60)) as H.
  assert (Hne : descHIDInterfaceKeyboard sampleK
                <> descHIDInterfaceSerial sampleK) by discriminate.
  assert (H0 : is_u8 0xA9) by (unfold is_u8; lia).
  assert (H1 : is_u8 0x45) by (unfold is_u8; lia).
  assert (H2 : is_u8 0xC2) by (unfold is_u8; lia).
  assert (H3 : is_u8 0x68) by (unfold is_u8; lia).
  destruct (H eq_refl eq_refl eq_refl eq_refl eq_refl eq_refl Hne eq_refl
              eq_refl H0 H1 H2 H3) as (Hev & _).
  exact Hev.
Defined.

(** ** The pump always has fuel enough *)

Lemma controlComplete_not_out_of_fuel (K : descConsts) (w : world) :
  controlComplete K w <> OutOfFuel.
Proof.
  unfold controlComplete, completeSetReport. runm.
  repeat split_if; runm; repeat split_if;
    repeat match goal with
    | |- context [match ?o with Some _ => _ | None => _ end] =>
        destruct o
    end; runm; repeat split_if; discriminate.
Qed.

(** The fuel of [event] is never used up: the pump returns or panics. *)
Lemma event_not_out_of_fuel (K : descConsts) (ev : dcdEvent) (w : world) :
  event K ev w <> OutOfFuel.
Proof.
  unfold event. cbn [event_fuel].
  repeat split_if.
  1-3,5,6: unfold bind; rewrite setStateM_run; discriminate.
  - unfold bind; rewrite setStateM_run.
    destruct (table_accepts _ _); discriminate.
  - unfold bind at 1. cbn [modD]. unfold bind at 1.
    match goal with
    | |- context [controlSetup K ?f ?s ?x] =>
        change (controlSetup K f s x)
          with (controlSetup K (event_fuel K 1) s x);
        pose proof (controlSetup_not_out_of_fuel K 0 s x) as Hk;
        destruct (controlSetup K (event_fuel K 1) s x) as [g w1 c1| |]
    end; try discriminate; [|contradiction].
    destruct g; discriminate.
  - unfold bind at 1.
    pose proof (controlComplete_not_out_of_fuel K w) as Hk.
    destruct (controlComplete K w); try discriminate. contradiction.
  - discriminate.
Qed.

(** ** The other decoders of the SETUP packet *)

Lemma u8_is_u8 (x : Z) : is_u8 (u8 x).
Proof. unfold is_u8, u8. apply Z.mod_pos_bound. lia. Qed.

(** The word the loop of [setupFrom] assembles. *)
Lemma setupFrom_word (mem : Z -> Z) (addr : Z) :
  fold_left
    (fun u i => Z.lor u (shl64 (u8 (mem (addr + i))) (Z.shiftl i 3)))
    (map Z.of_nat (seq 0 (Z.to_nat dcdSetupSize))) 0 =
  byte_at mem addr 0 + 2 ^ 8 * byte_at mem addr 1 +
  2 ^ 16 * byte_at mem addr 2 + 2 ^ 24 * byte_at mem addr 3 +
  2 ^ 32 * byte_at mem addr 4 + 2 ^ 40 * byte_at mem addr 5 +
  2 ^ 48 * byte_at mem addr 6 + 2 ^ 56 * byte_at mem addr 7.
Proof.
  unfold byte_at.
  pose proof (u8_is_u8 (mem (addr + 0))) as H0.
  pose proof (u8_is_u8 (mem (addr + 1))) as H1.
  pose proof (u8_is_u8 (mem (addr + 2))) as H2.
  pose proof (u8_is_u8 (mem (addr + 3))) as H3.
  pose proof (u8_is_u8 (mem (addr + 4))) as H4.
  pose proof (u8_is_u8 (mem (addr + 5))) as H5.
  pose proof (u8_is_u8 (mem (addr + 6))) as H6.
  pose proof (u8_is_u8 (mem (addr + 7))) as H7.
  unfold is_u8 in *.
  change (map Z.of_nat (seq 0 (Z.to_nat dcdSetupSize)))
    with [0; 1; 2; 3; 4; 5; 6; 7].
  cbn [fold_left].
  change (Z.shiftl 0 3) with 0. change (Z.shiftl 1 3) with 8.
  change (Z.shiftl 2 3) with 16. change (Z.shiftl 3 3) with 24.
  change (Z.shiftl 4 3) with 32. change (Z.shiftl 5 3) with 40.
  change (Z.shiftl 6 3) with 48. change (Z.shiftl 7 3) with 56.
  rewrite (shl64_small _ 8 0), (shl64_small _ 8 8), (shl64_small _ 8 16),
    (shl64_small _ 8 24), (shl64_small _ 8 32), (shl64_small _ 8 40),
    (shl64_small _ 8 48), (shl64_small _ 8 56) by lia.
  rewrite Z.shiftl_0_r, Z.lor_0_l.
  rewrite (lor_shiftl_add _ _ 8) by lia.
  rewrite (lor_shiftl_add _ _ 16) by lia.
  rewrite (lor_shiftl_add _ _ 24) by lia.
  rewrite (lor_shiftl_add _ _ 32) by lia.
  rewrite (lor_shiftl_add _ _ 40) by lia.
  rewrite (lor_shiftl_add _ _ 48) by lia.
  rewrite (lor_shiftl_add _ _ 56) by lia.
  reflexivity.
Qed.

Lemma setupFrom_fields (mem : Z -> Z) (addr : Z) :
  setupFrom mem addr =
  {| bmRequestType := byte_at mem addr 0;
     bRequest := byte_at mem addr 1;
     wValue := byte_at mem addr 2 + 256 * byte_at mem addr 3;
     wIndex := byte_at mem addr 4 + 256 * byte_at mem addr 5;
     wLength := byte_at mem addr 6 + 256 * byte_at mem addr 7 |}.
Proof.
  unfold setupFrom. cbv zeta. rewrite setupFrom_word, set_plain.
  pose proof (u8_is_u8 (mem (addr + 0))) as H0.
  pose proof (u8_is_u8 (mem (addr + 1))) as H1.
  pose proof (u8_is_u8 (mem (addr + 2))) as H2.
  pose proof (u8_is_u8 (mem (addr + 3))) as H3.
  pose proof (u8_is_u8 (mem (addr + 4))) as H4.
  pose proof (u8_is_u8 (mem (addr + 5))) as H5.
  pose proof (u8_is_u8 (mem (addr + 6))) as H6.
  pose proof (u8_is_u8 (mem (addr + 7))) as H7.
  unfold is_u8, byte_at in *.
  rewrite !Z.shiftr_div_pow2 by lia.
  f_equal; Z.div_mod_to_equations; lia.
Qed.

(** X1: [setupFrom] reads the eight bytes at [addr] as a little-endian
    packet: bmRequestType and bRequest are the first two bytes, and each of
    wValue, wIndex and wLength is the next low byte plus 256 times the next
    high byte; the fields are in the range of their types. *)
Theorem setupFrom_little_endian (mem : Z -> Z) (addr : Z) :
  setupFrom mem addr =
  {| bmRequestType := byte_at mem addr 0;
     bRequest := byte_at mem addr 1;
     wValue := byte_at mem addr 2 + 256 * byte_at mem addr 3;
     wIndex := byte_at mem addr 4 + 256 * byte_at mem addr 5;
     wLength := byte_at mem addr 6 + 256 * byte_at mem addr 7 |} /\
  setup_wf (setupFrom mem addr).
Proof.
  split; [apply setupFrom_fields | apply set_wf].
Qed.

Lemma le_bytes_word (u : Z) :
  is_u64 u ->
  le_byte u 0 + 2 ^ 8 * le_byte u 1 + 2 ^ 16 * le_byte u 2 +
  2 ^ 24 * le_byte u 3 + 2 ^ 32 * le_byte u 4 + 2 ^ 40 * le_byte u 5 +
  2 ^ 48 * le_byte u 6 + 2 ^ 56 * le_byte u 7 = u.
Proof.
  unfold is_u64, le_byte. intros Hu.
  rewrite !Z.shiftr_div_pow2 by lia.
  change (8 * 0) with 0. change (8 * 1) with 8. change (8 * 2) with 16.
  change (8 * 3) with 24. change (8 * 4) with 32. change (8 * 5) with 40.
  change (8 * 6) with 48. change (8 * 7) with 56.
  Z.div_mod_to_equations. lia.
Qed.

(** The packed word as a sum of its fields. *)
Lemma pack_sum (P : dcdSetup) :
  setup_wf P ->
  pack P = bmRequestType P + 2 ^ 8 * bRequest P + 2 ^ 16 * wValue P +
           2 ^ 32 * wIndex P + 2 ^ 48 * wLength P.
Proof.
  intros Hwf. rewrite pack_plain by exact Hwf.
  destruct Hwf as (Ha & Hb & Hv & Hx & Hl). unfold is_u8, is_u16 in *.
  rewrite (lor_shiftl_add _ _ 8) by lia.
  rewrite (lor_shiftl_add _ _ 16) by lia.
  rewrite (lor_shiftl_add _ _ 32) by lia.
  rewrite (lor_shiftl_add _ _ 48) by lia.
  reflexivity.
Qed.

Lemma pack_is_u64 (P : dcdSetup) : setup_wf P -> is_u64 (pack P).
Proof.
  intros Hwf. rewrite pack_sum by exact Hwf.
  destruct Hwf as (Ha & Hb & Hv & Hx & Hl).
  unfold is_u8, is_u16, is_u64 in *. lia.
Qed.

(** X2: [pack] and [setupFrom] are inverse through memory.  The packed
    word of the packet [setupFrom] reads is the little-endian word of the
    eight bytes; and when the eight bytes are those of [pack P] stored
    little-endian, [setupFrom] reads [P] back. *)
Theorem setupFrom_inverts_pack (mem : Z -> Z) (addr : Z) (P : dcdSetup) :
  setup_wf P ->
  (forall i, 0 <= i < 8 -> byte_at mem addr i = le_byte (pack P) i) ->
  setupFrom mem addr = P /\
  pack (setupFrom mem addr) =
    byte_at mem addr 0 + 2 ^ 8 * byte_at mem addr 1 +
    2 ^ 16 * byte_at mem addr 2 + 2 ^ 24 * byte_at mem addr 3 +
    2 ^ 32 * byte_at mem addr 4 + 2 ^ 40 * byte_at mem addr 5 +
    2 ^ 48 * byte_at mem addr 6 + 2 ^ 56 * byte_at mem addr 7.
Proof.
  intros Hwf Hb.
  assert (Hu : is_u64 (pack P)) by (apply pack_is_u64; exact Hwf).
  assert (Hword :
    fold_left
      (fun u i => Z.lor u (shl64 (u8 (mem (addr + i))) (Z.shiftl i 3)))
      (map Z.of_nat (seq 0 (Z.to_nat dcdSetupSize))) 0 = pack P).
  { rewrite setupFrom_word, !Hb by lia. apply le_bytes_word. exact Hu. }
  split.
  - unfold setupFrom. cbv zeta. rewrite Hword. apply set_pack. exact Hwf.
  - unfold setupFrom. cbv zeta. rewrite Hword, <- setupFrom_word, Hword.
    apply pack_set. exact Hu.
Qed.

Lemma setupFrom_inverts_pack_witness :
  setupFrom (fun a => nth (Z.to_nat (a - 100))
                          [0x80; 0x06; 0x00; 0x01; 0; 0; 0x12; 0] 0) 100
  = mkSetup 0x80 0x06 0x0100 0 18.
Proof.
  pose proof (setupFrom_inverts_pack
                (fun a => nth (Z.to_nat (a - 100))
                              [0x80; 0x06; 0x00; 0x01; 0; 0; 0x12; 0] 0)
                100 (mkSetup 0x80 0x06 0x0100 0 18)) as H.
  assert (Hwf : setup_wf (mkSetup 0x80 0x06 0x0100 0 18)).
  { unfold setup_wf, is_u8, is_u16; cbn; lia. }
  assert (Hb : forall i, 0 <= i < 8 ->
            byte_at (fun a => nth (Z.to_nat (a - 100))
                                  [0x80; 0x06; 0x00; 0x01; 0; 0; 0x12; 0] 0)
                    100 i
            = le_byte (pack (mkSetup 0x80 0x06 0x0100 0 18)) i).
  { intros i Hi.
    assert (Hc : i = 0 \/ i = 1 \/ i = 2 \/ i = 3 \/ i = 4 \/ i = 5 \/
                 i = 6 \/ i = 7) by lia.
    destruct Hc as [->|[->|[->|[->|[->|[->|[->| ->]]]]]]]; reflexivity. }
  exact (proj1 (H Hwf Hb)).
Defined.

Lemma slice_to_end {A : Type} (l : list A) (k : Z) :
  0 <= k <= len l -> slice l k (len l) = Some (skipn (Z.to_nat k) l).
Proof.
  intros Hk. unfold slice.
  destruct (Z.ltb_spec k 0); [lia|].
  destruct (Z.ltb_spec (len l) k); [lia|].
  rewrite Z.ltb_irrefl. cbn [orb].
  rewrite firstn_all2; [reflexivity|].
  rewrite length_skipn. unfold len in *. lia.
Qed.

(** X3: the slice decoder [setup] returns the zero packet for fewer than
    eight bytes, and for eight bytes or more it decodes the same packet as
    [setupFrom] does from memory holding those bytes, given that the
    package's packU16 reads two bytes little-endian. *)
Theorem setup_bytes_agrees_with_setupFrom (packU16 : list Z -> Z)
    (b0 b1 b2 b3 b4 b5 b6 b7 : Z) (rest : list Z) (addr : Z) :
  (forall lo hi r, packU16 (lo :: hi :: r) = lo + 256 * hi) ->
  Forall is_u8 [b0; b1; b2; b3; b4; b5; b6; b7] ->
  let b := b0 :: b1 :: b2 :: b3 :: b4 :: b5 :: b6 :: b7 :: rest in
  setup_bytes packU16 b =
    Some (setupFrom (fun a => nth (Z.to_nat (a - addr)) b 0) addr) /\
  setup_bytes packU16 b =
    Some (mkSetup b0 b1 (b2 + 256 * b3) (b4 + 256 * b5) (b6 + 256 * b7)) /\
  (forall short, len short < 8 ->
     setup_bytes packU16 short = Some setup_zero).
Proof.
  intros Hle Hb b.
  assert (Hlen : 8 <= len b) by (unfold len, b; cbn [length]; lia).
  assert (Hdec : setup_bytes packU16 b =
    Some (mkSetup b0 b1 (b2 + 256 * b3) (b4 + 256 * b5) (b6 + 256 * b7))).
  { unfold setup_bytes, dcdSetupSize.
    destruct (Z.leb_spec 8 (len b)); [|lia].
    rewrite !slice_to_end by lia.
    assert (H0 : load b 0 = Some b0).
    { unfold load. destruct (Z.leb_spec (len b) 0); [lia|]. reflexivity. }
    assert (H1 : load b 1 = Some b1).
    { unfold load. destruct (Z.leb_spec (len b) 1); [lia|]. reflexivity. }
    rewrite H0, H1. subst b. cbn [skipn Z.to_nat Pos.to_nat Pos.iter_op
      Nat.add].
    change (Pos.to_nat 2) with 2%nat. change (Pos.to_nat 4) with 4%nat.
    change (Pos.to_nat 6) with 6%nat. cbn [skipn].
    rewrite !Hle.
    repeat match goal with
    | H : Forall _ (_ :: _) |- _ => inversion H; subst; clear H
    end.
    unfold is_u8, u16 in *.
    rewrite !Z.mod_small by lia. reflexivity. }
  split; [|split; [exact Hdec|]].
  - rewrite Hdec, setupFrom_fields. unfold byte_at.
    replace (addr + 0 - addr) with 0 by lia.
    replace (addr + 1 - addr) with 1 by lia.
    replace (addr + 2 - addr) with 2 by lia.
    replace (addr + 3 - addr) with 3 by lia.
    replace (addr + 4 - addr) with 4 by lia.
    replace (addr + 5 - addr) with 5 by lia.
    replace (addr + 6 - addr) with 6 by lia.
    replace (addr + 7 - addr) with 7 by lia.
    subst b.
    change (Z.to_nat 0) with 0%nat. change (Z.to_nat 1) with 1%nat.
    change (Z.to_nat 2) with 2%nat. change (Z.to_nat 3) with 3%nat.
    change (Z.to_nat 4) with 4%nat. change (Z.to_nat 5) with 5%nat.
    change (Z.to_nat 6) with 6%nat. change (Z.to_nat 7) with 7%nat.
    cbn [nth].
    repeat match goal with
    | H : Forall _ (_ :: _) |- _ => inversion H; subst; clear H
    end.
    unfold is_u8, u8 in *.
    rewrite !Z.mod_small by lia. reflexivity.
  - intros short Hs. unfold setup_bytes, dcdSetupSize.
    destruct (Z.leb_spec 8 (len short)); [lia|reflexivity].
Qed.

Lemma setup_bytes_agrees_with_setupFrom_witness :
  setup_bytes
    (fun l => match l with lo :: hi :: _ => lo + 256 * hi | _ => 0 end)
    [0x21; 0x20; 0; 0; 0; 0; 7; 0] =
  Some (mkSetup 0x21 0x20 0 0 7).
Proof.
  pose proof (setup_bytes_agrees_with_setupFrom
                (fun l => match l with
                          | lo :: hi :: _ => lo + 256 * hi
                          | _ => 0
                          end)
                0x21 0x20 0 0 0 0 7 0 [] 0) as H.
  assert (Hle : forall (lo hi : Z) (r : list Z),
            match lo :: hi :: r with
            | lo' :: hi' :: _ => lo' + 256 * hi'
            | _ => 0
            end = lo + 256 * hi) by reflexivity.
  assert (Hb : Forall is_u8 [0x21; 0x20; 0; 0; 0; 0; 7; 0]).
  { repeat constructor; unfold is_u8; lia. }
  destruct (H Hle Hb) as (_ & Hd & _).
  exact Hd.
Defined.

Lemma equals_iff (s t : dcdSetup) : equals s t = true <-> s = t.
Proof.
  unfold equals. rewrite !andb_true_iff, !Z.eqb_eq.
  destruct s, t; cbn. split.
  - intros ((((-> & ->) & ->) & ->) & ->). reflexivity.
  - intros H; inversion H; subst; tauto.
Qed.

(** X4: [equals] decides equality of packets, and on packets whose fields
    are in range it agrees with comparing the packed words: [pack] is
    injective. *)
Theorem equals_decides_equality (s t : dcdSetup) :
  setup_wf s -> setup_wf t ->
  (equals s t = true <-> s = t) /\
  (equals s t = true <-> pack s = pack t) /\
  equals s t = equals t s /\
  equals s s = true.
Proof.
  intros Hs Ht.
  split; [apply equals_iff|].
  split.
  { rewrite equals_iff. split; [intros ->; reflexivity|].
    intros Hp.
    rewrite <- (set_pack s setup_zero Hs), <- (set_pack t setup_zero Ht).
    rewrite Hp. reflexivity. }
  split.
  { unfold equals.
    rewrite (Z.eqb_sym (bmRequestType s)), (Z.eqb_sym (bRequest s)),
      (Z.eqb_sym (wValue s)), (Z.eqb_sym (wIndex s)),
      (Z.eqb_sym (wLength s)). reflexivity. }
  apply equals_iff. reflexivity.
Qed.

Lemma equals_decides_equality_witness :
  equals (mkSetup 0x80 6 0x0100 0 18) (mkSetup 0x80 6 0x0100 0 64) = true
  <-> pack (mkSetup 0x80 6 0x0100 0 18) = pack (mkSetup 0x80 6 0x0100 0 64).
Proof.
  pose proof (equals_decides_equality (mkSetup 0x80 6 0x0100 0 18)
                (mkSetup 0x80 6 0x0100 0 64)) as H.
  assert (H1 : setup_wf (mkSetup 0x80 6 0x0100 0 18)).
  { unfold setup_wf, is_u8, is_u16; cbn; lia. }
  assert (H2 : setup_wf (mkSetup 0x80 6 0x0100 0 64)).
  { unfold setup_wf, is_u8, is_u16; cbn; lia. }
  destruct (H H1 H2) as (_ & Hd & _).
  exact Hd.
Defined.

(** ** Events and the state machine *)

(** An event other than ControlSetup and ControlComplete only asks for a
    state, and DeviceReady enables endpoint 0 when it is granted. *)
Lemma event_non_control (K : descConsts) (ev : dcdEvent) (w : world) :
  ev_id ev <> dcdEventControlSetup ->
  ev_id ev <> dcdEventControlComplete ->
  event K ev w =
  Ok tt
     (with_self
        (with_st
           (match event_target (ev_id ev) with
            | Some t => next_state (st (self w)) t
            | None => st (self w)
            end) (self w)) w)
     (if (ev_id ev =? dcdEventDeviceReady) &&
         table_accepts (st (self w)) dcdStateDefault
      then [EndpointEnable 0 true 0] else []).
Proof.
  intros Hs Hc. unfold event, event_target. cbn [event_fuel].
  destruct (ev_id ev =? dcdEventStatusReset) eqn:E1;
  [|destruct (ev_id ev =? dcdEventStatusResume) eqn:E2;
  [|destruct (ev_id ev =? dcdEventStatusSuspend) eqn:E3;
  [|destruct (ev_id ev =? dcdEventDeviceReady) eqn:E4;
  [|destruct (ev_id ev =? dcdEventDeviceAddress) eqn:E5;
  [|destruct (ev_id ev =? dcdEventDeviceConfiguration) eqn:E6;
  [|destruct (ev_id ev =? dcdEventControlSetup) eqn:E7;
  [|destruct (ev_id ev =? dcdEventControlComplete) eqn:E8]]]]]]];
  try (apply Z.eqb_eq in E1; rewrite E1 in * );
  try (apply Z.eqb_eq in E2; rewrite E2 in * );
  try (apply Z.eqb_eq in E3; rewrite E3 in * );
  try (apply Z.eqb_eq in E5; rewrite E5 in * );
  try (apply Z.eqb_eq in E6; rewrite E6 in * );
  try (apply Z.eqb_eq in E7; contradiction);
  try (apply Z.eqb_eq in E8; contradiction);
  cbn [andb Z.eqb Pos.eqb dcdEventStatusReset dcdEventStatusResume
       dcdEventStatusSuspend dcdEventDeviceReady dcdEventDeviceAddress
       dcdEventDeviceConfiguration].
  1-3,5,6: unfold bind; rewrite setStateM_run; runm; reflexivity.
  - unfold bind; rewrite setStateM_run.
    destruct (table_accepts _ _); runm; reflexivity.
  - runm. rewrite with_st_same, with_self_same. reflexivity.
Qed.

(** X5: DeviceReady enables endpoint 0 exactly when the transition to
    Default is accepted, that is in state NotReady or Default; in any other
    state the event changes nothing and calls nothing. *)
Theorem device_ready_enables_endpoint_zero (K : descConsts) (ev : dcdEvent)
    (w : world) :
  ev_id ev = dcdEventDeviceReady ->
  (state (self w) = dcdStateNotReady \/ state (self w) = dcdStateDefault ->
   event K ev w =
     Ok tt (with_self (with_st dcdStateDefault (self w)) w)
        [EndpointEnable 0 true 0]) /\
  (state (self w) <> dcdStateNotReady ->
   state (self w) <> dcdStateDefault ->
   event K ev w = Ok tt w []).
Proof.
  intros Hid.
  assert (H1 : ev_id ev <> dcdEventControlSetup) by (rewrite Hid; discriminate).
  assert (H2 : ev_id ev <> dcdEventControlComplete)
    by (rewrite Hid; discriminate).
  rewrite (event_non_control K ev w H1 H2), Hid.
  change (event_target dcdEventDeviceReady) with (Some dcdStateDefault).
  rewrite Z.eqb_refl. cbn [andb]. unfold state, next_state.
  split.
  - intros [Hs | Hs]; rewrite Hs; reflexivity.
  - intros Hn Hd.
    assert (Hrej : table_accepts (st (self w)) dcdStateDefault = false).
    { cbn. apply orb_false_iff. split; [apply Z.eqb_neq; exact Hn|].
      apply orb_false_iff. split; [apply Z.eqb_neq; exact Hd|reflexivity]. }
    rewrite Hrej, with_st_same, with_self_same. reflexivity.
Qed.

Lemma device_ready_enables_endpoint_zero_witness :
  event sampleK (mkEvent dcdEventDeviceReady setup_zero 0)
        (sample_world (mkClass 1 1) dcdStateNotReady) =
  Ok tt (sample_world (mkClass 1 1) dcdStateDefault)
     [EndpointEnable 0 true 0].
Proof.
  pose proof (device_ready_enables_endpoint_zero sampleK
                (mkEvent dcdEventDeviceReady setup_zero 0)
                (sample_world (mkClass 1 1) dcdStateNotReady) eq_refl)
    as [H _].
  exact (H (or_introl eq_refl)).
Defined.

(** X6: a bus reset always puts the controller in NotReady, makes no call,
    and touches nothing else: the stored SETUP packet and the stage of a
    transfer that was open stay as they were. *)
Theorem status_reset_keeps_stored_packet (K : descConsts) (ev : dcdEvent)
    (w : world) :
  ev_id ev = dcdEventStatusReset ->
  event K ev w =
    Ok tt (with_self (with_st dcdStateNotReady (self w)) w) [] /\
  setup (self (with_self (with_st dcdStateNotReady (self w)) w))
    = setup (self w) /\
  stage (self (with_self (with_st dcdStateNotReady (self w)) w))
    = stage (self w) /\
  cc (self (with_self (with_st dcdStateNotReady (self w)) w)) = cc (self w).
Proof.
  intros Hid.
  assert (H1 : ev_id ev <> dcdEventControlSetup) by (rewrite Hid; discriminate).
  assert (H2 : ev_id ev <> dcdEventControlComplete)
    by (rewrite Hid; discriminate).
  rewrite (event_non_control K ev w H1 H2), Hid.
  split; [reflexivity|].
  destruct w as [d a h e]; destruct d; repeat split.
Qed.

Lemma status_reset_keeps_stored_packet_witness :
  event sampleK (mkEvent dcdEventStatusReset setup_zero 0)
        (sample_world_in (mkClass 1 1) dcdStateConfigured
           (mkSetup 0x21 0x20 0 0 7) dcdStageDataOut) =
  Ok tt (sample_world_in (mkClass 1 1) dcdStateNotReady
           (mkSetup 0x21 0x20 0 0 7) dcdStageDataOut) [].
Proof.
  pose proof (status_reset_keeps_stored_packet sampleK
                (mkEvent dcdEventStatusReset setup_zero 0)
                (sample_world_in (mkClass 1 1) dcdStateConfigured
                   (mkSetup 0x21 0x20 0 0 7) dcdStageDataOut) eq_refl)
    as [H _].
  exact H.
Defined.

(** X7: suspend and resume.  From Addressed, Configured or Suspended a
    StatusSuspend event followed by a StatusResume event ends in
    Configured, also when the device was only Addressed before; in
    NotReady and Default both events are ignored.  Neither makes a call. *)
Theorem suspend_then_resume_ends_configured (K : descConsts)
    (sus res : dcdEvent) (w : world) :
  ev_id sus = dcdEventStatusSuspend ->
  ev_id res = dcdEventStatusResume ->
  (state (self w) = dcdStateAddressed \/
   state (self w) = dcdStateConfigured \/
   state (self w) = dcdStateSuspended ->
   event K sus w =
     Ok tt (with_self (with_st dcdStateSuspended (self w)) w) [] /\
   run_events K [sus; res] w =
     Ok tt (with_self (with_st dcdStateConfigured (self w)) w) []) /\
  (state (self w) = dcdStateNotReady \/ state (self w) = dcdStateDefault ->
   run_events K [sus; res] w = Ok tt w []).
Proof.
  intros Hs Hr.
  assert (Hs1 : ev_id sus <> dcdEventControlSetup)
    by (rewrite Hs; discriminate).
  assert (Hs2 : ev_id sus <> dcdEventControlComplete)
    by (rewrite Hs; discriminate).
  assert (Hr1 : ev_id res <> dcdEventControlSetup)
    by (rewrite Hr; discriminate).
  assert (Hr2 : ev_id res <> dcdEventControlComplete)
    by (rewrite Hr; discriminate).
  cbn [run_events]. unfold bind.
  rewrite (event_non_control K sus w Hs1 Hs2), Hs.
  change (event_target dcdEventStatusSuspend) with (Some dcdStateSuspended).
  cbn [Z.eqb Pos.eqb dcdEventStatusSuspend dcdEventDeviceReady andb].
  unfold state.
  split.
  - intros Hst.
    assert (Hn : next_state (st (self w)) dcdStateSuspended
                 = dcdStateSuspended).
    { destruct Hst as [H | [H | H]]; rewrite H; reflexivity. }
    rewrite Hn. split; [reflexivity|].
    rewrite (event_non_control K res _ Hr1 Hr2), Hr.
    change (event_target dcdEventStatusResume) with (Some dcdStateConfigured).
    cbn [Z.eqb Pos.eqb dcdEventStatusResume dcdEventDeviceReady andb].
    runm.
    destruct w as [d a h e]; destruct d; reflexivity.
  - intros Hst.
    assert (Hn : next_state (st (self w)) dcdStateSuspended = st (self w)).
    { destruct Hst as [H | H]; rewrite H; reflexivity. }
    rewrite Hn, with_st_same, with_self_same.
    rewrite (event_non_control K res _ Hr1 Hr2), Hr.
    change (event_target dcdEventStatusResume) with (Some dcdStateConfigured).
    cbn [Z.eqb Pos.eqb dcdEventStatusResume dcdEventDeviceReady andb].
    assert (Hn2 : next_state (st (self w)) dcdStateConfigured = st (self w)).
    { destruct Hst as [H | H]; rewrite H; reflexivity. }
    rewrite Hn2, with_st_same, with_self_same. runm. reflexivity.
Qed.

Lemma suspend_then_resume_ends_configured_witness :
  run_events sampleK
    [mkEvent dcdEventStatusSuspend setup_zero 0;
     mkEvent dcdEventStatusResume setup_zero 0]
    (sample_world (mkClass 1 1) dcdStateAddressed) =
  Ok tt (sample_world (mkClass 1 1) dcdStateConfigured) [].
Proof.
  pose proof (suspend_then_resume_ends_configured sampleK
                (mkEvent dcdEventStatusSuspend setup_zero 0)
                (mkEvent dcdEventStatusResume setup_zero 0)
                (sample_world (mkClass 1 1) dcdStateAddressed)
                eq_refl eq_refl) as [H _].
  destruct (H (or_introl eq_refl)) as [_ Hrun].
  exact Hrun.
Defined.

(** X8: enumeration.  From NotReady the events DeviceReady, DeviceAddress
    and DeviceConfiguration, in this order, bring the controller to
    Configured, and the only call is the enabling of endpoint 0; out of
    order, DeviceAddress and DeviceConfiguration are ignored in NotReady. *)
Theorem enumeration_events_reach_configured (K : descConsts)
    (rdy adr cfg : dcdEvent) (w : world) :
  ev_id rdy = dcdEventDeviceReady ->
  ev_id adr = dcdEventDeviceAddress ->
  ev_id cfg = dcdEventDeviceConfiguration ->
  state (self w) = dcdStateNotReady ->
  run_events K [rdy; adr; cfg] w =
    Ok tt (with_self (with_st dcdStateConfigured (self w)) w)
       [EndpointEnable 0 true 0] /\
  run_events K [adr; cfg] w = Ok tt w [].
Proof.
  intros Hr Ha Hc Hst. unfold state in Hst.
  assert (Hr1 : ev_id rdy <> dcdEventControlSetup)
    by (rewrite Hr; discriminate).
  assert (Hr2 : ev_id rdy <> dcdEventControlComplete)
    by (rewrite Hr; discriminate).
  assert (Ha1 : ev_id adr <> dcdEventControlSetup)
    by (rewrite Ha; discriminate).
  assert (Ha2 : ev_id adr <> dcdEventControlComplete)
    by (rewrite Ha; discriminate).
  assert (Hc1 : ev_id cfg <> dcdEventControlSetup)
    by (rewrite Hc; discriminate).
  assert (Hc2 : ev_id cfg <> dcdEventControlComplete)
    by (rewrite Hc; discriminate).
  split.
  - cbn [run_events]. unfold bind.
    rewrite (event_non_control K rdy w Hr1 Hr2), Hr, Hst.
    rewrite (event_non_control K adr _ Ha1 Ha2), Ha.
    cbn [self with_self st with_st].
    rewrite (event_non_control K cfg _ Hc1 Hc2), Hc.
    cbn. destruct w as [d a h e]; destruct d; reflexivity.
  - cbn [run_events]. unfold bind.
    assert (Hn1 : next_state (st (self w)) dcdStateAddressed = st (self w))
      by (rewrite Hst; reflexivity).
    assert (Hn2 : next_state (st (self w)) dcdStateConfigured = st (self w))
      by (rewrite Hst; reflexivity).
    rewrite (event_non_control K adr w Ha1 Ha2), Ha.
    change (event_target dcdEventDeviceAddress) with (Some dcdStateAddressed).
    cbv beta iota. rewrite Hn1, with_st_same, with_self_same.
    rewrite (event_non_control K cfg w Hc1 Hc2), Hc.
    change (event_target dcdEventDeviceConfiguration)
      with (Some dcdStateConfigured).
    cbv beta iota. rewrite Hn2, with_st_same, with_self_same.
    reflexivity.
Qed.

Lemma enumeration_events_reach_configured_witness :
  run_events sampleK
    [mkEvent dcdEventDeviceReady setup_zero 0;
     mkEvent dcdEventDeviceAddress setup_zero 0;
     mkEvent dcdEventDeviceConfiguration setup_zero 0]
    (sample_world (mkClass 1 1) dcdStateNotReady) =
  Ok tt (sample_world (mkClass 1 1) dcdStateConfigured)
     [EndpointEnable 0 true 0].
Proof.
  pose proof (enumeration_events_reach_configured sampleK
                (mkEvent dcdEventDeviceReady setup_zero 0)
                (mkEvent dcdEventDeviceAddress setup_zero 0)
                (mkEvent dcdEventDeviceConfiguration setup_zero 0)
                (sample_world (mkClass 1 1) dcdStateNotReady)
                eq_refl eq_refl eq_refl eq_refl) as [H _].
  exact H.
Defined.

(** ** What every SETUP packet leaves alone *)

Ltac decide_set_configuration HS :=
  unfold is_set_configuration in HS;
  repeat match goal with
  | H : (_ =? _) = _ |- _ => rewrite H in HS
  end;
  repeat match goal with
  | H : (requestType _ =? _) = true |- _ =>
      apply Z.eqb_eq in H; rewrite H in HS
  | H : (requestTarget _ =? _) = true |- _ =>
      apply Z.eqb_eq in H; rewrite H in HS
  | H : (bRequest _ =? _) = true |- _ =>
      apply Z.eqb_eq in H; rewrite H in HS
  end;
  cbn in HS.

Lemma responseCalls_no_stall (p : bufref) (dxn : Z) (sup : dcdSetup) :
  count_calls is_control_stall (responseCalls p dxn sup) = 0%nat.
Proof. unfold responseCalls. destruct (0 <? dxn); reflexivity. Qed.

Lemma dispatch_post_same (K : descConsts) (sup : dcdSetup) (w : world)
    (g : dcdStage) (calls : list halCall) :
  is_set_configuration sup = false ->
  (g = dcdStageStall -> calls = []) ->
  count_calls is_control_stall calls = 0%nat ->
  g <> dcdStageSetup -> g <> dcdStageStatusIn ->
  dispatch_post K sup w g w calls.
Proof.
  intros HS Hg Hc H1 H2. unfold dispatch_post, same_binding, setup_state,
    setup_config. rewrite HS. repeat split; auto.
Qed.

Lemma dispatch_post_tables (K : descConsts) (sup : dcdSetup) (w w' : world)
    (g : dcdStage) (calls : list halCall) :
  is_set_configuration sup = false ->
  self w' = self w ->
  hal_endpointStatus w' = hal_endpointStatus w ->
  g <> dcdStageStall ->
  count_calls is_control_stall calls = 0%nat ->
  g <> dcdStageSetup -> g <> dcdStageStatusIn ->
  dispatch_post K sup w g w' calls.
Proof.
  intros HS Hs He Hg Hc H1 H2. unfold dispatch_post, same_binding,
    setup_state, setup_config. rewrite HS, Hs.
  repeat split; auto; contradiction.
Qed.

Lemma controlSetup_result (K : descConsts) (sup : dcdSetup) (w : world) :
  returns (dispatch_post K sup w) (controlSetup K (event_fuel K 1) sup w).
Proof.
  remember (is_set_configuration sup) as S eqn:HS. symmetry in HS.
  pose proof HS as HS'.
  unfold controlSetup, controlSetupStandard, controlSetupClass,
    getDescriptor.
  repeat split_if; runm; repeat split_if;
    try rewrite setConfiguration_run;
    repeat match goal with
    | |- context [match ?o with Some _ => _ | None => _ end] =>
        destruct o
    end;
    try exact I;
    decide_set_configuration HS; rewrite <- HS in HS'; clear HS S.
  all: try (cbn [returns]; apply dispatch_post_same;
            [exact HS' | intros; (reflexivity || discriminate)
            | reflexivity | discriminate | discriminate]).
  all: try (cbn [returns]; apply dispatch_post_tables;
            [exact HS' | reflexivity | reflexivity | discriminate
            | reflexivity | discriminate | discriminate]).
  all: try match goal with
       | |- context [controlDescriptorCDCACM ?k ?s ?x] =>
           let Hd := fresh "Hd" in
           destruct (controlDescriptorCDCACM k s x) as [[] ? ?| |]
             eqn:Hd; cbn [returns]; trivial;
           apply controlDescriptorCDCACM_run in Hd;
           destruct Hd as (? & ? & ? & ? & _ & _ & _ & -> & ->);
           rewrite app_nil_r; apply dispatch_post_tables;
           [exact HS' | reflexivity | reflexivity | discriminate
           | apply responseCalls_no_stall | discriminate | discriminate]
       | |- context [controlDescriptorHID ?k ?s ?x] =>
           let Hd := fresh "Hd" in
           destruct (controlDescriptorHID k s x) as [[] ? ?| |]
             eqn:Hd; cbn [returns]; trivial;
           apply controlDescriptorHID_run in Hd;
           destruct Hd as (? & ? & ? & ? & _ & _ & _ & -> & ->);
           rewrite app_nil_r; apply dispatch_post_tables;
           [exact HS' | reflexivity | reflexivity | discriminate
           | apply responseCalls_no_stall | discriminate | discriminate]
       end.
  all: cbn [returns];
    unfold dispatch_post, same_binding, setup_state, setup_config;
    rewrite HS';
    open_world w; cbn; repeat split_if;
    repeat split; try discriminate; reflexivity.
Qed.

Lemma event_control_setup_eq (K : descConsts) (sup : dcdSetup) (mask : Z)
    (w : world) :
  event K (mkEvent dcdEventControlSetup sup mask) w =
  match controlSetup K (event_fuel K 1) sup
          (with_self (with_setup sup (self w)) w) with
  | Ok g w1 calls =>
      Ok tt (with_self (with_stage g (self w1)) w1)
         (calls ++ if is_stall g then [ControlStall true (direction sup)]
                   else [])
  | Panic => Panic
  | OutOfFuel => OutOfFuel
  end.
Proof.
  destruct (controlSetup K (event_fuel K 1) sup
              (with_self (with_setup sup (self w)) w)) as [g w1 c1| |] eqn:Hrun.
  - apply event_control_setup. exact Hrun.
  - unfold event. cbn [event_fuel ev_id ev_setup].
    change (dcdEventControlSetup =? dcdEventStatusReset) with false.
    cbv iota.
    change (dcdEventControlSetup =? dcdEventStatusResume) with false.
    change (dcdEventControlSetup =? dcdEventStatusSuspend) with false.
    change (dcdEventControlSetup =? dcdEventDeviceReady) with false.
    change (dcdEventControlSetup =? dcdEventDeviceAddress) with false.
    change (dcdEventControlSetup =? dcdEventDeviceConfiguration) with false.
    change (dcdEventControlSetup =? dcdEventControlSetup) with true.
    cbv iota.
    unfold bind at 1. cbn [modD]. unfold bind at 1.
    match goal with
    | |- context [controlSetup K ?f sup ?x] =>
        change (controlSetup K f sup x)
          with (controlSetup K (event_fuel K 1) sup x)
    end.
    rewrite Hrun. reflexivity.
  - unfold event. cbn [event_fuel ev_id ev_setup].
    change (dcdEventControlSetup =? dcdEventStatusReset) with false.
    cbv iota.
    change (dcdEventControlSetup =? dcdEventStatusResume) with false.
    change (dcdEventControlSetup =? dcdEventStatusSuspend) with false.
    change (dcdEventControlSetup =? dcdEventDeviceReady) with false.
    change (dcdEventControlSetup =? dcdEventDeviceAddress) with false.
    change (dcdEventControlSetup =? dcdEventDeviceConfiguration) with false.
    change (dcdEventControlSetup =? dcdEventControlSetup) with true.
    cbv iota.
    unfold bind at 1. cbn [modD]. unfold bind at 1.
    match goal with
    | |- context [controlSetup K ?f sup ?x] =>
        change (controlSetup K f sup x)
          with (controlSetup K (event_fuel K 1) sup x)
    end.
    rewrite Hrun. reflexivity.
Qed.

(** The completion handler works on the descriptor tables only. *)
Lemma controlComplete_result (K : descConsts) (w : world) :
  returns (fun _ w' calls =>
             self w' = self w /\
             hal_endpointStatus w' = hal_endpointStatus w /\
             count_calls is_control_stall calls = 0%nat /\
             (count_calls is_control_io calls <= 1)%nat)
          (controlComplete K w).
Proof.
  unfold controlComplete, completeSetReport. runm.
  repeat split_if; runm; repeat split_if;
    repeat match goal with
    | |- context [match ?o with Some _ => _ | None => _ end] =>
        destruct o
    end; runm; repeat split_if; cbn; auto.
Qed.

(** What an event leaves of the controller's own fields. *)
Lemma event_result (K : descConsts) (ev : dcdEvent) (w w' : world)
    (calls : list halCall) :
  event K ev w = Ok tt w' calls ->
  same_binding (self w) (self w') /\
  hal_endpointStatus w' = hal_endpointStatus w /\
  st (self w') = event_state ev (st (self w)) /\
  config (cc (self w')) = event_config K ev (config (cc (self w))).
Proof.
  intros Hev. unfold event_state, event_config.
  destruct (ev_id ev =? dcdEventControlSetup) eqn:Es.
  - apply Z.eqb_eq in Es. destruct ev as [i su m]. cbn in Es. subst i.
    rewrite event_control_setup_eq in Hev. cbn [ev_setup].
    pose proof (controlSetup_result K su
                  (with_self (with_setup su (self w)) w)) as Hr.
    destruct (controlSetup K (event_fuel K 1) su
                (with_self (with_setup su (self w)) w)) as [g w1 c1| |];
      try discriminate.
    cbn [returns] in Hr. inversion Hev; subst w' calls.
    destruct Hr as ((Hh & Hc & Hp & Hi & Hk) & _ & _ & He & Hst & Hcf & _).
    destruct w1 as [[? ? ? [? ?] ? ? ? ?] ? ? ?].
    destruct w as [[? ? ? [? ?] ? ? ? ?] ? ? ?].
    cbn in *. unfold same_binding. cbn. auto 10.
  - apply Z.eqb_neq in Es.
    destruct (ev_id ev =? dcdEventControlComplete) eqn:Ec.
    + apply Z.eqb_eq in Ec.
      rewrite (event_control_complete K ev w Ec) in Hev.
      rewrite Ec. cbn [event_target Z.eqb Pos.eqb dcdEventControlComplete
        dcdEventStatusReset dcdEventStatusResume dcdEventStatusSuspend
        dcdEventDeviceReady dcdEventDeviceAddress
        dcdEventDeviceConfiguration].
      unfold bind in Hev.
      pose proof (controlComplete_result K w) as Hr.
      destruct (controlComplete K w) as [u w1 c1| |]; try discriminate.
      cbn [returns] in Hr. destruct Hr as (Hs & He & _).
      cbn [modD] in Hev. inversion Hev; subst w' calls.
      destruct w1 as [[? ? ? [? ?] ? ? ? ?] ? ? ?].
      destruct w as [[? ? ? [? ?] ? ? ? ?] ? ? ?].
      cbn in *. unfold same_binding. cbn.
      inversion Hs; subst. auto 10.
    + apply Z.eqb_neq in Ec.
      rewrite (event_non_control K ev w Es Ec) in Hev.
      inversion Hev; subst w' calls.
      destruct w as [[? ? ? [? ?] ? ? ? ?] ? ? ?].
      unfold same_binding. cbn. auto 10.
Qed.

Lemma next_state_accepted (s t : Z) :
  next_state s t = s \/ table_accepts s (next_state s t) = true.
Proof.
  unfold next_state. destruct (table_accepts s t) eqn:E; auto.
Qed.

Lemma event_state_step (ev : dcdEvent) (s : Z) :
  event_state ev s = s \/ table_accepts s (event_state ev s) = true.
Proof.
  unfold event_state, setup_state.
  destruct (ev_id ev =? dcdEventControlSetup).
  - destruct (is_set_configuration (ev_setup ev));
      [apply next_state_accepted | auto].
  - destruct (event_target (ev_id ev));
      [apply next_state_accepted | auto].
Qed.

Lemma table_accepts_valid (s t : Z) :
  table_accepts s t = true -> valid_state t.
Proof.
  intros H. apply table_accepts_target in H. unfold valid_state,
    dcdStateNotReady, dcdStateDefault, dcdStateAddressed,
    dcdStateConfigured, dcdStateSuspended. lia.
Qed.

Lemma event_state_step_state (ev : dcdEvent) (s : Z) :
  event_state ev s = step_state s ev.
Proof.
  unfold event_state, step_state, event_request, setup_state, next_state.
  destruct (ev_id ev =? dcdEventControlSetup).
  - destruct (is_set_configuration (ev_setup ev)); reflexivity.
  - destruct (event_target (ev_id ev)); reflexivity.
Qed.

(** X9: whatever the events, the pump never rebinds an instance: the
    hardware layer, the core, the port, the id and the class id that
    initDCD assigned stay.  The state after a run is the one the transition
    table gives, event by event, for the states the events ask for: an
    event moves the state to the state it asks for exactly when the table
    accepts that state from the current one, and nothing else writes the
    state; so a valid state stays valid. *)
Theorem run_events_follows_table (K : descConsts) (evs : list dcdEvent)
    (w w' : world) (calls : list halCall) :
  run_events K evs w = Ok tt w' calls ->
  same_binding (self w) (self w') /\
  state (self w') = fold_left step_state evs (state (self w)) /\
  (valid_state (state (self w)) -> valid_state (state (self w'))).
Proof.
  revert w w' calls. unfold state.
  induction evs as [|ev evs IH]; intros w w' calls Hrun.
  - cbn in Hrun. inversion Hrun; subst.
    unfold same_binding. repeat split; auto.
  - cbn [run_events] in Hrun. unfold bind in Hrun.
    destruct (event K ev w) as [[] w1 c1| |] eqn:Hev; try discriminate.
    destruct (run_events K evs w1) as [[] w2 c2| |] eqn:Hrest;
      try discriminate.
    inversion Hrun; subst w' calls.
    apply event_result in Hev.
    destruct Hev as ((Hh & Hc & Hp & Hi & Hk) & _ & Hst & _).
    destruct (IH _ _ _ Hrest) as ((Hh2 & Hc2 & Hp2 & Hi2 & Hk2) & Hfold & Hv).
    assert (Hval : valid_state (st (self w)) -> valid_state (st (self w1))).
    { intros V. rewrite Hst.
      destruct (event_state_step ev (st (self w))) as [E | E].
      - rewrite E. exact V.
      - eapply table_accepts_valid. exact E. }
    split; [|split].
    + unfold same_binding. repeat split; congruence.
    + cbn [fold_left]. rewrite Hfold, Hst, event_state_step_state.
      reflexivity.
    + auto.
Qed.

Lemma run_events_follows_table_witness :
  same_binding (self (sample_world (mkClass 1 1) dcdStateNotReady))
               (self (sample_world_in (mkClass 1 1) dcdStateDefault
                        (mkSetup 0x00 0x09 1 0 0) dcdStageStatusOut)) /\
  state (self (sample_world_in (mkClass 1 1) dcdStateDefault
                 (mkSetup 0x00 0x09 1 0 0) dcdStageStatusOut)) =
    fold_left step_state
      [mkEvent dcdEventDeviceReady setup_zero 0;
       mkEvent dcdEventDeviceConfiguration setup_zero 0;
       mkEvent dcdEventControlSetup (mkSetup 0x00 0x09 1 0 0) 0]
      (state (self (sample_world (mkClass 1 1) dcdStateNotReady))) /\
  (valid_state (state (self (sample_world (mkClass 1 1) dcdStateNotReady))) ->
   valid_state
     (state (self (sample_world_in (mkClass 1 1) dcdStateDefault
                     (mkSetup 0x00 0x09 1 0 0) dcdStageStatusOut)))).
Proof.
  exact (run_events_follows_table sampleK
           [mkEvent dcdEventDeviceReady setup_zero 0;
            mkEvent dcdEventDeviceConfiguration setup_zero 0;
            mkEvent dcdEventControlSetup (mkSetup 0x00 0x09 1 0 0) 0]
           (sample_world (mkClass 1 1) dcdStateNotReady)
           (sample_world_in (mkClass 1 1) dcdStateDefault
              (mkSetup 0x00 0x09 1 0 0) dcdStageStatusOut)
           [EndpointEnable 0 true 0; UartConfigure;
            ControlReceive BufNil 0 false] eq_refl).
Defined.

(** X10: a controller that is NotReady stays NotReady until a DeviceReady
    event arrives: no other event, and no SETUP packet, moves it. *)
Theorem not_ready_until_device_ready (K : descConsts) (evs : list dcdEvent)
    (w w' : world) (calls : list halCall) :
  Forall (fun ev => ev_id ev <> dcdEventDeviceReady) evs ->
  state (self w) = dcdStateNotReady ->
  run_events K evs w = Ok tt w' calls ->
  state (self w') = dcdStateNotReady.
Proof.
  unfold state. intros Hall. revert w w' calls.
  induction Hall as [|ev evs Hev Hall IH]; intros w w' calls Hst Hrun.
  - cbn in Hrun. inversion Hrun; subst. exact Hst.
  - cbn [run_events] in Hrun. unfold bind in Hrun.
    destruct (event K ev w) as [[] w1 c1| |] eqn:He; try discriminate.
    destruct (run_events K evs w1) as [[] w2 c2| |] eqn:Hrest;
      try discriminate.
    inversion Hrun; subst w' calls.
    apply (IH w1 w2 c2); [|exact Hrest].
    apply event_result in He. destruct He as (_ & _ & Hs & _).
    rewrite Hs, Hst. unfold event_state, setup_state, event_target.
    apply Z.eqb_neq in Hev. rewrite Hev.
    repeat match goal with
    | |- context [if ?c then _ else _] => destruct c
    end; reflexivity.
Qed.

Lemma not_ready_until_device_ready_witness :
  state (self (sample_world_in (mkClass 1 1) dcdStateNotReady
                 (mkSetup 0 9 1 0 0) dcdStageStatusOut))
  = dcdStateNotReady.
Proof.
  apply (not_ready_until_device_ready sampleK
           [mkEvent dcdEventDeviceAddress setup_zero 0;
            mkEvent dcdEventControlSetup (mkSetup 0 9 1 0 0) 0]
           (sample_world (mkClass 1 1) dcdStateNotReady)
           _
           [UartConfigure; ControlReceive BufNil 0 false]).
  - repeat constructor; discriminate.
  - reflexivity.
  - reflexivity.
Defined.

(** X11: a SETUP packet the dispatcher stalls has changed nothing and made
    no call before the stall: the event leaves the received packet, the
    Stall stage and the one call that stalls endpoint 0 in the direction of
    the packet.  A packet it does not stall never leads to a stall call,
    and the stage it leaves is DataIn, DataOut or StatusOut. *)
Theorem stalled_request_has_no_other_effect (K : descConsts)
    (sup : dcdSetup) (mask : Z) (w w' : world) (calls : list halCall) :
  event K (mkEvent dcdEventControlSetup sup mask) w = Ok tt w' calls ->
  (stage (self w') = dcdStageStall ->
   w' = with_self (with_stage dcdStageStall (with_setup sup (self w))) w /\
   calls = [ControlStall true (direction sup)]) /\
  (stage (self w') <> dcdStageStall ->
   count_calls is_control_stall calls = 0%nat /\
   (stage (self w') = dcdStageDataIn \/ stage (self w') = dcdStageDataOut \/
    stage (self w') = dcdStageStatusOut)) /\
  setup (self w') = sup.
Proof.
  intros Hev. rewrite event_control_setup_eq in Hev.
  pose proof (controlSetup_result K sup
                (with_self (with_setup sup (self w)) w)) as Hr.
  destruct (controlSetup K (event_fuel K 1) sup
              (with_self (with_setup sup (self w)) w)) as [g w1 c1| |];
    try discriminate.
  cbn [returns] in Hr. inversion Hev; subst w' calls.
  destruct Hr as (_ & Hsu & _ & _ & _ & _ & Hstall & Hcnt & Hg1 & Hg2).
  assert (Hstage : stage (self (with_self (with_stage g (self w1)) w1)) = g)
    by (destruct w1 as [[] ? ? ?]; reflexivity).
  assert (Hsetup : setup (self (with_self (with_stage g (self w1)) w1)) = sup).
  { destruct w1 as [[] ? ? ?]. cbn in *. rewrite Hsu.
    destruct w as [[] ? ? ?]. reflexivity. }
  rewrite Hstage. split; [|split].
  - intros Hg. destruct (Hstall Hg) as [-> ->]. subst g. split.
    + destruct w as [[] ? ? ?]. reflexivity.
    + reflexivity.
  - intros Hg. split.
    + destruct g; try contradiction; cbn [is_stall];
        rewrite app_nil_r; exact Hcnt.
    + destruct g; try contradiction; auto.
  - exact Hsetup.
Qed.

Lemma stalled_request_has_no_other_effect_witness :
  sample_world_in (mkClass 1 1) dcdStateConfigured
    (mkSetup 0x21 0x20 0 0 8) dcdStageStall =
  with_self
    (with_stage dcdStageStall
       (with_setup (mkSetup 0x21 0x20 0 0 8)
          (self (sample_world (mkClass 1 1) dcdStateConfigured))))
    (sample_world (mkClass 1 1) dcdStateConfigured) /\
  [ControlStall true 0] =
  [ControlStall true (direction (mkSetup 0x21 0x20 0 0 8))].
Proof.
  pose proof (stalled_request_has_no_other_effect sampleK
                (mkSetup 0x21 0x20 0 0 8) 0
                (sample_world (mkClass 1 1) dcdStateConfigured)
                (sample_world_in (mkClass 1 1) dcdStateConfigured
                   (mkSetup 0x21 0x20 0 0 8) dcdStageStall)
                [ControlStall true 0] eq_refl) as (H & _).
  exact (H eq_refl).
Defined.

(** ** Single requests *)

Lemma controlSetup_standard (K : descConsts) (n : nat) (sup : dcdSetup)
    (w : world) :
  requestType sup = descRequestTypeTypeStandard ->
  controlSetup K (event_fuel K (S n)) sup w =
  controlSetupStandard K (event_fuel K (S n)) sup w.
Proof. intros H. unfold controlSetup. rewrite H. reflexivity. Qed.

Lemma controlSetup_class (K : descConsts) (n : nat) (sup : dcdSetup)
    (w : world) :
  requestType sup = descRequestTypeTypeClass ->
  controlSetup K (event_fuel K (S n)) sup w = controlSetupClass K sup w.
Proof. intros H. unfold controlSetup. rewrite H. reflexivity. Qed.

Lemma normalConfig_range (K : descConsts) (v : Z) :
  0 <= v ->
  1 <= normalConfig K v <= Z.max 1 (dcdCount K) /\
  (1 <= v <= dcdCount K -> normalConfig K v = v).
Proof.
  intros Hv. unfold normalConfig.
  destruct (Z.eqb_spec v 0), (Z.ltb_spec (dcdCount K) v); cbn; lia.
Qed.

Lemma is_set_configuration_route (sup : dcdSetup) :
  is_set_configuration sup = true ->
  standard_request sup
    (Z.lor descRequestTypeRecipientDevice descRequestTypeDirOut)
    descRequestStandardSetConfiguration.
Proof.
  unfold is_set_configuration, standard_request. intros H.
  apply andb_prop in H. destruct H as [H H3].
  apply andb_prop in H. destruct H as [H1 H2].
  apply Z.eqb_eq in H1, H2, H3. auto.
Qed.

(** The pump on a SET_CONFIGURATION packet. *)
Lemma event_set_configuration (K : descConsts) (sup : dcdSetup) (mask : Z)
    (w : world) :
  is_set_configuration sup = true ->
  event K (mkEvent dcdEventControlSetup sup mask) w =
  Ok tt
     (with_self
        (with_stage dcdStageStatusOut
           (with_st (next_state (st (self w)) dcdStateConfigured)
              (with_config (normalConfig K (wValue sup))
                 (with_setup sup (self w))))) w)
     (if cid (cc (self w)) =? classDeviceCDCACM K then
        [UartConfigure; ControlReceive BufNil 0 false]
      else if cid (cc (self w)) =? classDeviceHID K then
        [SerialConfigure; KeyboardConfigure; MouseConfigure;
         JoystickConfigure; ControlReceive BufNil 0 false]
      else []).
Proof.
  intros Hs. apply is_set_configuration_route in Hs.
  destruct Hs as (Hty & Htg & Hreq).
  erewrite event_control_setup;
    [|rewrite controlSetup_setConfiguration by assumption;
      apply setConfiguration_run].
  cbn [is_stall]. rewrite app_nil_r.
  destruct w as [[? ? ? [? ?] ? ? ? ?] ? ? ?]. reflexivity.
Qed.

(** X12: SET_CONFIGURATION followed by GET_CONFIGURATION.  The index that
    is stored is the requested one when it lies in 1..dcdCount and 1
    otherwise, so it always lies in 1..max(1, dcdCount); GET_CONFIGURATION
    then answers with one byte, the low byte of the stored index, and
    leaves stage DataIn. *)
Theorem get_configuration_returns_stored_index (K : descConsts)
    (s1 s2 : dcdSetup) (m1 m2 : Z) (w : world) :
  setup_wf s1 ->
  is_set_configuration s1 = true ->
  standard_request s2
    (Z.lor descRequestTypeRecipientDevice descRequestTypeDirIn)
    descRequestStandardGetConfiguration ->
  let c := normalConfig K (wValue s1) in
  (exists w1 calls1,
     event K (mkEvent dcdEventControlSetup s1 m1) w = Ok tt w1 calls1 /\
     config (cc (self w1)) = c /\
     event K (mkEvent dcdEventControlSetup s2 m2) w1 =
       Ok tt (opened s2 dcdStageDataIn w1)
          [ControlStatusBuffer [u8 c];
           ControlTransmit (BufStatus [u8 c]) 1 false]) /\
  1 <= c <= Z.max 1 (dcdCount K) /\
  (1 <= wValue s1 <= dcdCount K -> c = wValue s1).
Proof.
  intros Hwf Hs1 (Hty & Htg & Hreq) c.
  split.
  - eexists. eexists. split; [apply event_set_configuration; exact Hs1|].
    split.
    + destruct w as [[? ? ? [? ?] ? ? ? ?] ? ? ?]. reflexivity.
    + erewrite event_control_setup.
      2:{ rewrite controlSetup_standard by assumption.
          unfold controlSetupStandard. rewrite Htg, Hreq.
          destruct w as [[? ? ? [? ?] ? ? ? ?] ? ? ?]. reflexivity. }
      destruct w as [[? ? ? [? ?] ? ? ? ?] ? ? ?]. reflexivity.
  - apply normalConfig_range. unfold setup_wf, is_u16 in Hwf. lia.
Qed.

Lemma get_configuration_returns_stored_index_witness :
  run_events sampleK
    [mkEvent dcdEventControlSetup (mkSetup 0x00 0x09 2 0 0) 0;
     mkEvent dcdEventControlSetup (mkSetup 0x80 0x08 0 0 1) 0]
    (sample_world (mkClass 2 1) dcdStateAddressed) =
  Ok tt
     (sample_world_in (mkClass 2 2) dcdStateConfigured
        (mkSetup 0x80 0x08 0 0 1) dcdStageDataIn)
     [SerialConfigure; KeyboardConfigure; MouseConfigure; JoystickConfigure;
      ControlReceive BufNil 0 false;
      ControlStatusBuffer [2]; ControlTransmit (BufStatus [2]) 1 false].
Proof.
  assert (Hwf : setup_wf (mkSetup 0x00 0x09 2 0 0))
    by (unfold setup_wf, is_u8, is_u16; cbn; lia).
  pose proof (get_configuration_returns_stored_index sampleK
                (mkSetup 0x00 0x09 2 0 0) (mkSetup 0x80 0x08 0 0 1) 0 0
                (sample_world (mkClass 2 1) dcdStateAddressed)
                Hwf eq_refl (conj eq_refl (conj eq_refl eq_refl)))
    as ((w1 & c1 & H1 & _ & H2) & _).
  cbn [run_events]. unfold bind at 1. rewrite H1.
  unfold bind at 1. rewrite H2. cbn [ret].
  vm_compute in H1. inversion H1; subst w1 c1. reflexivity.
Defined.

(** X13: GET_STATUS.  For the device the answer is always the two bytes
    0, 0.  For an endpoint the driver asks the hardware layer for the status
    of the endpoint numbered by the low byte of wIndex and answers with the
    16-bit status word, low byte first. *)
Theorem get_status_answers_little_endian (K : descConsts) (sup : dcdSetup)
    (mask : Z) (w : world) :
  (standard_request sup
     (Z.lor descRequestTypeRecipientDevice descRequestTypeDirIn)
     descRequestStandardGetStatus ->
   event K (mkEvent dcdEventControlSetup sup mask) w =
     Ok tt (opened sup dcdStageDataIn w)
        [ControlStatusBuffer [0; 0];
         ControlTransmit (BufStatus [0; 0]) 2 false]) /\
  (standard_request sup
     (Z.lor descRequestTypeRecipientEndpoint descRequestTypeDirIn)
     descRequestStandardGetStatus ->
   let ep := u8 (wIndex sup) in
   let word := u16 (hal_endpointStatus w ep) in
   let lo := u8 word in
   let hi := u8 (Z.shiftr word 8) in
   event K (mkEvent dcdEventControlSetup sup mask) w =
     Ok tt (opened sup dcdStageDataIn w)
        [EndpointStatus ep; ControlStatusBuffer [lo; hi];
         ControlTransmit (BufStatus [lo; hi]) 2 false] /\
   lo + 256 * hi = word).
Proof.
  split.
  - intros (Hty & Htg & Hreq).
    erewrite event_control_setup.
    2:{ rewrite controlSetup_standard by assumption.
        unfold controlSetupStandard. rewrite Htg, Hreq. reflexivity. }
    reflexivity.
  - intros (Hty & Htg & Hreq) ep word lo hi. split.
    + erewrite event_control_setup.
      2:{ rewrite controlSetup_standard by assumption.
          unfold controlSetupStandard. rewrite Htg, Hreq.
          destruct w as [[? ? ? [? ?] ? ? ? ?] ? ? ?]. reflexivity. }
      destruct w as [[? ? ? [? ?] ? ? ? ?] ? ? ?]. reflexivity.
    + subst lo hi. unfold u8.
      assert (Hw : 0 <= word < 2 ^ 16)
        by (subst word; unfold u16; apply Z.mod_pos_bound; lia).
      rewrite Z.shiftr_div_pow2 by lia.
      change (2 ^ 8) with 256 in *.
      rewrite (Z.mod_small (word / 256)).
      * pose proof (Z.div_mod word 256). lia.
      * split; [apply Z.div_pos; lia|].
        apply Z.div_lt_upper_bound; lia.
Qed.

Lemma get_status_answers_little_endian_witness :
  event sampleK (mkEvent dcdEventControlSetup (mkSetup 0x82 0x00 0 0x81 2) 0)
    (mkWorld (sample_dcd (mkClass 1 1) dcdStateConfigured)
             [sample_acm] [sample_hid] (fun ep => 0x0100 + ep)) =
  Ok tt
     (mkWorld
        (mkDcd (Some (mkDhw 0 0 0)) (Some 0) 0 (mkClass 1 1) 0
           dcdStateConfigured (mkSetup 0x82 0x00 0 0x81 2) dcdStageDataIn)
        [sample_acm] [sample_hid] (fun ep => 0x0100 + ep))
     [EndpointStatus 0x81; ControlStatusBuffer [0x81; 0x01];
      ControlTransmit (BufStatus [0x81; 0x01]) 2 false].
Proof.
  pose proof (get_status_answers_little_endian sampleK
                (mkSetup 0x82 0x00 0 0x81 2) 0
                (mkWorld (sample_dcd (mkClass 1 1) dcdStateConfigured)
                   [sample_acm] [sample_hid] (fun ep => 0x0100 + ep)))
    as [_ H].
  destruct (H (conj eq_refl (conj eq_refl eq_refl))) as [He _].
  exact He.
Defined.

(** X14: the feature requests to an endpoint.  CLEAR_FEATURE and
    SET_FEATURE hand the low byte of wIndex to the hardware layer and arm
    the zero-length status receive, whatever feature selector wValue
    names. *)
Theorem endpoint_feature_ignores_selector (K : descConsts) (sup : dcdSetup)
    (mask : Z) (w : world) :
  (standard_request sup
     (Z.lor descRequestTypeRecipientEndpoint descRequestTypeDirOut)
     descRequestStandardClearFeature ->
   event K (mkEvent dcdEventControlSetup sup mask) w =
     Ok tt (opened sup dcdStageStatusOut w)
        [EndpointClearFeature (u8 (wIndex sup));
         ControlReceive BufNil 0 false]) /\
  (standard_request sup
     (Z.lor descRequestTypeRecipientEndpoint descRequestTypeDirOut)
     descRequestStandardSetFeature ->
   event K (mkEvent dcdEventControlSetup sup mask) w =
     Ok tt (opened sup dcdStageStatusOut w)
        [EndpointSetFeature (u8 (wIndex sup));
         ControlReceive BufNil 0 false]).
Proof.
  split; intros (Hty & Htg & Hreq);
    (erewrite event_control_setup;
     [|rewrite controlSetup_standard by assumption;
       unfold controlSetupStandard; rewrite Htg, Hreq; reflexivity]);
    reflexivity.
Qed.

Lemma endpoint_feature_ignores_selector_witness :
  event sampleK (mkEvent dcdEventControlSetup (mkSetup 0x02 0x01 7 0x81 0) 0)
    (sample_world (mkClass 1 1) dcdStateConfigured) =
  Ok tt
     (sample_world_in (mkClass 1 1) dcdStateConfigured
        (mkSetup 0x02 0x01 7 0x81 0) dcdStageStatusOut)
     [EndpointClearFeature 0x81; ControlReceive BufNil 0 false].
Proof.
  pose proof (endpoint_feature_ignores_selector sampleK
                (mkSetup 0x02 0x01 7 0x81 0) 0
                (sample_world (mkClass 1 1) dcdStateConfigured)) as [H _].
  exact (H (conj eq_refl (conj eq_refl eq_refl))).
Defined.

Lemma load_beyond {A : Type} (l : list A) (i : Z) :
  len l <= i -> load l i = None.
Proof.
  intros H. unfold load.
  destruct (Z.leb_spec (len l) i); [|lia].
  rewrite orb_true_r. reflexivity.
Qed.

(** X15: SET_CONFIGURATION accepts every index up to dcdCount, the number
    of configurations of all classes together, but the descriptor responder
    indexes the table of the bound class with it.  After a
    SET_CONFIGURATION with an index beyond that table, which the dispatcher
    answers as usual, the next GET_DESCRIPTOR panics on the table index. *)
Theorem configuration_beyond_class_table_panics (K : descConsts)
    (s1 s2 : dcdSetup) (m1 m2 : Z) (w : world) :
  cid (cc (self w)) = classDeviceCDCACM K \/
  cid (cc (self w)) = classDeviceHID K ->
  is_set_configuration s1 = true ->
  class_table_len K w < wValue s1 <= dcdCount K ->
  standard_request s2
    (Z.lor descRequestTypeRecipientDevice descRequestTypeDirIn)
    descRequestStandardGetDescriptor ->
  (exists w1 calls1,
     event K (mkEvent dcdEventControlSetup s1 m1) w = Ok tt w1 calls1 /\
     stage (self w1) = dcdStageStatusOut /\
     config (cc (self w1)) = wValue s1) /\
  run_events K [mkEvent dcdEventControlSetup s1 m1;
                mkEvent dcdEventControlSetup s2 m2] w = Panic.
Proof.
  intros Hcls Hs1 Hv (Hty & Htg & Hreq).
  assert (Hlen : 0 <= class_table_len K w)
    by (unfold class_table_len, len; destruct (_ =? _); lia).
  assert (Hn : normalConfig K (wValue s1) = wValue s1).
  { unfold normalConfig.
    destruct (Z.eqb_spec (wValue s1) 0); [lia|].
    destruct (Z.ltb_spec (dcdCount K) (wValue s1)); [lia|]. reflexivity. }
  pose proof (event_set_configuration K s1 m1 w Hs1) as H1.
  rewrite Hn in H1.
  split.
  - eexists. eexists. split; [exact H1|].
    destruct w as [[? ? ? [? ?] ? ? ? ?] ? ? ?]. split; reflexivity.
  - cbn [run_events]. unfold bind at 1. rewrite H1.
    cbv beta iota. unfold bind at 1.
    rewrite event_control_setup_eq.
    rewrite controlSetup_standard by assumption.
    unfold controlSetupStandard. rewrite Htg, Hreq.
    cbv beta iota zeta.
    change (Z.lor descRequestTypeRecipientDevice descRequestTypeDirIn =?
            Z.lor descRequestTypeRecipientDevice descRequestTypeDirOut)
      with false.
    cbv iota. rewrite Z.eqb_refl.
    change (descRequestStandardGetDescriptor =? descRequestStandardGetStatus)
      with false.
    cbv iota. rewrite Z.eqb_refl.
    unfold getDescriptor, controlDescriptorCDCACM, controlDescriptorHID,
      class_table_len in *.
    destruct w as [[h c p [ci cf] i s su sg] acm hid eps].
    cbn [self cc cid config descCDCACM descHID] in *.
    run.
    destruct (ci =? classDeviceCDCACM K) eqn:E1.
    + rewrite (load_beyond acm (wValue s1 - 1)) by lia. reflexivity.
    + destruct Hcls as [Hc | Hc];
        [rewrite Hc, Z.eqb_refl in E1; discriminate|].
      rewrite Hc, Z.eqb_refl.
      rewrite (load_beyond hid (wValue s1 - 1)) by lia. reflexivity.
Qed.

Lemma configuration_beyond_class_table_panics_witness :
  run_events sampleK
    [mkEvent dcdEventControlSetup (mkSetup 0x00 0x09 2 0 0) 0;
     mkEvent dcdEventControlSetup (mkSetup 0x80 0x06 0x0100 0 18) 0]
    (sample_world (mkClass 1 1) dcdStateAddressed) = Panic.
Proof.
  pose proof (configuration_beyond_class_table_panics sampleK
                (mkSetup 0x00 0x09 2 0 0) (mkSetup 0x80 0x06 0x0100 0 18)
                0 0 (sample_world (mkClass 1 1) dcdStateAddressed)
                (or_introl eq_refl) eq_refl) as H.
  assert (Hv : class_table_len sampleK
                 (sample_world (mkClass 1 1) dcdStateAddressed)
               < wValue (mkSetup 0x00 0x09 2 0 0) <= dcdCount sampleK)
    by (vm_compute; split; [reflexivity | discriminate]).
  destruct (H Hv (conj eq_refl (conj eq_refl eq_refl))) as [_ Hp].
  exact Hp.
Defined.

(** ** Class transfers with a data stage *)

Lemma store_in_range {A : Type} (l : list A) (i : Z) (x v : A) :
  load l i = Some x -> store l i v = Some (set_nth (Z.to_nat i) v l).
Proof.
  unfold load, store.
  destruct ((i <? 0) || (len l <=? i)); [discriminate | reflexivity].
Qed.

(** X16: CDC SET_LINE_CODING, from the SETUP packet to the completion.  A
    packet with wLength 7 arms a notified receive of 7 bytes into the
    control scratch of the current configuration and leaves stage DataOut;
    whatever the interface in wIndex.  When the transfer completes, the
    scratch as the hardware layer filled it is handed to uartSetLineCoding
    only if wIndex names the control interface; either way the stored
    packet is cleared. *)
Theorem set_line_coding_applies_received_bytes (K : descConsts)
    (sup : dcdSetup) (mask : Z) (done : dcdEvent) (w : world)
    (acm : descCDCACMClass) :
  cid (cc (self w)) = classDeviceCDCACM K ->
  class_request sup
    (Z.lor descRequestTypeRecipientInterface descRequestTypeDirOut)
    descCDCRequestSetLineCoding ->
  wLength sup = 7 ->
  load (descCDCACM w) (config (cc (self w)) - 1) = Some acm ->
  acm_cx acm <> [] ->
  ev_id done = dcdEventControlComplete ->
  event K (mkEvent dcdEventControlSetup sup mask) w =
    Ok tt (opened sup dcdStageDataOut w)
       [ControlReceive (BufAcmCx (config (cc (self w)) - 1)) 7 true] /\
  (forall tab hid eps acm',
     load tab (config (cc (self w)) - 1) = Some acm' ->
     event K done (handed_back (opened sup dcdStageDataOut w) tab hid eps) =
       Ok tt (closed (handed_back (opened sup dcdStageDataOut w) tab hid eps))
          (if wIndex sup =? descCDCACMInterfaceCtrl K
           then [UartSetLineCoding (acm_cx acm')] else [])).
Proof.
  intros Hcid (Hty & Htg & Hreq) Hlen Hload Hcx Hdone.
  destruct w as [[h c p [ci cf] i s su sg] a hd eps0].
  cbn [self cc cid config descCDCACM] in *. subst ci.
  split.
  - erewrite event_control_setup.
    2:{ rewrite controlSetup_class by assumption.
        unfold controlSetupClass. rewrite Htg, Hreq, Hlen.
        run. rewrite !Z.eqb_refl. cbn. rewrite Hload.
        destruct (acm_cx acm) as [|b rest]; [contradiction|]. reflexivity. }
    reflexivity.
  - intros tab hid eps acm' Hload'.
    rewrite (event_control_complete K done _ Hdone).
    unfold controlComplete, handed_back, opened, closed.
    run. rewrite Hty, Htg, Hreq, !Z.eqb_refl. cbn. rewrite Hload'.
    destruct (wIndex sup =? descCDCACMInterfaceCtrl K); reflexivity.
Qed.

Lemma set_line_coding_applies_received_bytes_witness :
  event sampleK (mkEvent dcdEventControlComplete setup_zero 0)
    (handed_back
       (opened (mkSetup 0x21 0x20 0 0 7) dcdStageDataOut
          (sample_world (mkClass 1 1) dcdStateConfigured))
       [mkACM sample_locale [] [] [] [0; 0xC2; 1; 0; 0; 0; 8] []]
       [] (fun _ => 0)) =
  Ok tt
     (closed
        (handed_back
           (opened (mkSetup 0x21 0x20 0 0 7) dcdStageDataOut
              (sample_world (mkClass 1 1) dcdStateConfigured))
           [mkACM sample_locale [] [] [] [0; 0xC2; 1; 0; 0; 0; 8] []]
           [] (fun _ => 0)))
     [UartSetLineCoding [0; 0xC2; 1; 0; 0; 0; 8]].
Proof.
  assert (Hcx : acm_cx sample_acm <> []) by discriminate.
  pose proof (set_line_coding_applies_received_bytes sampleK
                (mkSetup 0x21 0x20 0 0 7) 0
                (mkEvent dcdEventControlComplete setup_zero 0)
                (sample_world (mkClass 1 1) dcdStateConfigured) sample_acm
                eq_refl (conj eq_refl (conj eq_refl eq_refl)) eq_refl
                eq_refl Hcx eq_refl) as [_ H].
  exact (H [mkACM sample_locale [] [] [] [0; 0xC2; 1; 0; 0; 0; 8] []]
           [] (fun _ => 0) _ eq_refl).
Defined.

(** X17: HID SET_REPORT, the SETUP packet.  Up to descHIDSxSize bytes are
    received into the control scratch of the current configuration, whose
    first byte is set to 0xE9 before the receive is armed and whose other
    bytes, like the rest of the table, stay; a longer report is stalled
    and the scratch is not touched. *)
Theorem set_report_seeds_scratch_and_receives (K : descConsts)
    (sup : dcdSetup) (mask : Z) (w : world) (hid : descHIDClass) (b : Z)
    (rest : list Z) :
  setup_wf sup ->
  cid (cc (self w)) = classDeviceHID K ->
  class_request sup
    (Z.lor descRequestTypeRecipientInterface descRequestTypeDirOut)
    descHIDRequestSetReport ->
  load (descHID w) (config (cc (self w)) - 1) = Some hid ->
  hid_cx hid = b :: rest ->
  let i := config (cc (self w)) - 1 in
  (wLength sup <= descHIDSxSize K ->
   event K (mkEvent dcdEventControlSetup sup mask) w =
     Ok tt
        (with_descHID
           (set_nth (Z.to_nat i) (hid_with_cx (0xE9 :: rest) hid) (descHID w))
           (opened sup dcdStageDataOut w))
        [ControlReceive (BufHidCx i) (wLength sup) true]) /\
  (descHIDSxSize K < wLength sup ->
   event K (mkEvent dcdEventControlSetup sup mask) w =
     Ok tt (opened sup dcdStageStall w)
        [ControlStall true (direction sup)]).
Proof.
  intros Hwf Hcid (Hty & Htg & Hreq) Hload Hcx i.
  assert (Hu : u32 (wLength sup) = wLength sup).
  { unfold u32. apply Z.mod_small.
    destruct Hwf as (_ & _ & _ & _ & Hl). unfold is_u16 in Hl. lia. }
  pose proof (store_in_range _ _ _ (hid_with_cx (0xE9 :: rest) hid) Hload)
    as Hstore.
  subst i.
  destruct w as [[h c p [ci cf] j s su sg] a hd eps].
  cbn [self cc cid config descHID] in *. subst ci.
  split; intros Hlen.
  - erewrite event_control_setup.
    2:{ rewrite controlSetup_class by assumption.
        unfold controlSetupClass. rewrite Htg, Hreq.
        run. rewrite !Z.eqb_refl.
        destruct (Z.leb_spec (wLength sup) (descHIDSxSize K)); [|lia].
        cbn. rewrite Hload, Hcx. cbn.
        unfold hid_with_cx in Hstore. rewrite Hstore, Hu.
        rewrite ?Z.eqb_refl. reflexivity. }
    reflexivity.
  - erewrite event_control_setup.
    2:{ rewrite controlSetup_class by assumption.
        unfold controlSetupClass. rewrite Htg, Hreq.
        run. rewrite !Z.eqb_refl.
        destruct (Z.leb_spec (wLength sup) (descHIDSxSize K)); [lia|].
        cbn. rewrite ?Z.eqb_refl. reflexivity. }
    reflexivity.
Qed.

Lemma set_report_seeds_scratch_and_receives_witness :
  event sampleK (mkEvent dcdEventControlSetup (mkSetup 0x21 0x09 0x0200 0 1) 0)
    (sample_world (mkClass 2 1) dcdStateConfigured) =
  Ok tt
     (mkWorld
        (mkDcd (Some (mkDhw 0 0 0)) (Some 0) 0 (mkClass 2 1) 0
           dcdStateConfigured (mkSetup 0x21 0x09 0x0200 0 1) dcdStageDataOut)
        [sample_acm] [sample_hid_received (0xE9 :: repeat 0 63)]
        (fun _ => 0))
     [ControlReceive (BufHidCx 0) 1 true].
Proof.
  assert (Hwf : setup_wf (mkSetup 0x21 0x09 0x0200 0 1))
    by (unfold setup_wf, is_u8, is_u16; cbn; lia).
  pose proof (set_report_seeds_scratch_and_receives sampleK
                (mkSetup 0x21 0x09 0x0200 0 1) 0
                (sample_world (mkClass 2 1) dcdStateConfigured)
                sample_hid 0 (repeat 0 63) Hwf eq_refl
                (conj eq_refl (conj eq_refl eq_refl)) eq_refl eq_refl)
    as [H _].
  assert (Hl : wLength (mkSetup 0x21 0x09 0x0200 0 1)
               <= descHIDSxSize sampleK) by (cbn; lia).
  exact (H Hl).
Defined.

(** X18: HID SET_REPORT to the keyboard interface, the completion.  When
    the stored packet has type 2 in the high byte of wValue and wLength 1,
    the first byte of the control scratch becomes the keyboard LED state and
    a zero-length transmit is started; for any other type or length the
    LED state stays and no call is made.  The stored packet is cleared in
    both cases. *)
Theorem keyboard_report_completion_sets_led (K : descConsts)
    (done : dcdEvent) (w : world) (hid : descHIDClass) (b : Z)
    (rest : list Z) :
  ev_id done = dcdEventControlComplete ->
  cid (cc (self w)) = classDeviceHID K ->
  class_request (setup (self w))
    (Z.lor descRequestTypeRecipientInterface descRequestTypeDirOut)
    descHIDRequestSetReport ->
  wIndex (setup (self w)) = descHIDInterfaceKeyboard K ->
  load (descHID w) (config (cc (self w)) - 1) = Some hid ->
  hid_cx hid = b :: rest ->
  let i := config (cc (self w)) - 1 in
  let accepted :=
    (Z.shiftr (wValue (setup (self w))) 8 =? descTypeConfigure) &&
    (wLength (setup (self w)) =? 1) in
  event K done w =
    if accepted then
      Ok tt
         (closed (with_descHID
                    (set_nth (Z.to_nat i) (hid_with_led b hid) (descHID w))
                    w))
         [ControlTransmit BufNil 0 false]
    else Ok tt (closed w) [].
Proof.
  intros Hdone Hcid (Hty & Htg & Hreq) Hidx Hload Hcx i accepted.
  pose proof (store_in_range _ _ _ (hid_with_led b hid) Hload) as Hstore.
  rewrite (event_control_complete K done _ Hdone).
  subst accepted i.
  unfold controlComplete, completeSetReport, closed, hid_with_led in *.
  runm. rewrite Hty, Htg, Hreq, Hcid, Hidx, !Z.eqb_refl.
  change (descHIDRequestSetReport =? descCDCRequestSetLineCoding) with false.
  change (descHIDRequestSetReport =? descCDCRequestSetControlLineState)
    with false.
  runm. rewrite Hload. runm.
  destruct (Z.shiftr (wValue (setup (self w))) 8 =? descTypeConfigure);
    cbn [andb]; [|reflexivity].
  rewrite (Z.eqb_sym (wLength (setup (self w))) 1).
  destruct (1 =? wLength (setup (self w))); [|reflexivity].
  rewrite Hcx in Hstore. rewrite Hcx.
  change (load (b :: rest) 0) with (Some b). runm.
  rewrite Hstore. reflexivity.
Qed.

Lemma keyboard_report_completion_sets_led_witness :
  event sampleK (mkEvent dcdEventControlComplete setup_zero 0)
    (sample_set_report_world (mkSetup 0x21 0x09 0x0200 0 1)
       (0x02 :: repeat 0 63)) =
  Ok tt
     (mkWorld
        (mkDcd (Some (mkDhw 0 0 0)) (Some 0) 0 (mkClass 2 1) 0
           dcdStateConfigured setup_zero dcdStageDataOut)
        [sample_acm]
        [hid_with_led 2 (sample_hid_received (0x02 :: repeat 0 63))]
        (fun _ => 0))
     [ControlTransmit BufNil 0 false].
Proof.
  exact (keyboard_report_completion_sets_led sampleK
           (mkEvent dcdEventControlComplete setup_zero 0)
           (sample_set_report_world (mkSetup 0x21 0x09 0x0200 0 1)
              (0x02 :: repeat 0 63))
           (sample_hid_received (0x02 :: repeat 0 63)) 2 (repeat 0 63)
           eq_refl eq_refl (conj eq_refl (conj eq_refl eq_refl)) eq_refl
           eq_refl eq_refl).
Defined.

(** X19: a completion with nothing to finish.  Unless the stored packet is
    a class request to an interface in the OUT direction, and so also when
    no packet is stored, ControlComplete makes no call and changes nothing
    but the stored packet, which it clears; the stage stays what the SETUP
    phase left. *)
Theorem completion_of_other_requests_is_silent (K : descConsts)
    (done : dcdEvent) (w : world) :
  ev_id done = dcdEventControlComplete ->
  requestType (setup (self w)) <> descRequestTypeTypeClass \/
  requestTarget (setup (self w)) <>
    Z.lor descRequestTypeRecipientInterface descRequestTypeDirOut ->
  event K done w = Ok tt (closed w) [] /\
  stage (self (closed w)) = stage (self w) /\
  state (self (closed w)) = state (self w).
Proof.
  intros Hdone Hnot.
  rewrite (event_control_complete K done _ Hdone).
  split; [|destruct w as [[] ? ? ?]; split; reflexivity].
  unfold controlComplete, closed. runm.
  destruct Hnot as [Hn | Hn]; apply Z.eqb_neq in Hn; rewrite Hn;
    [reflexivity|].
  destruct (requestType (setup (self w)) =? descRequestTypeTypeClass);
    reflexivity.
Qed.

Lemma completion_of_other_requests_is_silent_witness :
  event sampleK (mkEvent dcdEventControlComplete setup_zero 0)
    (sample_world_in (mkClass 1 1) dcdStateConfigured
       (mkSetup 0x80 0x06 0x0100 0 18) dcdStageDataIn) =
  Ok tt
     (sample_world_in (mkClass 1 1) dcdStateConfigured setup_zero
        dcdStageDataIn) [].
Proof.
  assert (Hn : requestType (setup (self
                 (sample_world_in (mkClass 1 1) dcdStateConfigured
                    (mkSetup 0x80 0x06 0x0100 0 18) dcdStageDataIn)))
               <> descRequestTypeTypeClass) by discriminate.
  pose proof (completion_of_other_requests_is_silent sampleK
                (mkEvent dcdEventControlComplete setup_zero 0)
                (sample_world_in (mkClass 1 1) dcdStateConfigured
                   (mkSetup 0x80 0x06 0x0100 0 18) dcdStageDataIn)
                eq_refl (or_introl Hn)) as [H _].
  exact H.
Defined.

(** ** More on the instance pool *)

(** A scan that takes a slot took the first free one. *)
Lemma initScan_took (K : descConsts) (pool pool' : list dcd)
    (k prt speed i : Z) (c : class) :
  initScan K k prt speed c pool = Some (pool', Some i) ->
  exists pre d post,
    pool = pre ++ d :: post /\ Forall taken pre /\ core d = None /\
    i = k + len pre /\ 0 <= prt < coreCount K /\
    pool' = pre ++ initSlot i prt speed c d :: post.
Proof.
  revert pool' k. induction pool as [|x rest IH]; intros pool' k H.
  - cbn in H. discriminate.
  - cbn [initScan] in H. destruct (core x) as [cx|] eqn:Ex.
    + destruct (initScan K (k + 1) prt speed c rest) as [[rest' r]|] eqn:Er;
        [|discriminate].
      inversion H; subst pool' r.
      destruct (IH _ _ Er) as (pre & d & post & -> & Hpre & Hd & Hi & Hp & ->).
      exists (x :: pre), d, post. repeat split; try assumption.
      * constructor; [unfold taken; rewrite Ex; discriminate | exact Hpre].
      * unfold len in *. cbn [length]. lia.
      * lia.
      * lia.
    + destruct ((prt <? 0) || (coreCount K <=? prt)) eqn:Ep; [discriminate|].
      inversion H; subst pool' i.
      apply orb_false_iff in Ep. destruct Ep as [E1 E2].
      apply Z.ltb_ge in E1. apply Z.leb_gt in E2.
      exists [], x, rest. unfold len. cbn.
      repeat split; try assumption; try lia.
      constructor.
Qed.

(** A scan that takes no slot found none free and changed nothing. *)
Lemma initScan_none (K : descConsts) (pool pool' : list dcd)
    (k prt speed : Z) (c : class) :
  initScan K k prt speed c pool = Some (pool', None) ->
  pool' = pool /\ Forall taken pool.
Proof.
  revert pool' k. induction pool as [|x rest IH]; intros pool' k H.
  - cbn in H. inversion H. split; constructor.
  - cbn [initScan] in H. destruct (core x) as [cx|] eqn:Ex.
    + destruct (initScan K (k + 1) prt speed c rest) as [[rest' r]|] eqn:Er;
        [|discriminate].
      inversion H; subst pool' r.
      destruct (IH _ _ Er) as [-> Hall]. split; [reflexivity|].
      constructor; [unfold taken; rewrite Ex; discriminate | exact Hall].
    + destruct ((prt <? 0) || (coreCount K <=? prt)); discriminate.
Qed.

Lemma initDCD_took (K : descConsts) (pool pool' : list dcd)
    (prt speed i : Z) (c : class) (s : status) :
  initDCD K pool prt speed c = InitDone pool' (Some i) s ->
  s = statusOK /\
  exists pre d post,
    pool = pre ++ d :: post /\ Forall taken pre /\ core d = None /\
    i = len pre /\ 0 <= prt < coreCount K /\
    pool' = pre ++ initSlot i prt speed c d :: post.
Proof.
  unfold initDCD. intros H.
  destruct (0 =? dcdCount K); [discriminate|].
  destruct ((cid c =? classDeviceCDCACM K) &&
            ((0 =? config c) || (descCDCACMCount K <? config c)));
    [discriminate|].
  destruct (initScan K 0 prt speed c pool) as [[p' [j|]]|] eqn:Es;
    try discriminate.
  inversion H; subst p' j s. split; [reflexivity|].
  destruct (initScan_took _ _ _ _ _ _ _ _ Es)
    as (pre & d & post & Hp & Hpre & Hd & Hi & Hprt & Hp').
  exists pre, d, post. repeat split; try assumption; lia.
Qed.

Lemma initSlot_taken (i prt speed : Z) (c : class) (d : dcd) :
  taken (initSlot i prt speed c d).
Proof. unfold taken, initSlot. cbn. discriminate. Qed.

Lemma free_slots_app (l1 l2 : list dcd) :
  free_slots (l1 ++ l2) = (free_slots l1 + free_slots l2)%nat.
Proof. unfold free_slots. rewrite filter_app, length_app. reflexivity. Qed.

Lemma free_slots_cons (d : dcd) (l : list dcd) :
  free_slots (d :: l) =
  ((match core d with None => 1 | Some _ => 0 end) + free_slots l)%nat.
Proof. unfold free_slots. cbn. destruct (core d); reflexivity. Qed.

(** In a pool split at a taken slot behind taken slots, a free slot lies
    further on. *)
Lemma free_after_taken (pre1 pre2 post1 post2 : list dcd) (d1 d2 : dcd) :
  pre1 ++ d1 :: post1 = pre2 ++ d2 :: post2 ->
  Forall taken pre1 -> taken d1 -> core d2 = None ->
  (length pre1 < length pre2)%nat.
Proof.
  revert pre2. induction pre1 as [|x pre1 IH]; intros pre2 Heq H1 Hd1 Hd2.
  - destruct pre2 as [|y pre2]; cbn in *; [|lia].
    inversion Heq; subst. unfold taken in Hd1. contradiction.
  - inversion H1 as [|? ? Hx Hrest]; subst.
    destruct pre2 as [|y pre2]; cbn in *.
    + inversion Heq; subst. unfold taken in Hx. contradiction.
    + inversion Heq; subst.
      apply -> Nat.succ_lt_mono. eapply IH; eassumption.
Qed.

Lemma load_app_other {A : Type} (pre post : list A) (x y : A) (k : Z) :
  k <> len pre ->
  load (pre ++ x :: post) k = load (pre ++ y :: post) k.
Proof.
  intros Hk. unfold load, len in *. rewrite !length_app. cbn [length].
  destruct ((k <? 0) || (Z.of_nat (length pre + S (length post)) <=? k))
    eqn:E; [reflexivity|].
  apply orb_false_iff in E. destruct E as [E1 E2].
  apply Z.ltb_ge in E1. apply Z.leb_gt in E2.
  destruct (Nat.lt_ge_cases (Z.to_nat k) (length pre)) as [Hlt | Hge].
  - rewrite !nth_error_app1 by exact Hlt. reflexivity.
  - rewrite !nth_error_app2 by exact Hge.
    destruct (Z.to_nat k - length pre)%nat as [|n] eqn:En; [lia|].
    reflexivity.
Qed.

Lemma len_app_cons {A : Type} (pre post : list A) (x y : A) :
  len (pre ++ x :: post) = len (pre ++ y :: post).
Proof. unfold len. rewrite !length_app. reflexivity. Qed.

(** X20: initDCD changes at most the slot it returns.  The pool keeps its
    length, every other slot is what it was, a call that returns no
    instance leaves the pool as it was, the status is OK exactly when an
    instance is returned, and a returned instance was free before and is
    in use after, so that each OK takes one free slot away. *)
Theorem initDCD_changes_only_returned_slot (K : descConsts)
    (pool pool' : list dcd) (prt speed : Z) (c : class) (r : option Z)
    (s : status) :
  initDCD K pool prt speed c = InitDone pool' r s ->
  len pool' = len pool /\
  (forall k, r <> Some k -> load pool' k = load pool k) /\
  (r = None -> pool' = pool) /\
  (s = statusOK <-> r <> None) /\
  (forall i, r = Some i ->
     exists d d', load pool i = Some d /\ core d = None /\
                  load pool' i = Some d' /\ taken d' /\
                  free_slots pool = S (free_slots pool')).
Proof.
  intros H. destruct r as [i|].
  - apply initDCD_took in H.
    destruct H as (-> & pre & d & post & -> & Hpre & Hd & Hi & Hprt & ->).
    split; [apply len_app_cons|].
    split; [intros k Hk; apply load_app_other; congruence|].
    split; [discriminate|].
    split; [split; [discriminate | reflexivity]|].
    intros i' Hi'. inversion Hi'; subst i'.
    exists d, (initSlot i prt speed c d).
    assert (Hnth : forall x, load (pre ++ x :: post) i = Some x).
    { intros x. unfold load, len in *. rewrite length_app. cbn [length].
      replace ((i <? 0) || (Z.of_nat (length pre + S (length post)) <=? i))
        with false
        by (symmetry; apply orb_false_iff; split;
            [apply Z.ltb_ge | apply Z.leb_gt]; lia).
      rewrite nth_error_app2 by lia.
      replace (Z.to_nat i - length pre)%nat with 0%nat by lia.
      reflexivity. }
    repeat split.
    + apply Hnth.
    + exact Hd.
    + apply Hnth.
    + apply initSlot_taken.
    + rewrite !free_slots_app, !free_slots_cons, Hd.
      pose proof (initSlot_taken i prt speed c d) as Ht. unfold taken in Ht.
      destruct (core (initSlot i prt speed c d)); [|contradiction].
      lia.
  - unfold initDCD in H.
    assert (Hsame : pool' = pool /\ s <> statusOK).
    { destruct (0 =? dcdCount K);
        [inversion H; split; [reflexivity | discriminate]|].
      destruct ((cid c =? classDeviceCDCACM K) &&
                ((0 =? config c) || (descCDCACMCount K <? config c)));
        [inversion H; split; [reflexivity | discriminate]|].
      destruct (initScan K 0 prt speed c pool) as [[p' [j|]]|] eqn:Es;
        try discriminate.
      inversion H; subst p' s.
      apply initScan_none in Es. destruct Es as [-> _].
      split; [reflexivity | discriminate]. }
    destruct Hsame as [-> Hs].
    split; [reflexivity|].
    split; [reflexivity|].
    split; [reflexivity|].
    split; [split; [contradiction | intros Hn; contradiction]|].
    discriminate.
Qed.

Lemma initDCD_changes_only_returned_slot_witness :
  load [sample_dcd (mkClass 1 1) 3;
        mkDcd (Some (mkDhw 1 1 0)) (Some 1) 1 (mkClass 2 1) 1 0
              setup_zero dcdStageSetup] 0 =
  load [sample_dcd (mkClass 1 1) 3; dcd_zero] 0.
Proof.
  pose proof (initDCD_changes_only_returned_slot sampleK
                [sample_dcd (mkClass 1 1) 3; dcd_zero]
                [sample_dcd (mkClass 1 1) 3;
                 mkDcd (Some (mkDhw 1 1 0)) (Some 1) 1 (mkClass 2 1) 1 0
                       setup_zero dcdStageSetup]
                1 0 (mkClass 2 1) (Some 1) statusOK eq_refl)
    as (_ & H & _).
  apply H. discriminate.
Defined.

(** X21: initDCD never hands out a slot twice.  Of two calls that both
    return an instance, the second returns a slot further on in the pool
    and leaves the instance of the first as the first call made it. *)
Theorem initDCD_successive_calls_take_distinct_slots (K : descConsts)
    (pool pool1 pool2 : list dcd) (p1 p2 sp1 sp2 i j : Z) (c1 c2 : class)
    (s1 s2 : status) :
  initDCD K pool p1 sp1 c1 = InitDone pool1 (Some i) s1 ->
  initDCD K pool1 p2 sp2 c2 = InitDone pool2 (Some j) s2 ->
  i < j /\ load pool2 i = load pool1 i /\
  exists d, load pool2 i = Some d /\ cc d = c1 /\ port d = p1 /\ id d = i.
Proof.
  intros H1 H2.
  apply initDCD_took in H1.
  destruct H1 as (_ & pre & d & post & -> & Hpre & Hd & Hi & Hprt & ->).
  apply initDCD_took in H2.
  destruct H2 as (_ & pre2 & e & post2 & Heq & Hpre2 & He & Hj & Hprt2 & ->).
  pose proof (free_after_taken _ _ _ _ _ _ Heq Hpre
                (initSlot_taken i p1 sp1 c1 d) He) as Hlt.
  assert (Hij : i < j) by (unfold len in *; lia).
  assert (Hsame : load (pre2 ++ initSlot j p2 sp2 c2 e :: post2) i =
                  load (pre ++ initSlot i p1 sp1 c1 d :: post) i).
  { rewrite Heq. apply load_app_other. lia. }
  split; [exact Hij|]. split; [exact Hsame|].
  exists (initSlot i p1 sp1 c1 d). rewrite Hsame.
  split; [|repeat split].
  unfold load, len in *. rewrite length_app. cbn [length].
  replace ((i <? 0) || (Z.of_nat (length pre + S (length post)) <=? i))
    with false
    by (symmetry; apply orb_false_iff; split;
        [apply Z.ltb_ge | apply Z.leb_gt]; lia).
  rewrite nth_error_app2 by lia.
  replace (Z.to_nat i - length pre)%nat with 0%nat by lia.
  reflexivity.
Qed.

Lemma initDCD_successive_calls_take_distinct_slots_witness :
  0 < 1 /\
  load [initSlot 0 0 0 (mkClass 1 1) dcd_zero;
        initSlot 1 1 0 (mkClass 2 1) dcd_zero] 0 =
  load [initSlot 0 0 0 (mkClass 1 1) dcd_zero; dcd_zero] 0 /\
  exists d,
    load [initSlot 0 0 0 (mkClass 1 1) dcd_zero;
          initSlot 1 1 0 (mkClass 2 1) dcd_zero] 0 = Some d /\
    cc d = mkClass 1 1 /\ port d = 0 /\ id d = 0.
Proof.
  exact (initDCD_successive_calls_take_distinct_slots sampleK
           [dcd_zero; dcd_zero]
           [initSlot 0 0 0 (mkClass 1 1) dcd_zero; dcd_zero]
           [initSlot 0 0 0 (mkClass 1 1) dcd_zero;
            initSlot 1 1 0 (mkClass 2 1) dcd_zero]
           0 1 0 0 0 1 (mkClass 1 1) (mkClass 2 1) statusOK statusOK
           eq_refl eq_refl).
Defined.

Lemma initScan_panics (K : descConsts) (pool : list dcd)
    (k prt speed : Z) (c : class) :
  initScan K k prt speed c pool = None <->
  ~ (0 <= prt < coreCount K) /\ Exists (fun d => core d = None) pool.
Proof.
  revert k. induction pool as [|x rest IH]; intros k.
  - cbn. split; [discriminate|]. intros [_ H]. inversion H.
  - cbn [initScan]. destruct (core x) as [cx|] eqn:Ex.
    + specialize (IH (k + 1)).
      destruct (initScan K (k + 1) prt speed c rest) as [[rest' r]|].
      * split; [discriminate|]. intros [Hp He].
        inversion He as [? ? Hx|? ? Hr]; subst; [congruence|].
        destruct IH as [_ IH]. discriminate (IH (conj Hp Hr)).
      * split; [|reflexivity]. intros _.
        destruct IH as [IH _]. destruct (IH eq_refl) as [Hp Hr].
        split; [exact Hp | apply Exists_cons_tl; exact Hr].
    + destruct (Z.ltb_spec prt 0), (Z.leb_spec (coreCount K) prt);
        cbn [orb]; split; try discriminate; try (intros [Hp _]; lia);
        try (intros; reflexivity).
      all: intros _; split; [lia | apply Exists_cons_hd; exact Ex].
Qed.

(** X22: initDCD panics in one case only: the arguments pass the checks,
    some slot of the pool is free, and the port is no index of the core
    table.  With invalid arguments or a full pool it answers Invalid or
    Busy for any port. *)
Theorem initDCD_panics_only_on_port_outside_core_table (K : descConsts)
    (pool : list dcd) (prt speed : Z) (c : class) :
  initDCD K pool prt speed c = InitPanic <->
  args_invalid K c = false /\ ~ (0 <= prt < coreCount K) /\
  Exists (fun d => core d = None) pool.
Proof.
  unfold initDCD, args_invalid.
  destruct (0 =? dcdCount K); cbn [orb].
  - split; [discriminate | intros [H _]; discriminate].
  - destruct ((cid c =? classDeviceCDCACM K) &&
              ((0 =? config c) || (descCDCACMCount K <? config c))).
    + split; [discriminate | intros [H _]; discriminate].
    + pose proof (initScan_panics K pool 0 prt speed c) as Hs.
      destruct (initScan K 0 prt speed c pool) as [[p' [j|]]|].
      * split; [discriminate|]. intros (_ & Hp & He).
        destruct Hs as [_ Hs]. discriminate (Hs (conj Hp He)).
      * split; [discriminate|]. intros (_ & Hp & He).
        destruct Hs as [_ Hs]. discriminate (Hs (conj Hp He)).
      * split; [|reflexivity]. intros _.
        destruct Hs as [Hs _]. destruct (Hs eq_refl) as [Hp He]. auto.
Qed.

Lemma initDCD_panics_only_on_port_outside_core_table_witness :
  initDCD sampleK [sample_dcd (mkClass 1 1) 3; dcd_zero] 2 0 (mkClass 2 1)
  = InitPanic.
Proof.
  apply (proj2 (initDCD_panics_only_on_port_outside_core_table sampleK
                  [sample_dcd (mkClass 1 1) 3; dcd_zero] 2 0 (mkClass 2 1))).
  split; [reflexivity|]. split.
  - cbn. lia.
  - apply Exists_cons_tl. apply Exists_cons_hd. reflexivity.
Defined.

(** ** The descriptor responder, further *)

Lemma copy_length {A : Type} (dst src : list A) :
  length (copy dst src) = length dst.
Proof.
  unfold copy. rewrite length_app, length_firstn, length_skipn. lia.
Qed.

Lemma set_nth_length {A : Type} (n : nat) (v : A) (l : list A) :
  length (set_nth n v l) = length l.
Proof.
  revert n. induction l as [|x l IH]; intros n;
    [destruct n; reflexivity|].
  destruct n; cbn; [reflexivity | rewrite IH; reflexivity].
Qed.

Lemma set_nth_other {A : Type} (n m : nat) (v : A) (l : list A) :
  n <> m -> nth_error (set_nth n v l) m = nth_error l m.
Proof.
  revert n m. induction l as [|x l IH]; intros n m Hnm;
    [destruct n; reflexivity|].
  destruct n, m; cbn; try reflexivity; try congruence.
  apply IH. congruence.
Qed.

Lemma set_nth_same {A : Type} (n : nat) (x : A) (l : list A) :
  nth_error l n = Some x -> set_nth n x l = l.
Proof.
  revert n. induction l as [|y l IH]; intros n H;
    [destruct n; reflexivity|].
  destruct n; cbn in *.
  - inversion H. reflexivity.
  - rewrite IH by exact H. reflexivity.
Qed.

Lemma store_length {A : Type} (l l' : list A) (i : Z) (v : A) :
  store l i v = Some l' -> len l' = len l.
Proof.
  unfold store. destruct ((i <? 0) || (len l <=? i)); [discriminate|].
  intros H; inversion H. unfold len. rewrite set_nth_length. reflexivity.
Qed.

Lemma store_some {A : Type} (l : list A) (i : Z) (v : A) :
  0 <= i < len l -> store l i v = Some (set_nth (Z.to_nat i) v l).
Proof.
  intros H. unfold store.
  destruct (Z.ltb_spec i 0); [lia|].
  destruct (Z.leb_spec (len l) i); [lia|]. reflexivity.
Qed.

Lemma load_set_nth_other {A : Type} (l : list A) (i j : Z) (v : A) :
  0 <= i -> 0 <= j -> i <> j ->
  load (set_nth (Z.to_nat i) v l) j = load l j.
Proof.
  intros Hi Hj Hij. unfold load, len. rewrite set_nth_length.
  destruct ((j <? 0) || (Z.of_nat (length l) <=? j)); [reflexivity|].
  apply set_nth_other. lia.
Qed.

Lemma load_set_nth_same {A : Type} (l : list A) (i : Z) (v : A) :
  0 <= i < len l -> load (set_nth (Z.to_nat i) v l) i = Some v.
Proof.
  intros Hi. unfold load, len in *. rewrite set_nth_length.
  destruct (Z.ltb_spec i 0); [lia|].
  destruct (Z.leb_spec (Z.of_nat (length l)) i); [lia|]. cbn [orb].
  assert (Hn : (Z.to_nat i < length l)%nat) by lia.
  revert Hn. generalize (Z.to_nat i). clear.
  induction l as [|x l IH]; intros n Hn; cbn in *; [lia|].
  destruct n; [reflexivity|]. cbn. apply IH. lia.
Qed.

Lemma store_same {A : Type} (l : list A) (i : Z) (x : A) :
  load l i = Some x -> store l i x = Some l.
Proof.
  unfold load, store.
  destruct ((i <? 0) || (len l <=? i)); [discriminate|].
  intros H. rewrite set_nth_same by exact H. reflexivity.
Qed.

(** The rune loop on a descriptor of even length: it never runs off the
    end, and leaves the length and the two header bytes. *)
Lemma writeRunes_even (rs : list (Z * Z)) (sd : list Z) :
  Forall (fun nc => 0 <= fst nc) rs ->
  Z.even (len sd) = true ->
  exists sd', writeRunes rs sd = Some sd' /\ len sd' = len sd /\
              load sd' 0 = load sd 0 /\ load sd' 1 = load sd 1.
Proof.
  intros Hrs. revert sd.
  induction Hrs as [|[n c] rs Hn _ IH]; intros sd Hev.
  - exists sd. cbn. auto.
  - cbn [writeRunes]. cbn [fst] in Hn.
    destruct (Z.leb_spec (len sd) (2 + 2 * n)) as [Hle | Hgt].
    + exists sd. auto.
    + assert (Hroom : 3 + 2 * n < len sd).
      { apply Z.even_spec in Hev. destruct Hev as [k Hk]. lia. }
      rewrite (store_some sd (2 + 2 * n)) by lia.
      pose proof (set_nth_length (Z.to_nat (2 + 2 * n)) (u8 c) sd) as Hl1.
      rewrite (store_some _ (3 + 2 * n)) by (unfold len in *; lia).
      match goal with
      | |- context [writeRunes rs ?x] =>
          destruct (IH x) as (sd' & Hw & Hlen & H0 & H1)
      end.
      { unfold len in *. rewrite !set_nth_length. exact Hev. }
      exists sd'. split; [exact Hw|].
      unfold len in *. rewrite !set_nth_length in Hlen.
      split; [exact Hlen|].
      rewrite H0, H1.
      rewrite !load_set_nth_other by lia. auto.
Qed.

(** X23: rewriting a string descriptor.  On a descriptor of even length,
    at least 2, writeString never panics: it keeps the length of the
    descriptor, sets the first byte to the low byte of 2 + 2*len(s) and the
    second to the String type, and stops writing runes where the
    descriptor ends.  On a descriptor of odd length the rune that reaches
    the last byte panics on the byte after it. *)
Theorem writeString_keeps_length_and_sets_header (s : goString)
    (sd : list Z) :
  Forall (fun nc => 0 <= fst nc) (str_range s) ->
  (2 <= len sd -> Z.even (len sd) = true ->
   exists sd', writeString s sd = Some sd' /\ len sd' = len sd /\
               load sd' 0 = Some (u8 (2 + 2 * str_len s)) /\
               load sd' 1 = Some descTypeString) /\
  (forall n c rest, 0 <= n -> len sd = 3 + 2 * n ->
     writeRunes ((n, c) :: rest) sd = None).
Proof.
  intros Hrs. split.
  - intros Hlen Hev. unfold writeString.
    rewrite (store_some sd 0) by lia.
    rewrite (store_some _ 1) by (unfold len in *; rewrite set_nth_length; lia).
    match goal with
    | |- context [writeRunes _ ?x] =>
        destruct (writeRunes_even (str_range s) x Hrs)
          as (sd' & Hw & Hl & H0 & H1)
    end.
    { unfold len in *. rewrite !set_nth_length. exact Hev. }
    exists sd'. split; [exact Hw|].
    unfold len in *. rewrite !set_nth_length in Hl. split; [exact Hl|].
    rewrite H0, H1. split.
    + change 1 with (Z.of_nat 1) at 1.
      rewrite (load_set_nth_other _ 1 0) by lia.
      apply (load_set_nth_same sd 0). unfold len. lia.
    + apply (load_set_nth_same _ 1). unfold len.
      rewrite set_nth_length. lia.
  - intros n c rest Hn Hlen. cbn [writeRunes].
    destruct (Z.leb_spec (len sd) (2 + 2 * n)); [lia|].
    rewrite (store_some sd (2 + 2 * n)) by lia.
    unfold store. unfold len in *. rewrite set_nth_length.
    destruct (Z.leb_spec (Z.of_nat (length sd)) (3 + 2 * n)); [|lia].
    rewrite orb_true_r. reflexivity.
Qed.

Lemma writeString_keeps_length_and_sets_header_witness :
  exists sd',
    writeString (ascii_string [85; 83; 66]) (repeat 0 32) = Some sd' /\
    len sd' = len (repeat 0 32) /\
    load sd' 0 = Some (u8 (2 + 2 * str_len (ascii_string [85; 83; 66]))) /\
    load sd' 1 = Some descTypeString.
Proof.
  assert (Hrs : Forall (fun nc => 0 <= fst nc)
                  (str_range (ascii_string [85; 83; 66]))).
  { repeat constructor; cbn; lia. }
  assert (Hlen : 2 <= len (repeat 0 32)) by (cbn; lia).
  destruct (writeString_keeps_length_and_sets_header
              (ascii_string [85; 83; 66]) (repeat 0 32) Hrs) as [H _].
  exact (H Hlen eq_refl).
Defined.

Lemma stringDescriptor_frame (K : descConsts) (suffix : list Z)
    (sup : dcdSetup) (locale locale' : list descStringLanguage)
    (dx dx' : list Z) (dxn : Z) :
  stringDescriptor K suffix sup locale dx = Some (locale', dx', dxn) ->
  len dx' = len dx /\ (u8 (wValue sup) = 0 -> locale' = locale).
Proof.
  unfold stringDescriptor.
  destruct (len locale =? 0); [intros H; inversion H; auto|].
  destruct (u8 (wValue sup) =? 0) eqn:E0.
  - destruct (load locale (languageCode sup locale)) as [lc|];
      [|discriminate].
    destruct (load (descriptor lc) (Z.land (wValue sup) 0xFF)) as [sd|];
      [|discriminate].
    destruct (load sd 0) as [b|]; [|discriminate].
    destruct (slice sd 0 (u8 b)) as [src|]; [|discriminate].
    intros H; inversion H. unfold len. rewrite copy_length. auto.
  - apply Z.eqb_neq in E0.
    destruct (searchLanguage K suffix sup [] locale) as [[l' [sd|]]|];
      [| |discriminate].
    + destruct (load sd 0) as [b|]; [|discriminate].
      destruct (slice sd 0 (u8 b)) as [src|]; [|discriminate].
      intros H; inversion H. unfold len. rewrite copy_length.
      split; [reflexivity | contradiction].
    + intros H; inversion H. split; [reflexivity | contradiction].
Qed.

(** X24: what a descriptor request may rewrite.  Whatever the request, the
    responder leaves the device, qualifier and configuration descriptors
    and the control scratch of the table element as they are (and the
    keyboard LED state of an HID element), keeps the length of the response
    scratch, and assembles fewer than 256 bytes; the string tables are
    rewritten by indexed string requests only. *)
Theorem responder_rewrites_only_response_scratch (K : descConsts)
    (sup : dcdSetup) :
  (forall acm acm' dxn,
     assembleCDCACM K sup acm = Some (acm', dxn) ->
     acm_device acm' = acm_device acm /\ acm_qualif acm' = acm_qualif acm /\
     acm_config acm' = acm_config acm /\ acm_cx acm' = acm_cx acm /\
     len (acm_dx acm') = len (acm_dx acm) /\ 0 <= dxn < 256 /\
     (Z.shiftr (wValue sup) 8 <> descTypeString \/ u8 (wValue sup) = 0 ->
      acm_locale acm' = acm_locale acm)) /\
  (forall hid hid' dxn,
     assembleHID K sup hid = Some (hid', dxn) ->
     hid_device hid' = hid_device hid /\ hid_qualif hid' = hid_qualif hid /\
     hid_config hid' = hid_config hid /\ hid_cx hid' = hid_cx hid /\
     hid_led hid' = hid_led hid /\
     len (hid_dx hid') = len (hid_dx hid) /\ 0 <= dxn < 256 /\
     (Z.shiftr (wValue sup) 8 <> descTypeString \/ u8 (wValue sup) = 0 ->
      hid_locale hid' = hid_locale hid)).
Proof.
  split.
  - intros acm acm' dxn H.
    pose proof (assembleCDCACM_length K sup acm acm' dxn H) as Hn.
    unfold assembleCDCACM in H.
    destruct (Z.shiftr (wValue sup) 8 =? descTypeString) eqn:Es.
    + apply Z.eqb_eq in Es. rewrite Es in H.
      cbn [Z.eqb Pos.eqb descTypeString descTypeDevice descTypeConfigure] in H.
      destruct (stringDescriptor K lit_CDCACM sup (acm_locale acm)
                  (acm_dx acm)) as [[[l' d'] n']|] eqn:Ed; [|discriminate].
      inversion H; subst acm' dxn.
      cbn [acm_locale acm_device acm_qualif acm_config acm_cx acm_dx
           hid_locale hid_device hid_qualif hid_config hid_cx hid_dx hid_led].
      apply stringDescriptor_frame in Ed. destruct Ed as [Hl Hloc].
      repeat split; try assumption; try lia.
      intros [Hne | H0]; [congruence | auto].
    + repeat match type of H with
             | context [if ?c then _ else _] => destruct c
             | context [match slice ?l ?a ?b with _ => _ end] =>
                 destruct (slice l a b)
             end;
        try discriminate; inversion H; subst acm' dxn;
        cbn [acm_locale acm_device acm_qualif acm_config acm_cx acm_dx
           hid_locale hid_device hid_qualif hid_config hid_cx hid_dx hid_led];
        unfold len in *; rewrite ?copy_length; repeat split; auto; lia.
  - intros hid hid' dxn H.
    pose proof (assembleHID_length K sup hid hid' dxn H) as Hn.
    unfold assembleHID in H.
    destruct (Z.shiftr (wValue sup) 8 =? descTypeString) eqn:Es.
    + apply Z.eqb_eq in Es. rewrite Es in H.
      cbn [Z.eqb Pos.eqb descTypeString descTypeDevice descTypeConfigure] in H.
      destruct (stringDescriptor K lit_HID sup (hid_locale hid)
                  (hid_dx hid)) as [[[l' d'] n']|] eqn:Ed; [|discriminate].
      inversion H; subst hid' dxn.
      cbn [acm_locale acm_device acm_qualif acm_config acm_cx acm_dx
           hid_locale hid_device hid_qualif hid_config hid_cx hid_dx hid_led].
      apply stringDescriptor_frame in Ed. destruct Ed as [Hl Hloc].
      repeat split; try assumption; try lia.
      intros [Hne | H0]; [congruence | auto].
    + repeat match type of H with
             | context [if ?c then _ else _] => destruct c
             | context [match slice ?l ?a ?b with _ => _ end] =>
                 destruct (slice l a b)
             | context [match hidReport ?k ?s with _ => _ end] =>
                 destruct (hidReport k s)
             end;
        try discriminate; inversion H; subst hid' dxn;
        cbn [acm_locale acm_device acm_qualif acm_config acm_cx acm_dx
           hid_locale hid_device hid_qualif hid_config hid_cx hid_dx hid_led];
        unfold len in *; rewrite ?copy_length; repeat split; auto; lia.
Qed.

Lemma responder_rewrites_only_response_scratch_witness :
  acm_cx (acm_with_dx (copy (acm_dx sample_acm)
                         (firstn 18 (acm_device sample_acm))) sample_acm)
    = acm_cx sample_acm /\
  len (acm_dx (acm_with_dx (copy (acm_dx sample_acm)
                              (firstn 18 (acm_device sample_acm)))
                 sample_acm))
    = len (acm_dx sample_acm).
Proof.
  destruct (responder_rewrites_only_response_scratch sampleK
              (mkSetup 0x80 0x06 0x0100 0 18)) as [Ha _].
  destruct (Ha sample_acm
              (acm_with_dx (copy (acm_dx sample_acm)
                              (firstn 18 (acm_device sample_acm)))
                 sample_acm) 18 eq_refl)
    as (_ & _ & _ & Hcx & Hdx & _).
  split; assumption.
Defined.

(** X25: the calls of a descriptor response.  A run of either responder
    that does not panic leaves the controller's own fields and the table of
    the other class alone, keeps the length of its own table, and either
    makes no call or flushes and then transmits the same n bytes of the
    response scratch of the current configuration, with n at most 255 and
    at most the low byte of wLength. *)
Theorem descriptor_response_is_flushed_and_bounded (K : descConsts)
    (sup : dcdSetup) (w w' : world) (calls : list halCall) :
  (controlDescriptorCDCACM K sup w = Ok tt w' calls ->
   self w' = self w /\ descHID w' = descHID w /\
   len (descCDCACM w') = len (descCDCACM w) /\
   flush_then_transmit (BufAcmDx (config (cc (self w)) - 1))
     (u8 (wLength sup)) calls) /\
  (controlDescriptorHID K sup w = Ok tt w' calls ->
   self w' = self w /\ descCDCACM w' = descCDCACM w /\
   len (descHID w') = len (descHID w) /\
   flush_then_transmit (BufHidDx (config (cc (self w)) - 1))
     (u8 (wLength sup)) calls).
Proof.
  assert (Hcalls : forall p dxn, 0 <= dxn < 256 ->
            flush_then_transmit p (u8 (wLength sup))
              (responseCalls p dxn sup)).
  { intros p dxn Hn. unfold flush_then_transmit, responseCalls.
    destruct (0 <? dxn); [right | left; reflexivity].
    exists (clampLength dxn sup). split; [reflexivity|].
    rewrite clampLength_min. pose proof (u8_range (wLength sup)). lia. }
  split; intros H.
  - apply controlDescriptorCDCACM_run in H.
    destruct H as (acm & acm' & dxn & t & _ & Ha & Hs & -> & ->).
    apply assembleCDCACM_length in Ha. apply store_length in Hs.
    destruct w as [d a h e]. cbn. auto.
  - apply controlDescriptorHID_run in H.
    destruct H as (hid & hid' & dxn & t & _ & Ha & Hs & -> & ->).
    apply assembleHID_length in Ha. apply store_length in Hs.
    destruct w as [d a h e]. cbn. auto.
Qed.

Lemma descriptor_response_is_flushed_and_bounded_witness :
  flush_then_transmit (BufAcmDx 0) (u8 8)
    [FlushCache (BufAcmDx 0) 8; ControlTransmit (BufAcmDx 0) 8 false].
Proof.
  destruct (descriptor_response_is_flushed_and_bounded sampleK
              (mkSetup 0x80 0x06 0x0100 0 8)
              (sample_world (mkClass 1 1) dcdStateDefault)
              (with_descCDCACM
                 [acm_with_dx (copy (acm_dx sample_acm)
                                 (firstn 18 (acm_device sample_acm)))
                    sample_acm]
                 (sample_world (mkClass 1 1) dcdStateDefault))
              [FlushCache (BufAcmDx 0) 8;
               ControlTransmit (BufAcmDx 0) 8 false]) as [H _].
  destruct (H eq_refl) as (_ & _ & _ & Hf).
  exact Hf.
Defined.

Lemma slice_prefix {A : Type} (l : list A) (n : Z) :
  0 <= n <= len l -> slice l 0 n = Some (firstn (Z.to_nat n) l).
Proof.
  intros H. unfold slice.
  destruct (Z.ltb_spec n 0); [lia|].
  destruct (Z.ltb_spec (len l) n); [lia|].
  cbn [Z.ltb Z.compare orb]. rewrite Z.sub_0_r. reflexivity.
Qed.

Lemma load_first {A : Type} (l : list A) :
  l <> [] -> exists x, load l 0 = Some x.
Proof. destruct l as [|x l]; [contradiction|]. exists x. reflexivity. Qed.

Lemma copy_nonempty {A : Type} (dst src : list A) :
  dst <> [] -> copy dst src <> [].
Proof.
  intros H E. apply (f_equal (@length A)) in E. rewrite copy_length in E.
  destruct dst; [contradiction | discriminate].
Qed.

Lemma copy_prefix {A : Type} (dst src : list A) :
  (length src <= length dst)%nat ->
  firstn (length src) (copy dst src) = src.
Proof.
  intros H. unfold copy. rewrite (firstn_all2 src) by exact H.
  rewrite firstn_app, firstn_all, Nat.sub_diag. cbn [firstn].
  apply app_nil_r.
Qed.

(** The CDC-ACM responder on a request for the device descriptor. *)
Lemma controlDescriptorCDCACM_device (K : descConsts) (sup : dcdSetup)
    (w : world) (acm : descCDCACMClass) :
  Z.shiftr (wValue sup) 8 = descTypeDevice ->
  load (descCDCACM w) (config (cc (self w)) - 1) = Some acm ->
  descLengthDevice <= len (acm_device acm) ->
  acm_dx acm <> [] ->
  controlDescriptorCDCACM K sup w =
  Ok tt
     (with_descCDCACM
        (set_nth (Z.to_nat (config (cc (self w)) - 1))
           (acm_with_dx
              (copy (acm_dx acm)
                 (firstn (Z.to_nat descLengthDevice) (acm_device acm))) acm)
           (descCDCACM w)) w)
     [FlushCache (BufAcmDx (config (cc (self w)) - 1))
        (Z.min descLengthDevice (u8 (wLength sup)));
      ControlTransmit (BufAcmDx (config (cc (self w)) - 1))
        (Z.min descLengthDevice (u8 (wLength sup))) false].
Proof.
  intros Hty Hload Hdev Hdx.
  unfold controlDescriptorCDCACM, assembleCDCACM, transmitDescriptor.
  runm. rewrite Hload. runm. rewrite Hty, Z.eqb_refl.
  rewrite (slice_prefix (acm_device acm) descLengthDevice)
    by (unfold descLengthDevice in *; lia).
  runm. cbn [fst snd].
  rewrite (store_in_range _ _ _ _ Hload). runm.
  change (0 <? descLengthDevice) with true. cbv iota.
  cbn [acm_dx].
  destruct (load_first _ (copy_nonempty (acm_dx acm)
              (firstn (Z.to_nat descLengthDevice) (acm_device acm)) Hdx))
    as [x Hx].
  rewrite Hx. runm. rewrite clampLength_min. reflexivity.
Qed.

(** X26: GET_DESCRIPTOR for the device descriptor under CDC-ACM, from the
    SETUP packet to the transmit.  The first 18 bytes of the device
    descriptor of the current configuration are copied to the front of its
    response scratch, the rest of the table stays, and the cache flush and
    the transmit are for min(18, low byte of wLength) bytes of that scratch;
    the stage is DataIn. *)
Theorem get_device_descriptor_copies_and_transmits (K : descConsts)
    (sup : dcdSetup) (mask : Z) (w : world) (acm : descCDCACMClass) :
  cid (cc (self w)) = classDeviceCDCACM K ->
  standard_request sup
    (Z.lor descRequestTypeRecipientDevice descRequestTypeDirIn)
    descRequestStandardGetDescriptor ->
  Z.shiftr (wValue sup) 8 = descTypeDevice ->
  load (descCDCACM w) (config (cc (self w)) - 1) = Some acm ->
  18 <= len (acm_device acm) ->
  18 <= len (acm_dx acm) ->
  let i := config (cc (self w)) - 1 in
  let n := Z.min 18 (u8 (wLength sup)) in
  let dx' := copy (acm_dx acm) (firstn 18 (acm_device acm)) in
  event K (mkEvent dcdEventControlSetup sup mask) w =
    Ok tt
       (with_descCDCACM
          (set_nth (Z.to_nat i) (acm_with_dx dx' acm) (descCDCACM w))
          (opened sup dcdStageDataIn w))
       [FlushCache (BufAcmDx i) n; ControlTransmit (BufAcmDx i) n false] /\
  firstn 18 dx' = firstn 18 (acm_device acm) /\
  len dx' = len (acm_dx acm).
Proof.
  intros Hcid (Hty & Htg & Hreq) Hdev Hload Hlen Hdx i n dx'.
  assert (Hne : acm_dx acm <> []).
  { intros E. rewrite E in Hdx. cbn in Hdx. lia. }
  split; [|split].
  - subst i n dx'.
    destruct w as [[h c p [ci cf] j s su sg] a hd eps].
    cbn [self cc cid config descCDCACM] in *. subst ci.
    erewrite event_control_setup.
    2:{ rewrite controlSetup_standard by assumption.
        unfold controlSetupStandard. rewrite Htg, Hreq.
        cbv beta iota zeta.
        change (Z.lor descRequestTypeRecipientDevice descRequestTypeDirIn =?
                Z.lor descRequestTypeRecipientDevice descRequestTypeDirOut)
          with false.
        cbv iota. rewrite Z.eqb_refl.
        change (descRequestStandardGetDescriptor =?
                descRequestStandardGetStatus) with false.
        cbv iota. rewrite Z.eqb_refl.
        unfold getDescriptor. unfold bind at 1. unfold getD at 1.
        cbn [self with_self with_setup cc cid].
        rewrite Z.eqb_refl. unfold bind at 1.
        rewrite (controlDescriptorCDCACM_device K sup _ acm Hdev);
          [reflexivity | exact Hload
          | unfold descLengthDevice; exact Hlen | exact Hne]. }
    reflexivity.
  - subst dx'.
    assert (Hl : length (firstn 18 (acm_device acm)) = 18%nat).
    { rewrite length_firstn. unfold len in Hlen. lia. }
    rewrite <- Hl at 1. apply copy_prefix. rewrite Hl.
    unfold len in Hdx. lia.
  - subst dx'. unfold len. rewrite copy_length. reflexivity.
Qed.

Lemma get_device_descriptor_copies_and_transmits_witness :
  event sampleK
    (mkEvent dcdEventControlSetup (mkSetup 0x80 0x06 0x0100 0 8) 0)
    (sample_world (mkClass 1 1) dcdStateDefault) =
  Ok tt
     (with_descCDCACM
        [acm_with_dx
           (copy (acm_dx sample_acm) (firstn 18 (acm_device sample_acm)))
           sample_acm]
        (opened (mkSetup 0x80 0x06 0x0100 0 8) dcdStageDataIn
           (sample_world (mkClass 1 1) dcdStateDefault)))
     [FlushCache (BufAcmDx 0) 8; ControlTransmit (BufAcmDx 0) 8 false].
Proof.
  assert (H1 : 18 <= len (acm_device sample_acm)) by (cbn; lia).
  assert (H2 : 18 <= len (acm_dx sample_acm)) by (cbn; lia).
  destruct (get_device_descriptor_copies_and_transmits sampleK
              (mkSetup 0x80 0x06 0x0100 0 8) 0
              (sample_world (mkClass 1 1) dcdStateDefault) sample_acm
              eq_refl (conj eq_refl (conj eq_refl eq_refl)) eq_refl eq_refl
              H1 H2) as [H _].
  exact H.
Defined.

Lemma searchLanguage_none (K : descConsts) (suffix : list Z)
    (sup : dcdSetup) (seen rest : list descStringLanguage) :
  Forall (no_string_for sup) rest ->
  searchLanguage K suffix sup seen rest = Some (seen ++ rest, None).
Proof.
  intros H. revert seen.
  induction H as [|lc rest Hlc _ IH]; intros seen; cbn [searchLanguage].
  - rewrite app_nil_r. reflexivity.
  - replace ((wIndex sup =? language lc) &&
             (Z.land (wValue sup) 255 <? len (descriptor lc))) with false.
    + rewrite IH, <- app_assoc. reflexivity.
    + symmetry. apply andb_false_iff. destruct Hlc as [Hl | Hl].
      * left. apply Z.eqb_neq. congruence.
      * right. apply Z.ltb_ge. exact Hl.
Qed.

(** X27: a string the device does not have.  Under CDC-ACM, a
    GET_DESCRIPTOR for a string index above 0 for which no language of the
    current configuration has both the language code of wIndex and a
    descriptor at that index is answered with no call at all: nothing is
    transmitted and nothing is stalled, the tables stay as they are, and
    the stage is DataIn. *)
Theorem unknown_string_gets_no_answer (K : descConsts) (sup : dcdSetup)
    (mask : Z) (w : world) (acm : descCDCACMClass) :
  cid (cc (self w)) = classDeviceCDCACM K ->
  standard_request sup
    (Z.lor descRequestTypeRecipientDevice descRequestTypeDirIn)
    descRequestStandardGetDescriptor ->
  Z.shiftr (wValue sup) 8 = descTypeString ->
  u8 (wValue sup) <> 0 ->
  load (descCDCACM w) (config (cc (self w)) - 1) = Some acm ->
  Forall (no_string_for sup) (acm_locale acm) ->
  event K (mkEvent dcdEventControlSetup sup mask) w =
    Ok tt (opened sup dcdStageDataIn w) [].
Proof.
  intros Hcid (Hty & Htg & Hreq) Hstr Hidx Hload Hnone.
  assert (Hasm : assembleCDCACM K sup acm = Some (acm, 0)).
  { unfold assembleCDCACM, stringDescriptor. rewrite Hstr.
    cbn [Z.eqb Pos.eqb descTypeString descTypeDevice descTypeConfigure].
    apply Z.eqb_neq in Hidx. rewrite Hidx.
    rewrite searchLanguage_none by exact Hnone. cbn [app].
    destruct (len (acm_locale acm) =? 0); destruct acm; reflexivity. }
  destruct w as [[h c p [ci cf] j s su sg] a hd eps].
  cbn [self cc cid config descCDCACM] in *. subst ci.
  erewrite event_control_setup.
  2:{ rewrite controlSetup_standard by assumption.
      unfold controlSetupStandard. rewrite Htg, Hreq.
      cbv beta iota zeta.
      change (Z.lor descRequestTypeRecipientDevice descRequestTypeDirIn =?
              Z.lor descRequestTypeRecipientDevice descRequestTypeDirOut)
        with false.
      cbv iota. rewrite Z.eqb_refl.
      change (descRequestStandardGetDescriptor =?
              descRequestStandardGetStatus) with false.
      cbv iota. rewrite Z.eqb_refl.
      unfold getDescriptor, controlDescriptorCDCACM, transmitDescriptor.
      run. rewrite Z.eqb_refl, Hload. run. rewrite Hasm. run.
      rewrite (store_same _ _ _ Hload). reflexivity. }
  reflexivity.
Qed.

Lemma unknown_string_gets_no_answer_witness :
  event sampleK
    (mkEvent dcdEventControlSetup (mkSetup 0x80 0x06 0x0302 0x040C 255) 0)
    (sample_world (mkClass 1 1) dcdStateDefault) =
  Ok tt
     (opened (mkSetup 0x80 0x06 0x0302 0x040C 255) dcdStageDataIn
        (sample_world (mkClass 1 1) dcdStateDefault)) [].
Proof.
  assert (Hnone : Forall (no_string_for (mkSetup 0x80 0x06 0x0302 0x040C 255))
                    (acm_locale sample_acm)).
  { constructor; [left; discriminate|].
    constructor; [left; discriminate|]. constructor. }
  assert (Hidx : u8 (wValue (mkSetup 0x80 0x06 0x0302 0x040C 255)) <> 0)
    by discriminate.
  exact (unknown_string_gets_no_answer sampleK
           (mkSetup 0x80 0x06 0x0302 0x040C 255) 0
           (sample_world (mkClass 1 1) dcdStateDefault) sample_acm
           eq_refl (conj eq_refl (conj eq_refl eq_refl)) eq_refl Hidx
           eq_refl Hnone).
Defined.

(** The HID responder on a request for a report descriptor. *)
Lemma controlDescriptorHID_report (K : descConsts) (sup : dcdSetup)
    (w : world) (hid : descHIDClass) :
  Z.shiftr (wValue sup) 8 = descTypeHIDReport ->
  load (descHID w) (config (cc (self w)) - 1) = Some hid ->
  hid_dx hid <> [] ->
  controlDescriptorHID K sup w =
  match hidReport K sup with
  | Some rep =>
      Ok tt
         (with_descHID
            (set_nth (Z.to_nat (config (cc (self w)) - 1))
               (hid_with_dx (copy (hid_dx hid) rep) hid) (descHID w)) w)
         (responseCalls (BufHidDx (config (cc (self w)) - 1))
            (u8 (len rep)) sup)
  | None => Ok tt w []
  end.
Proof.
  intros Hty Hload Hdx.
  unfold controlDescriptorHID, assembleHID, transmitDescriptor,
    responseCalls.
  runm. rewrite Hload. runm. rewrite Hty.
  cbn [Z.eqb Pos.eqb descTypeHIDReport descTypeDevice descTypeConfigure
       descTypeString descTypeQualification descTypeOtherSpeedConfiguration
       descTypeHID].
  destruct (hidReport K sup) as [rep|].
  - runm. cbn [fst snd].
    rewrite (store_in_range _ _ _ _ Hload). runm. cbn [hid_dx].
    destruct (0 <? u8 (len rep)); [|reflexivity].
    destruct (load_first _ (copy_nonempty (hid_dx hid) rep Hdx)) as [x Hx].
    rewrite Hx. reflexivity.
  - runm. cbn [fst snd]. rewrite (store_same _ _ _ Hload). runm.
    destruct w as [d a h e]. reflexivity.
Qed.

(** X28: GET_DESCRIPTOR for an HID report descriptor, addressed to an
    interface of an HID controller.  The report descriptor of the interface
    named by wIndex is copied to the front of the response scratch of the
    current configuration and min(its length, low byte of wLength) bytes
    are flushed and transmitted; for an interface that has no report
    descriptor nothing is copied and no call is made.  The stage is DataIn
    in both cases. *)
Theorem get_report_descriptor_answers_per_interface (K : descConsts)
    (sup : dcdSetup) (mask : Z) (w : world) (hid : descHIDClass) :
  classDeviceCDCACM K <> classDeviceHID K ->
  cid (cc (self w)) = classDeviceHID K ->
  standard_request sup
    (Z.lor descRequestTypeRecipientInterface descRequestTypeDirIn)
    descRequestStandardGetDescriptor ->
  Z.shiftr (wValue sup) 8 = descTypeHIDReport ->
  load (descHID w) (config (cc (self w)) - 1) = Some hid ->
  hid_dx hid <> [] ->
  let i := config (cc (self w)) - 1 in
  (forall rep, hidReport K sup = Some rep -> 0 < len rep < 256 ->
     let n := Z.min (len rep) (u8 (wLength sup)) in
     event K (mkEvent dcdEventControlSetup sup mask) w =
       Ok tt
          (with_descHID
             (set_nth (Z.to_nat i) (hid_with_dx (copy (hid_dx hid) rep) hid)
                (descHID w))
             (opened sup dcdStageDataIn w))
          [FlushCache (BufHidDx i) n; ControlTransmit (BufHidDx i) n false])
  /\
  (hidReport K sup = None ->
   event K (mkEvent dcdEventControlSetup sup mask) w =
     Ok tt (opened sup dcdStageDataIn w) []).
Proof.
  intros Hne Hcid (Hty & Htg & Hreq) Hrep Hload Hdx i. subst i.
  assert (Hrun : controlSetup K (event_fuel K 1) sup
                   (with_self (with_setup sup (self w)) w) =
                 match controlDescriptorHID K sup
                         (with_self (with_setup sup (self w)) w) with
                 | Ok _ w1 c1 => Ok dcdStageDataIn w1 c1
                 | Panic => Panic
                 | OutOfFuel => OutOfFuel
                 end).
  { rewrite controlSetup_standard by assumption.
    unfold controlSetupStandard. rewrite Htg, Hreq.
    cbv beta iota zeta.
    change (Z.lor descRequestTypeRecipientInterface descRequestTypeDirIn =?
            Z.lor descRequestTypeRecipientDevice descRequestTypeDirOut)
      with false.
    change (Z.lor descRequestTypeRecipientInterface descRequestTypeDirIn =?
            Z.lor descRequestTypeRecipientDevice descRequestTypeDirIn)
      with false.
    cbv iota. rewrite !Z.eqb_refl.
    unfold getDescriptor. unfold bind at 1. unfold getD at 1.
    replace (cid (cc (self (with_self (with_setup sup (self w)) w))))
      with (classDeviceHID K)
      by (destruct w as [[] ? ? ?]; cbn in *; congruence).
    replace (classDeviceHID K =? classDeviceCDCACM K) with false
      by (symmetry; apply Z.eqb_neq; congruence).
    rewrite Z.eqb_refl. unfold bind.
    destruct (controlDescriptorHID K sup
                (with_self (with_setup sup (self w)) w)) as [[] ? ?| |];
      cbn [ret]; rewrite ?app_nil_r; reflexivity. }
  assert (Hload' : load (descHID (with_self (with_setup sup (self w)) w))
                     (config (cc (self (with_self (with_setup sup (self w))
                                          w))) - 1) = Some hid)
    by (destruct w as [[] ? ? ?]; exact Hload).
  rewrite (controlDescriptorHID_report K sup _ hid Hrep Hload' Hdx) in Hrun.
  split.
  - intros rep Hr Hlen n. rewrite Hr in Hrun.
    rewrite (event_control_setup K sup mask w _ _ _ Hrun).
    unfold responseCalls.
    assert (Hu : u8 (len rep) = len rep)
      by (unfold u8; apply Z.mod_small; lia).
    rewrite Hu. destruct (Z.ltb_spec 0 (len rep)); [|lia].
    rewrite clampLength_min. subst n.
    destruct w as [[h c p [ci cf] j s su sg] a hd eps]. reflexivity.
  - intros Hr. rewrite Hr in Hrun.
    rewrite (event_control_setup K sup mask w _ _ _ Hrun).
    destruct w as [[h c p [ci cf] j s su sg] a hd eps]. reflexivity.
Qed.

Lemma get_report_descriptor_answers_per_interface_witness :
  event sampleK
    (mkEvent dcdEventControlSetup (mkSetup 0x81 0x06 0x2200 2 64) 0)
    (sample_world (mkClass 2 1) dcdStateConfigured) =
  Ok tt
     (with_descHID
        [hid_with_dx (copy (hid_dx sample_hid) [6; 201; 255; 9; 4; 161; 92; 192])
           sample_hid]
        (opened (mkSetup 0x81 0x06 0x2200 2 64) dcdStageDataIn
           (sample_world (mkClass 2 1) dcdStateConfigured)))
     [FlushCache (BufHidDx 0) 8; ControlTransmit (BufHidDx 0) 8 false].
Proof.
  assert (Hne : classDeviceCDCACM sampleK <> classDeviceHID sampleK)
    by discriminate.
  assert (Hdx : hid_dx sample_hid <> []) by discriminate.
  destruct (get_report_descriptor_answers_per_interface sampleK
              (mkSetup 0x81 0x06 0x2200 2 64) 0
              (sample_world (mkClass 2 1) dcdStateConfigured) sample_hid
              Hne eq_refl (conj eq_refl (conj eq_refl eq_refl)) eq_refl
              eq_refl Hdx) as [H _].
  assert (Hlen : 0 < len [6; 201; 255; 9; 4; 161; 92; 192] < 256)
    by (cbn; lia).
  exact (H [6; 201; 255; 9; 4; 161; 92; 192] eq_refl Hlen).
Defined.
